(** * toolenv: a shallow embedding of [main.go] and its specification

    The program reads a manifest of tools, resolves one download URL per
    tool, installs every archive below [env/storage] and writes the shell
    script [env/bin/activate].  Go strings are byte strings and are modelled
    by [string]; Go maps with string keys by [gmap string string]; the
    operating system, the network and the libraries the program calls are
    collected in a record [Host], over which every definition is
    parametrised. *)

From Stdlib Require Import Ascii String ZArith.
From stdpp Require Import gmap strings list fin_maps.

Local Open Scope stdpp_scope.

(** ** Byte strings *)

Module Str.

Definition is_empty (s : string) : bool :=
  match s with EmptyString => true | String _ _ => false end.

Definition eqb (a b : string) : bool := bool_decide (a = b).

Fixpoint contains (c : ascii) (s : string) : bool :=
  match s with
  | EmptyString => false
  | String d s' => if Ascii.eqb c d then true else contains c s'
  end.

Fixpoint all (p : ascii -> bool) (s : string) : bool :=
  match s with
  | EmptyString => true
  | String c s' => p c && all p s'
  end.

(** [strings.Join(elems, sep)]. *)
Fixpoint join (sep : string) (elems : list string) : string :=
  match elems with
  | [] => ""
  | [e] => e
  | e :: rest => e +:+ sep +:+ join sep rest
  end.

(** [strings.Split(s, sep)] for a one-byte separator: the pieces between
    the separators, empty pieces included. *)
Fixpoint split (sep : ascii) (s : string) : list string :=
  match s with
  | EmptyString => [""]
  | String c s' =>
      if Ascii.eqb c sep then "" :: split sep s'
      else match split sep s' with
           | [] => [String c ""]
           | p :: ps => String c p :: ps
           end
  end.

(** [strings.ReplaceAll(s, old, new)] where [old] is one byte, which is
    the only way the program calls it. *)
Fixpoint ReplaceAll (s : string) (old : ascii) (new : string) : string :=
  match s with
  | EmptyString => ""
  | String c s' =>
      if Ascii.eqb c old then new +:+ ReplaceAll s' old new
      else String c (ReplaceAll s' old new)
  end.

(** [strings.TrimPrefix] that also reports whether the prefix was there. *)
Fixpoint strip_prefix (p s : string) : option string :=
  match p, s with
  | EmptyString, _ => Some s
  | String a p', String b s' =>
      if Ascii.eqb a b then strip_prefix p' s' else None
  | String _ _, EmptyString => None
  end.

End Str.

(** ** Paths ([path/filepath] on a system whose separator is [/]) *)

Module filepath.

(** [filepath.Ext]: the suffix beginning at the final dot in the final
    element of the path, empty if there is no dot.  The library walks from
    the last byte towards the first, stops at a separator and returns the
    rest of the path at a dot; [seen] holds the bytes already passed. *)
Fixpoint Ext_loop (reversed : list ascii) (seen : string) : string :=
  match reversed with
  | [] => ""
  | c :: before =>
      if Ascii.eqb c "/" then ""
      else if Ascii.eqb c "." then String c seen
      else Ext_loop before (String c seen)
  end.

Definition Ext (path : string) : string :=
  Ext_loop (rev (list_ascii_of_string path)) "".

(** Bytes that are neither a separator nor a dot. *)
Definition no_mark (c : ascii) : bool :=
  negb (Ascii.eqb c "/") && negb (Ascii.eqb c ".").

(** The same function by recursion from the first byte. *)
Fixpoint Ext_front (path : string) : string :=
  match path with
  | EmptyString => ""
  | String c rest =>
      match Ext_front rest with
      | EmptyString =>
          if Ascii.eqb c "." && negb (Str.contains "/" rest) then path
          else ""
      | e => e
      end
  end.

(** One element of a path, seen by [Clean]; [out] holds the elements kept
    so far, last one first. *)
Definition clean_step (rooted : bool) (out : list string) (elem : string)
  : list string :=
  if Str.eqb elem "" then out
  else if Str.eqb elem "." then out
  else if Str.eqb elem ".." then
    match out with
    | top :: out' =>
        if Str.eqb top ".." then elem :: out else out'
    | [] => if rooted then [] else [elem]
    end
  else elem :: out.

(** [filepath.Clean]: drops empty and [.] elements, resolves inner [..]
    elements, keeps leading [..] elements of a relative path, and turns
    the empty result into [.]. *)
Definition Clean (path : string) : string :=
  match path with
  | EmptyString => "."
  | String c _ =>
      let rooted := Ascii.eqb c "/" in
      let out := fold_left (clean_step rooted) (Str.split "/" path) [] in
      let body := Str.join "/" (rev out) in
      if rooted then String "/"%char body
      else if Str.is_empty body then "." else body
  end.

(** [filepath.Join]: leading empty elements are ignored, the others are
    joined with the separator and cleaned; no element gives [""]. *)
Fixpoint Join (elem : list string) : string :=
  match elem with
  | [] => ""
  | e :: rest =>
      if Str.is_empty e then Join rest else Clean (Str.join "/" elem)
  end.

(** The path itself and every directory above it, as [os.MkdirAll]
    creates them. *)
Fixpoint prefixes_from (done todo : string) : list string :=
  match todo with
  | EmptyString => [done]
  | String c rest =>
      let next := prefixes_from (done +:+ String c "") rest in
      if Ascii.eqb c "/" && negb (Str.is_empty done) then done :: next
      else next
  end.

Definition prefixes (path : string) : list string := prefixes_from "" path.

(** [p] is [dir] or lies below [dir]. *)
Definition within (dir p : string) : bool :=
  match Str.strip_prefix dir p with
  | Some EmptyString => true
  | Some (String c _) => Ascii.eqb c "/"
  | None => false
  end.

End filepath.

(** ** The manifest *)

Record ToolNormalization := {
  Arch : gmap string string;
  OS : gmap string string
}.

Record Tool := {
  Name : string;
  Version : string;
  URL : string;
  Env : gmap string string;
  Normalization : option ToolNormalization
}.

Record Config := { Tools : list Tool }.

(** ** Errors

    A Go [error] is a message; the model keeps the cause and the contexts
    that [fmt.Errorf("...: %w", err)] wraps around it. *)

Inductive error : Type :=
| FunctionNotDefined (name : string)
| MissingValueForCommand
| UnclosedAction
| DownloadFailed (status : string)
| UnsupportedArchiveFormat (extension : string)
| Foreign (msg : string)
| Wrapped (context : string) (cause : error).

Inductive result (A : Type) : Type :=
| Ok (a : A)
| Err (e : error).
Arguments Ok {A} a.
Arguments Err {A} e.

Definition is_ok {A} (r : result A) : bool :=
  match r with Ok _ => true | Err _ => false end.

(** ** Templates ([text/template])

    The model covers templates made of literal text and of actions that
    hold one word: [{{.name}}] looks [name] up in the data, [{{name}}]
    calls the function [name].  Every other template is handed to the
    library, which is a parameter ([ext_Parse], [ext_Execute] below). *)

Module template.

Inductive Node : Type :=
| TextNode (text : string)
| FieldNode (ident : string).

Definition is_letter (c : ascii) : bool :=
  let n := nat_of_ascii c in
  ((65 <=? n) && (n <=? 90))%nat || ((97 <=? n) && (n <=? 122))%nat
  || Ascii.eqb c "_".

Definition is_digit (c : ascii) : bool :=
  let n := nat_of_ascii c in ((48 <=? n) && (n <=? 57))%nat.

Definition isAlphaNumeric (c : ascii) : bool := is_letter c || is_digit c.

(** The bytes of an action the model reads: words, dots and spaces. *)
Definition modelled_byte (c : ascii) : bool :=
  isAlphaNumeric c || Ascii.eqb c "." || Ascii.eqb c " ".

(** Words the lexer or the function table gives a meaning of their own:
    keywords, boolean constants and the predefined functions. *)
Definition reserved : list string :=
  [ "block"; "break"; "continue"; "define"; "else"; "end"; "if"; "range";
    "nil"; "template"; "with"; "true"; "false";
    "and"; "call"; "html"; "index"; "slice"; "js"; "len"; "not"; "or";
    "print"; "printf"; "println"; "urlquery";
    "eq"; "ge"; "gt"; "le"; "lt"; "ne" ].

Definition is_identifier (w : string) : bool :=
  match w with
  | EmptyString => false
  | String c _ => is_letter c && Str.all isAlphaNumeric w
  end.

(** The words of an action: its content split at spaces. *)
Definition words (content : string) : list string :=
  filter (fun w => w ≠ "") (Str.split " " content).

(** What an action means: [Some (Ok n)] a node, [Some (Err e)] a parse
    error, [None] an action outside the model. *)
Definition action (content : string) : option (result Node) :=
  match words content with
  | [] => Some (Err MissingValueForCommand)
  | [String "."%char w] =>
      if is_identifier w then Some (Ok (FieldNode w)) else None
  | [w] =>
      if is_identifier w && negb (bool_decide (w ∈ reserved))
      then Some (Err (FunctionNotDefined w))
      else None
  | _ => None
  end.

Definition add_text (text : string) (nodes : list Node) : list Node :=
  if Str.is_empty text then nodes else nodes ++ [TextNode text].

(** One pass over the template.  [inside = false]: [acc] is the literal
    text read since the last action; [inside = true]: [acc] is the
    content of the action read since its [{{].  The first parse error
    ends the pass; a construct outside the model before any error gives
    [None].  A template that ends inside an action is rejected: for the
    function it calls when that is not defined, else as unclosed. *)
Fixpoint scan (inside : bool) (acc : string) (nodes : list Node)
    (input : string) : option (result (list Node)) :=
  match input with
  | EmptyString =>
      if inside then
        match action acc with
        | Some (Err (FunctionNotDefined w)) => Some (Err (FunctionNotDefined w))
        | Some _ => Some (Err UnclosedAction)
        | None => None
        end
      else Some (Ok (add_text acc nodes))
  | String c rest =>
      if inside then
        match c, rest with
        | "}"%char, String "}"%char rest' =>
            match action acc with
            | Some (Ok n) => scan false "" (nodes ++ [n]) rest'
            | Some (Err e) => Some (Err e)
            | None => None
            end
        | _, _ =>
            if modelled_byte c then scan true (acc +:+ String c "") nodes rest
            else None
        end
      else
        match c, rest with
        | "{"%char, String "{"%char rest' => scan true "" (add_text acc nodes) rest'
        | _, _ => scan false (acc +:+ String c "") nodes rest
        end
  end.

(** Execution against a [map[string]string]: text is copied, a field is
    looked up in the map, and a key the map does not have prints as
    [<no value>] (the library's default for missing keys). *)
Definition exec_node (data : gmap string string) (n : Node) : string :=
  match n with
  | TextNode text => text
  | FieldNode ident =>
      match data !! ident with
      | Some v => v
      | None => "<no value>"
      end
  end.

Fixpoint exec (data : gmap string string) (nodes : list Node) : string :=
  match nodes with
  | [] => ""
  | n :: rest => exec_node data n +:+ exec data rest
  end.

End template.

(** ** The world outside the program *)

Record Response := {
  Status : string;
  StatusCode : Z;
  Body : string
}.

(** Every call that leaves the process, in the order the program makes
    them. *)
Inductive Event : Type :=
| EvPrintf (text : string)
| EvOpen (path : string)
| EvMkdirAll (path : string)
| EvRemoveAll (path : string)
| EvGet (url : string)
| EvBodyClose (url : string)
| EvCreateTemp (dir pattern name : string)
| EvCopy (file : string)
| EvClose (file : string)
| EvRemove (file : string)
| EvRun (argv : list string)
| EvWriteFile (path data : string).

(** The file system: the directories that exist and the regular files with
    their contents, both by path. *)
Record FS := {
  dirs : gset string;
  files : gmap string string
}.

(** [seed] is the state of the runtime's random choice of an iteration
    order for each [range] over a map. *)
Record World := {
  fs : FS;
  trace : list Event;
  seed : nat
}.

(** The host decides how each call ends; it sees the world at the call, so
    its answers may depend on everything that happened before.  [None] for
    a call that returns only an error means success.  The two template
    fields are the library on the templates the model of [text/template]
    does not read; [host_Decode] is the YAML decoder. *)
Record Host := {
  GOOS : string;
  GOARCH : string;
  ext_template : Type;
  ext_Parse : string -> string -> result ext_template;
  ext_Execute : ext_template -> gmap string string -> result string;
  host_Decode : string -> result Config;
  host_Open : World -> string -> result string;
  host_MkdirAll : World -> string -> option error;
  host_RemoveAll : World -> string -> option error;
  host_Get : World -> string -> result Response;
  host_CreateTemp : World -> string -> string -> result string;
  host_Copy : World -> string -> string -> option (nat * error);
  host_Remove : World -> string -> option error;
  host_Run : World -> list string -> gset string * gmap string string * option error;
  host_WriteFile : World -> string -> string -> option error;
  host_range : nat -> gmap string string -> list (string * string);
  host_range_perm : forall n m, host_range n m ≡ₚ map_to_list m
}.

(** ** Programs: state passing over the world, with errors *)

Definition M (A : Type) : Type := World -> result A * World.

Definition ret {A} (a : A) : M A := fun w => (Ok a, w).

Definition fail {A} (e : error) : M A := fun w => (Err e, w).

Definition bind {A B} (m : M A) (k : A -> M B) : M B :=
  fun w =>
    match m w with
    | (Ok a, w') => k a w'
    | (Err e, w') => (Err e, w')
    end.

Declare Scope prog_scope.
Delimit Scope prog_scope with prog.
Bind Scope prog_scope with M.
Notation "x <- m ; k" := (bind m (fun x => k))
  (at level 100, m at next level, right associativity) : prog_scope.
Notation "m ;; k" := (bind m (fun _ => k))
  (at level 100, right associativity) : prog_scope.

(** [if err := m; err != nil { return fmt.Errorf("context: %w", err) }]. *)
Definition wrap {A} (context : string) (m : M A) : M A :=
  fun w =>
    match m w with
    | (Ok a, w') => (Ok a, w')
    | (Err e, w') => (Err (Wrapped context e), w')
    end.

Definition lift {A} (r : result A) : M A := fun w => (r, w).

(** [defer cleanup]: [cleanup] runs when the rest of the function, [body],
    returns, whatever it returns; what [cleanup] returns is dropped. *)
Definition defer {A B} (cleanup : M B) (body : M A) : M A :=
  fun w =>
    let '(r, w1) := body w in
    let '(_, w2) := cleanup w1 in
    (r, w2).

(** [for _, x := range xs { body }] where [body] may return an error. *)
Fixpoint for_each {A} (xs : list A) (body : A -> M unit) : M unit :=
  match xs with
  | [] => ret tt
  | x :: rest => bind (body x) (fun _ => for_each rest body)
  end.

(** The same loop threading a value (here the [strings.Builder]). *)
Fixpoint fold_each {A S} (xs : list A) (body : S -> A -> M S) (s : S) : M S :=
  match xs with
  | [] => ret s
  | x :: rest => bind (body s x) (fun s' => fold_each rest body s')
  end.

Definition log (e : Event) (w : World) : World :=
  {| fs := fs w; trace := trace w ++ [e]; seed := seed w |}.

Definition with_fs (f : FS) (w : World) : World :=
  {| fs := f; trace := trace w; seed := seed w |}.

Definition nl : string := String "010"%char "".
Definition tab : string := String "009"%char "".
Definition quote : string := String "034"%char "".

(** ** The calls the program makes *)

Section Calls.
Context (h : Host).

Definition Printf (text : string) : M unit :=
  fun w => (Ok tt, log (EvPrintf text) w).

(** [os.MkdirAll]: the directory and every missing parent. *)
Definition os_MkdirAll (path : string) : M unit :=
  fun w =>
    let w1 := log (EvMkdirAll path) w in
    match host_MkdirAll h w path with
    | Some e => (Err e, w1)
    | None =>
        (Ok tt,
         with_fs {| dirs := list_to_set (filepath.prefixes path) ∪ dirs (fs w);
                    files := files (fs w) |} w1)
    end.

(** [os.RemoveAll]: the path and everything below it. *)
Definition os_RemoveAll (path : string) : M unit :=
  fun w =>
    let w1 := log (EvRemoveAll path) w in
    match host_RemoveAll h w path with
    | Some e => (Err e, w1)
    | None =>
        (Ok tt,
         with_fs {| dirs := filter (fun d => filepath.within path d = false)
                              (dirs (fs w));
                    files := filter (fun kv => filepath.within path kv.1 = false)
                               (files (fs w)) |} w1)
    end.

Definition http_Get (url : string) : M Response :=
  fun w => (host_Get h w url, log (EvGet url) w).

Definition Body_Close (url : string) : M unit :=
  fun w => (Ok tt, log (EvBodyClose url) w).

(** [os.CreateTemp]: a new empty file whose name the system chooses. *)
Definition os_CreateTemp (dir pattern : string) : M string :=
  fun w =>
    match host_CreateTemp h w dir pattern with
    | Err e => (Err e, log (EvCreateTemp dir pattern "") w)
    | Ok name =>
        (Ok name,
         with_fs {| dirs := dirs (fs w);
                    files := <[name := ""]> (files (fs w)) |}
           (log (EvCreateTemp dir pattern name) w))
    end.

(** [io.Copy] of a response body into a file: all of it, or the bytes
    written before the error. *)
Definition io_Copy (file body : string) : M unit :=
  fun w =>
    let w1 := log (EvCopy file) w in
    match host_Copy h w file body with
    | None =>
        (Ok tt,
         with_fs {| dirs := dirs (fs w);
                    files := <[file := body]> (files (fs w)) |} w1)
    | Some (n, e) =>
        (Err e,
         with_fs {| dirs := dirs (fs w);
                    files := <[file := String.substring 0 n body]> (files (fs w)) |}
           w1)
    end.

Definition File_Close (file : string) : M unit :=
  fun w => (Ok tt, log (EvClose file) w).

Definition os_Remove (file : string) : M unit :=
  fun w =>
    let w1 := log (EvRemove file) w in
    match host_Remove h w file with
    | Some e => (Err e, w1)
    | None =>
        (Ok tt,
         with_fs {| dirs := dirs (fs w);
                    files := delete file (files (fs w)) |} w1)
    end.

(** [exec.Command(...).Run()]: the command adds directories and files,
    and may fail after adding some. *)
Definition exec_Run (argv : list string) : M unit :=
  fun w =>
    let '(new_dirs, new_files, err) := host_Run h w argv in
    let w1 :=
      with_fs {| dirs := new_dirs ∪ dirs (fs w);
                 files := new_files ∪ files (fs w) |}
        (log (EvRun argv) w) in
    match err with
    | Some e => (Err e, w1)
    | None => (Ok tt, w1)
    end.

Definition os_WriteFile (path data : string) : M unit :=
  fun w =>
    let w1 := log (EvWriteFile path data) w in
    match host_WriteFile h w path data with
    | Some e => (Err e, w1)
    | None =>
        (Ok tt,
         with_fs {| dirs := dirs (fs w);
                    files := <[path := data]> (files (fs w)) |} w1)
    end.

(** [for key, value := range m]: the pairs of the map in the order the
    runtime picks for this loop. *)
Definition range_map (m : gmap string string) : M (list (string * string)) :=
  fun w =>
    (Ok (host_range h (seed w) m),
     {| fs := fs w; trace := trace w; seed := S (seed w) |}).

(** ** [text/template] on top of the model *)

Inductive Template : Type :=
| Modelled (nodes : list template.Node)
| Library (t : ext_template h).

Definition template_Parse (name text : string) : result Template :=
  match template.scan false "" [] text with
  | Some (Ok nodes) => Ok (Modelled nodes)
  | Some (Err e) => Err e
  | None =>
      match ext_Parse h name text with
      | Ok t => Ok (Library t)
      | Err e => Err e
      end
  end.

Definition template_Execute (t : Template) (data : gmap string string)
  : result string :=
  match t with
  | Modelled nodes => Ok (template.exec data nodes)
  | Library t => ext_Execute h t data
  end.

(** ** The program *)

Definition loadEnv : M Config :=
  fun w =>
    let w1 := log (EvOpen "toolenv.yml") w in
    match host_Open h w "toolenv.yml" with
    | Err e => (Err (Wrapped "failed to open toolenv.yml" e), w1)
    | Ok text =>
        defer (File_Close "toolenv.yml")
          (wrap "failed to parse toolenv.yml" (lift (host_Decode h text))) w1
    end.

Definition normalizeSystem (spec : option ToolNormalization)
  : string * string :=
  let arch := GOARCH h in
  let os_name := GOOS h in
  match spec with
  | Some spec =>
      let arch :=
        match Arch spec !! arch with
        | Some mapped_arch => mapped_arch
        | None => arch
        end in
      let os_name :=
        match OS spec !! os_name with
        | Some mapped_os => mapped_os
        | None => os_name
        end in
      (os_name, arch)
  | None => (os_name, arch)
  end.

Definition buildURL (template_string version os_name arch : string)
  : result string :=
  match template_Parse "url" template_string with
  | Err err => Err err
  | Ok tmpl =>
      let data : gmap string string :=
        <["version" := version]> (<["os" := os_name]> (<["arch" := arch]> ∅)) in
      match template_Execute tmpl data with
      | Err err => Err err
      | Ok buf => Ok buf
      end
  end.

Definition extractTarGz (filename install_dir : string) : M unit :=
  exec_Run ["tar"; "-xzf"; filename; "-C"; install_dir; "--strip-components=1"].

Definition extractTarXz (filename install_dir : string) : M unit :=
  exec_Run ["tar"; "-xJf"; filename; "-C"; install_dir; "--strip-components=1"].

Definition installTool (url install_dir : string) : M unit :=
  (Printf ("|- Downloading from " +:+ quote +:+ url +:+ quote +:+ nl) ;;
   response <- http_Get url ;
   defer (Body_Close url)
     (if negb (StatusCode response =? 200)%Z then
        fail (DownloadFailed (Status response))
      else
        tmp_file <- os_CreateTemp "" "toolenv-download-*" ;
        Printf ("|- Creating a temporary file " +:+ tmp_file +:+ nl) ;;
        defer (Printf ("|- Removing the temporary file " +:+ tmp_file +:+ nl))
       (defer (os_Remove tmp_file)
       (defer (File_Close tmp_file)
          (io_Copy tmp_file (Body response) ;;
           let extension := filepath.Ext url in
           if Str.eqb extension ".gz" || Str.eqb extension ".tgz" then
             extractTarGz tmp_file install_dir
           else if Str.eqb extension ".xz" then
             extractTarXz tmp_file install_dir
           else
             fail (UnsupportedArchiveFormat extension))))))%prog.

End Calls.

Section Program.
Context (h : Host).

(** A [strings.Builder] is the list of the strings written to it;
    [sb.String()] is their concatenation. *)
Definition Builder : Type := list string.

Definition WriteString (sb : Builder) (s : string) : Builder := sb ++ [s].

Definition Builder_String (sb : Builder) : string :=
  fold_right String.append "" sb.

(** The line one environment entry adds to the script, given the
    expansion [buf] of its value. *)
Definition export_line (key buf : string) : string :=
  if Str.eqb key "PATH" then
    "export PATH=" +:+ quote +:+ "$TOOLENV_DIR/" +:+ buf +:+ ":$PATH" +:+ quote +:+ nl
  else
    "export " +:+ key +:+ "=" +:+ quote +:+ "$TOOLENV_DIR/" +:+ buf +:+ quote +:+ nl.

(** The body of the loop over the entries of one tool. *)
Definition export_entry (tool : Tool) (sb : Builder) (entry : string * string)
  : M Builder :=
  let '(key, value) := entry in
  let escaped_value := Str.ReplaceAll value "034" ("\" +:+ quote) in
  (tmpl <- lift (template_Parse h "env" escaped_value) ;
   let data : gmap string string := {[ "version" := Version tool ]} in
   buf <- lift (template_Execute h tmpl data) ;
   ret (WriteString sb (export_line key buf)))%prog.

(** The body of the loop that fills [deactivate]. *)
Definition unset_entry (sb : Builder) (entry : string * string) : M Builder :=
  let '(key, _) := entry in
  if Str.eqb key "PATH" then ret sb
  else ret (WriteString sb (tab +:+ "unset " +:+ key +:+ nl)).

Definition generateActivationScript (env_name : string) (tools : list Tool)
  : M unit :=
  let activate_dir := filepath.Join [env_name; "bin"; "activate"] in
  let sb : Builder := [] in
  let sb := WriteString sb
    ("# This file must be used with " +:+ quote +:+ "source " +:+ env_name
       +:+ "/bin/activate" +:+ quote +:+ nl) in
  let sb := WriteString sb
    ("# It modifies the current shell environment." +:+ nl) in
  let sb := WriteString sb
    ("export TOOLENV_DIR=" +:+ quote +:+ "$(pwd)/" +:+ env_name +:+ quote +:+ nl) in
  let sb := WriteString sb
    ("export PREVIOUS_PATH=" +:+ quote +:+ "$PATH" +:+ quote +:+ nl) in
  (sb <- fold_each tools
           (fun sb tool =>
              entries <- range_map h (Env tool) ;
              fold_each entries (export_entry tool) sb) sb ;
   let sb := WriteString sb
     ("export OLD_PS1=" +:+ quote +:+ "$PS1" +:+ quote +:+ nl) in
   let sb := WriteString sb
     ("export PS1=" +:+ quote +:+ "(toolenv:env) $PS1" +:+ quote +:+ nl) in
   let sb := WriteString sb ("deactivate() {" +:+ nl) in
   let sb := WriteString sb
     (tab +:+ "export PS1=" +:+ quote +:+ "$OLD_PS1" +:+ quote +:+ nl) in
   let sb := WriteString sb (tab +:+ "unset OLD_PS1" +:+ nl) in
   sb <- fold_each tools
           (fun sb tool =>
              entries <- range_map h (Env tool) ;
              fold_each entries unset_entry sb) sb ;
   let sb := WriteString sb (tab +:+ "export PATH=$PREVIOUS_PATH" +:+ nl) in
   let sb := WriteString sb (tab +:+ "unset PREVIOUS_PATH" +:+ nl) in
   let sb := WriteString sb (tab +:+ "unset TOOLENV_DIR" +:+ nl) in
   let sb := WriteString sb (tab +:+ "unset -f deactivate" +:+ nl) in
   let sb := WriteString sb "}" in
   os_WriteFile h activate_dir (Builder_String sb))%prog.

(** What [setup] does for one tool of the manifest. *)
Definition setup_tool (storage_dir : string) (tool : Tool) : M unit :=
  let '(os_name, arch) := normalizeSystem h (Normalization tool) in
  (url <- wrap "failed to build the tool URL"
            (lift (buildURL h (URL tool) (Version tool) os_name arch)) ;
   let install_dir :=
     filepath.Join [storage_dir; Name tool +:+ "@" +:+ Version tool] in
   wrap "failed to create installation directory" (os_MkdirAll h install_dir) ;;
   Printf (nl +:+ "Installing " +:+ Name tool +:+ " version " +:+ Version tool
             +:+ " ..." +:+ nl) ;;
   wrap ("failed to download and extract " +:+ Name tool)
     (installTool h url install_dir) ;;
   Printf ("|- Done!" +:+ nl +:+ nl))%prog.

Definition setup (env_name : string) : M unit :=
  (config <- loadEnv h ;
   let env_dir := filepath.Join ["."; env_name] in
   let bin_dir := filepath.Join [env_dir; "bin"] in
   wrap "failed to create env" (os_MkdirAll h bin_dir) ;;
   let storage_dir := filepath.Join [env_name; "storage"] in
   wrap "failed to cleanup the storage" (os_RemoveAll h storage_dir) ;;
   for_each (Tools config) (setup_tool storage_dir) ;;
   generateActivationScript env_name (Tools config) ;;
   Printf ("Environment created at ./" +:+ env_dir +:+ nl) ;;
   Printf ("Activate with: source ./" +:+ env_dir +:+ "/bin/activate" +:+ nl))%prog.

(** The action of the only command of [main]. *)
Definition main_action : M unit := setup "env".

End Program.

(** ** A host to run the program on

    Every call succeeds, the manifest is [cfg], every download answers with
    [status], and maps are ranged over in the order of [map_to_list]. *)

Definition sample_host (cfg : Config) (status : Z) : Host := {|
  GOOS := "linux";
  GOARCH := "amd64";
  ext_template := unit;
  ext_Parse := fun _ _ => Err (Foreign "template: not read by the model");
  ext_Execute := fun _ _ => Ok "";
  host_Decode := fun _ => Ok cfg;
  host_Open := fun _ _ => Ok "tools:";
  host_MkdirAll := fun _ _ => None;
  host_RemoveAll := fun _ _ => None;
  host_Get := fun _ _ =>
    Ok {| Status := "status"; StatusCode := status; Body := "archive" |};
  host_CreateTemp := fun _ _ _ => Ok "/tmp/toolenv-download-1";
  host_Copy := fun _ _ _ => None;
  host_Remove := fun _ _ => None;
  host_Run := fun _ _ => (∅, ∅, None);
  host_WriteFile := fun _ _ _ => None;
  host_range := fun _ m => map_to_list m;
  host_range_perm := fun _ m => reflexivity (map_to_list m)
|}.

Definition empty_world : World :=
  {| fs := {| dirs := ∅; files := ∅ |}; trace := []; seed := 0 |}.

(** The two tools of the README. *)
Definition node_tool : Tool := {|
  Name := "node";
  Version := "22.18.0";
  URL := "https://nodejs.org/dist/v{{.version}}/node-v{{.version}}-{{.os}}-{{.arch}}.tar.xz";
  Env := {[ "PATH" := "storage/node@{{.version}}/bin" ]};
  Normalization := Some {| Arch := {[ "amd64" := "x64" ]}; OS := ∅ |}
|}.

Definition go_tool : Tool := {|
  Name := "go";
  Version := "1.25.0";
  URL := "https://golang.org/dl/go{{.version}}.{{.os}}-{{.arch}}.tar.gz";
  Env := {[ "GOROOT" := "storage/go@{{.version}}";
            "PATH" := "storage/go@{{.version}}/bin" ]};
  Normalization := None
|}.

(** ** The shell that reads the script

    The meaning of the lines [generateActivationScript] writes, as [bash]
    gives it when the script is sourced: assignments with [export], a
    double-quoted word with parameter expansion and [$(pwd)], [unset],
    and a function definition whose body is run when the function is
    called.  Anything else is outside the model ([None]). *)

Module sh.

Record State := {
  vars : gmap string string;
  funcs : gmap string (list string);
  cwd : string
}.

Definition getvar (st : State) (x : string) : string :=
  default "" (vars st !! x).

Definition setvar (x v : string) (st : State) : State :=
  {| vars := <[x := v]> (vars st); funcs := funcs st; cwd := cwd st |}.

Definition unset_var (x : string) (st : State) : State :=
  {| vars := delete x (vars st); funcs := funcs st; cwd := cwd st |}.

Definition unset_func (f : string) (st : State) : State :=
  {| vars := vars st; funcs := delete f (funcs st); cwd := cwd st |}.

Definition define (f : string) (body : list string) (st : State) : State :=
  {| vars := vars st; funcs := <[f := body]> (funcs st); cwd := cwd st |}.

Definition name_start (c : ascii) : bool := template.is_letter c.
Definition name_char (c : ascii) : bool := template.isAlphaNumeric c.

Definition is_name (x : string) : bool :=
  match x with
  | EmptyString => false
  | String c _ => name_start c && Str.all name_char x
  end.

(** Where the reader is inside a double-quoted word. *)
Inductive mode : Type :=
| Plain
| Escape
| Dollar
| Name (acc : string)
| Subst (acc : string).

Inductive next : Type :=
| Stop (out : string)
| Go (m : mode) (out : string)
| Bad.

Definition snoc (s : string) (c : ascii) : string := s +:+ String c "".

Definition plain_byte (out : string) (c : ascii) : next :=
  if Ascii.eqb c "034" then Stop out
  else if Ascii.eqb c "\" then Go Escape out
  else if Ascii.eqb c "$" then Go Dollar out
  else if Ascii.eqb c "`" then Bad
  else Go Plain (snoc out c).

Definition step (st : State) (m : mode) (out : string) (c : ascii) : next :=
  match m with
  | Plain => plain_byte out c
  | Escape =>
      if Ascii.eqb c "$" || Ascii.eqb c "`" || Ascii.eqb c "034" || Ascii.eqb c "\"
      then Go Plain (snoc out c)
      else if Ascii.eqb c "010" then Go Plain out
      else Go Plain (snoc (snoc out "\") c)
  | Dollar =>
      if name_start c then Go (Name (String c "")) out
      else if Ascii.eqb c "(" then Go (Subst "") out
      else Bad
  | Name acc =>
      if name_char c then Go (Name (snoc acc c)) out
      else plain_byte (out +:+ getvar st acc) c
  | Subst acc =>
      if Ascii.eqb c ")" then
        if Str.eqb acc "pwd" then Go Plain (out +:+ cwd st) else Bad
      else Go (Subst (snoc acc c)) out
  end.

(** The value of a double-quoted word read from just after its opening
    quote, and what follows the closing quote. *)
Fixpoint expand (st : State) (m : mode) (out : string) (input : string)
  : option (string * string) :=
  match input with
  | EmptyString => None
  | String c rest =>
      match step st m out c with
      | Stop out' => Some (out', rest)
      | Go m' out' => expand st m' out' rest
      | Bad => None
      end
  end.

(** The word on the right of an assignment: one double-quoted word, or
    one parameter (an assignment does not split its value). *)
Definition word (st : State) (w : string) : option string :=
  match w with
  | String "034"%char rest =>
      match expand st Plain "" rest with
      | Some (v, EmptyString) => Some v
      | _ => None
      end
  | String "$"%char x => if is_name x then Some (getvar st x) else None
  | _ => None
  end.

Fixpoint read_name (s : string) : string * string :=
  match s with
  | EmptyString => ("", "")
  | String c rest =>
      if name_char c then
        let '(x, r) := read_name rest in (String c x, r)
      else ("", s)
  end.

Fixpoint trim_left (s : string) : string :=
  match s with
  | EmptyString => ""
  | String c rest =>
      if Ascii.eqb c "009" || Ascii.eqb c " " then trim_left rest else s
  end.

(** One line that is a command. *)
Definition command (st : State) (line : string) : option State :=
  match trim_left line with
  | EmptyString => Some st
  | String "#"%char _ => Some st
  | cmd =>
      match Str.strip_prefix "export " cmd with
      | Some rest =>
          let '(x, rest') := read_name rest in
          match rest' with
          | String "="%char w =>
              if is_name x then
                match word st w with
                | Some v => Some (setvar x v st)
                | None => None
                end
              else None
          | _ => None
          end
      | None =>
          match Str.strip_prefix "unset -f " cmd with
          | Some f => if is_name f then Some (unset_func f st) else None
          | None =>
              match Str.strip_prefix "unset " cmd with
              | Some x =>
                  if is_name x then
                    Some (match vars st !! x with
                          | Some _ => unset_var x st
                          | None => unset_func x st
                          end)
                  else None
              | None => None
              end
          end
      end
  end.

(** The first line of a function definition, [name() {]. *)
Definition header (line : string) : option string :=
  let '(f, rest) := read_name line in
  if is_name f && Str.eqb rest "() {" then Some f else None.

(** The lines of a script in order; [def] holds the function being
    defined and the lines of its body read so far. *)
Fixpoint run (st : State) (def : option (string * list string))
    (lines : list string) : option State :=
  match lines with
  | [] => match def with None => Some st | Some _ => None end
  | line :: rest =>
      match def with
      | Some (f, body) =>
          if Str.eqb line "}" then run (define f body st) None rest
          else run st (Some (f, body ++ [line])) rest
      | None =>
          match header line with
          | Some f => run st (Some (f, [])) rest
          | None =>
              match command st line with
              | Some st' => run st' None rest
              | None => None
              end
          end
      end
  end.

(** [source script]. *)
Definition source (st : State) (script : string) : option State :=
  run st None (Str.split "010" script).

(** A call of a function without arguments. *)
Definition call (st : State) (f : string) : option State :=
  match funcs st !! f with
  | Some body => run st None body
  | None => None
  end.

End sh.

(** * Definitions used by the statements *)

Section Statements.
Context (h : Host).

(** The bindings [buildURL] passes to the template. *)
Definition url_data (version os_name arch : string) : gmap string string :=
  <["version" := version]> (<["os" := os_name]> (<["arch" := arch]> ∅)).

(** The escaping of the double quotes of an environment value. *)
Definition escape_quotes (value : string) : string :=
  Str.ReplaceAll value "034" ("\" +:+ quote).

(** The specification's rule for one axis: the replacement the table gives
    for the detected value, or the detected value when there is no table
    or no entry. *)
Definition spec_normalize_axis (table : option (gmap string string))
    (detected : string) : string :=
  match table with
  | Some m => default detected (m !! detected)
  | None => detected
  end.

Definition downloading (url : string) : string :=
  "|- Downloading from " +:+ quote +:+ url +:+ quote +:+ nl.

Definition creating (tmp_file : string) : string :=
  "|- Creating a temporary file " +:+ tmp_file +:+ nl.

Definition removing (tmp_file : string) : string :=
  "|- Removing the temporary file " +:+ tmp_file +:+ nl.

Definition scratch_pattern : string := "toolenv-download-*".

(** The world in which [http.Get] is called, and the one in which
    [os.CreateTemp] is called. *)
Definition at_get (url : string) (w : World) : World :=
  log (EvPrintf (downloading url)) w.

Definition at_create (url : string) (w : World) : World :=
  log (EvGet url) (at_get url w).

(** The part of [installTool] that runs once the scratch file exists and
    before the deferred calls. *)
Definition unpack (url install_dir tmp_file body : string) : M unit :=
  (io_Copy h tmp_file body ;;
   let extension := filepath.Ext url in
   if Str.eqb extension ".gz" || Str.eqb extension ".tgz" then
     extractTarGz h tmp_file install_dir
   else if Str.eqb extension ".xz" then
     extractTarXz h tmp_file install_dir
   else
     fail (UnsupportedArchiveFormat extension))%prog.

(** The world once the scratch file is created and announced. *)
Definition created (url tmp_file : string) (w : World) : World :=
  log (EvPrintf (creating tmp_file))
    (with_fs {| dirs := dirs (fs (at_create url w));
                files := <[tmp_file := ""]> (files (fs (at_create url w))) |}
       (log (EvCreateTemp "" scratch_pattern tmp_file) (at_create url w))).

(** The deferred calls, in the order they run. *)
Definition release (url tmp_file : string) (w : World) : World :=
  log (EvBodyClose url)
    (log (EvPrintf (removing tmp_file))
       (os_Remove h tmp_file (log (EvClose tmp_file) w)).2).

(** The extraction strategies of the specification, chosen from the
    extension alone. *)
Inductive Strategy : Type := GzipTar | XzTar.

Definition spec_strategy (extension : string) : option Strategy :=
  if bool_decide (extension = ".tgz") || bool_decide (extension = ".gz")
  then Some GzipTar
  else if bool_decide (extension = ".xz") then Some XzTar
  else None.

Definition tar_argv (s : Strategy) (archive install_dir : string) : list string :=
  [ "tar"; match s with GzipTar => "-xzf" | XzTar => "-xJf" end; archive;
    "-C"; install_dir; "--strip-components=1" ].

(** The world once the whole body is in the scratch file. *)
Definition copied (tmp_file body : string) (w : World) : World :=
  with_fs {| dirs := dirs (fs w); files := <[tmp_file := body]> (files (fs w)) |}
    (log (EvCopy tmp_file) w).

(** No extraction command appears among the events. *)
Definition no_extraction (events : list Event) : Prop :=
  forall argv, EvRun argv ∉ events.

(** The steps of [setup] between the manifest and the first tool. *)
Definition prepare (env_name : string) : M unit :=
  (wrap "failed to create env"
     (os_MkdirAll h (filepath.Join [filepath.Join ["."; env_name]; "bin"])) ;;
   wrap "failed to cleanup the storage"
     (os_RemoveAll h (filepath.Join [env_name; "storage"])))%prog.

(** A program that never removes a directory and only adds to the
    trace. *)
Definition grows {A} (m : M A) : Prop :=
  forall w,
    dirs (fs w) ⊆ dirs (fs (m w).2) /\ trace w `prefix_of` trace (m w).2.

(** The expansion of one environment value, as [export_entry] computes
    it. *)
Definition expand_value (version value : string) : result string :=
  match template_Parse h "env" (escape_quotes value) with
  | Err e => Err e
  | Ok tmpl => template_Execute h tmpl {[ "version" := version ]}
  end.

Definition expansion (tool : Tool) (value : string) : string :=
  match expand_value (Version tool) value with
  | Ok buf => buf
  | Err _ => ""
  end.

(** The order in which each loop meets the entries of each tool: the loop
    that starts with seed [n] ranges over the first tool with [n], over the
    second with [n + 1], and so on. *)
Fixpoint ranges (n : nat) (tools : list Tool)
  : list (Tool * list (string * string)) :=
  match tools with
  | [] => []
  | tool :: rest => (tool, host_range h n (Env tool)) :: ranges (S n) rest
  end.

Definition export_block (rs : list (Tool * list (string * string))) : list string :=
  flat_map (fun '(tool, entries) =>
              map (fun '(key, value) => export_line key (expansion tool value))
                entries) rs.

Definition unset_line (key : string) : list string :=
  if Str.eqb key "PATH" then [] else [tab +:+ "unset " +:+ key +:+ nl].

Definition unset_block (rs : list (Tool * list (string * string))) : list string :=
  flat_map (fun '(_, entries) => flat_map (fun '(key, _) => unset_line key) entries)
    rs.

Definition script_head (env_name : string) : list string :=
  [ "# This file must be used with " +:+ quote +:+ "source " +:+ env_name
      +:+ "/bin/activate" +:+ quote +:+ nl;
    "# It modifies the current shell environment." +:+ nl;
    "export TOOLENV_DIR=" +:+ quote +:+ "$(pwd)/" +:+ env_name +:+ quote +:+ nl;
    "export PREVIOUS_PATH=" +:+ quote +:+ "$PATH" +:+ quote +:+ nl ].

Definition script_prompt : list string :=
  [ "export OLD_PS1=" +:+ quote +:+ "$PS1" +:+ quote +:+ nl;
    "export PS1=" +:+ quote +:+ "(toolenv:env) $PS1" +:+ quote +:+ nl;
    "deactivate() {" +:+ nl;
    tab +:+ "export PS1=" +:+ quote +:+ "$OLD_PS1" +:+ quote +:+ nl;
    tab +:+ "unset OLD_PS1" +:+ nl ].

Definition script_foot : list string :=
  [ tab +:+ "export PATH=$PREVIOUS_PATH" +:+ nl;
    tab +:+ "unset PREVIOUS_PATH" +:+ nl;
    tab +:+ "unset TOOLENV_DIR" +:+ nl;
    tab +:+ "unset -f deactivate" +:+ nl;
    "}" ].

(** The strings written to the builder when the first loop starts with
    seed [n]. *)
Definition script_chunks (env_name : string) (n : nat) (tools : list Tool)
  : list string :=
  script_head env_name
  ++ export_block (ranges n tools)
  ++ script_prompt
  ++ unset_block (ranges (n + length tools) tools)
  ++ script_foot.

Definition expansions_ok (tools : list Tool) : Prop :=
  forall tool key value,
    tool ∈ tools -> Env tool !! key = Some value ->
    is_ok (expand_value (Version tool) value) = true.

Definition skip_seed (n : nat) (w : World) : World :=
  {| fs := fs w; trace := trace w; seed := seed w + n |}.

(** A byte that stands for itself inside double quotes and does not end
    the line. *)
Definition plain_char (c : ascii) : bool :=
  negb (Ascii.eqb c "034" || Ascii.eqb c "\" || Ascii.eqb c "$"
        || Ascii.eqb c "`" || Ascii.eqb c "010").

Definition plain (s : string) : bool := Str.all plain_char s.

(** The lines without their newline. *)
Definition export_body (key buf : string) : string :=
  if Str.eqb key "PATH" then
    "export PATH=" +:+ quote +:+ "$TOOLENV_DIR/" +:+ buf +:+ ":$PATH" +:+ quote
  else
    "export " +:+ key +:+ "=" +:+ quote +:+ "$TOOLENV_DIR/" +:+ buf +:+ quote.

Definition unset_body (key : string) : string := tab +:+ "unset " +:+ key.

(** What one export line does to the shell. *)
Definition export_effect (st : sh.State) (entry : string * string) : sh.State :=
  let '(key, buf) := entry in
  if Str.eqb key "PATH" then
    sh.setvar "PATH"
      (sh.getvar st "TOOLENV_DIR" +:+ "/" +:+ buf +:+ ":" +:+ sh.getvar st "PATH") st
  else
    sh.setvar key (sh.getvar st "TOOLENV_DIR" +:+ "/" +:+ buf) st.

(** What [unset key] does to the shell. *)
Definition unset_effect (st : sh.State) (key : string) : sh.State :=
  match sh.vars st !! key with
  | Some _ => sh.unset_var key st
  | None => sh.unset_func key st
  end.

(** Lines that are commands, run one after the other. *)
Fixpoint run_commands (st : sh.State) (lines : list string) : option sh.State :=
  match lines with
  | [] => Some st
  | line :: rest =>
      match sh.command st line with
      | Some st' => run_commands st' rest
      | None => None
      end
  end.

(** The entries the first loop meets, each with the expansion of its
    value, and the keys the second loop meets. *)
Definition flat_entries (rs : list (Tool * list (string * string)))
  : list (string * string) :=
  flat_map (fun '(tool, entries) =>
              map (fun '(key, value) => (key, expansion tool value)) entries) rs.

Definition flat_keys (rs : list (Tool * list (string * string))) : list string :=
  flat_map (fun '(_, entries) => map fst entries) rs.

Definition unset_keys (keys : list string) : list string :=
  filter (fun key => key <> "PATH") keys.

(** The lines between the header of [deactivate] and its closing brace. *)
Definition deactivate_body (keys : list string) : list string :=
  [ tab +:+ "export PS1=" +:+ quote +:+ "$OLD_PS1" +:+ quote;
    tab +:+ "unset OLD_PS1" ]
  ++ map unset_body (unset_keys keys)
  ++ [ tab +:+ "export PATH=$PREVIOUS_PATH";
       tab +:+ "unset PREVIOUS_PATH";
       tab +:+ "unset TOOLENV_DIR";
       tab +:+ "unset -f deactivate" ].

(** The lines before the definition of [deactivate]. *)
Definition activation_lines (env_name : string) (entries : list (string * string))
  : list string :=
  [ "# This file must be used with " +:+ quote +:+ "source " +:+ env_name
      +:+ "/bin/activate" +:+ quote;
    "# It modifies the current shell environment.";
    "export TOOLENV_DIR=" +:+ quote +:+ "$(pwd)/" +:+ env_name +:+ quote;
    "export PREVIOUS_PATH=" +:+ quote +:+ "$PATH" +:+ quote ]
  ++ map (fun '(key, buf) => export_body key buf) entries
  ++ [ "export OLD_PS1=" +:+ quote +:+ "$PS1" +:+ quote;
       "export PS1=" +:+ quote +:+ "(toolenv:env) $PS1" +:+ quote ].

(** The lines of the whole script. *)
Definition script_lines (env_name : string) (entries : list (string * string))
    (keys : list string) : list string :=
  activation_lines env_name entries
  ++ ["deactivate() {"] ++ deactivate_body keys ++ ["}"].

(** The text of the script: every line but the last ends with a
    newline. *)
Definition script_text (env_name : string) (entries : list (string * string))
    (keys : list string) : string :=
  Builder_String
    (map (fun line => line +:+ nl)
       (activation_lines env_name entries
        ++ ["deactivate() {"] ++ deactivate_body keys)
     ++ ["}"]).

(** The state the lines before [deactivate] lead to. *)
Definition activated (env_name : string) (entries : list (string * string))
    (st0 : sh.State) : sh.State :=
  let st1 := sh.setvar "TOOLENV_DIR" (sh.cwd st0 +:+ "/" +:+ env_name) st0 in
  let st2 := sh.setvar "PREVIOUS_PATH" (sh.getvar st1 "PATH") st1 in
  let st3 := fold_left export_effect entries st2 in
  let st4 := sh.setvar "OLD_PS1" (sh.getvar st3 "PS1") st3 in
  sh.setvar "PS1" ("(toolenv:env) " +:+ sh.getvar st4 "PS1") st4.

(** The state the body of [deactivate] leads to. *)
Definition deactivated (keys : list string) (st : sh.State) : sh.State :=
  let st1 := sh.setvar "PS1" (sh.getvar st "OLD_PS1") st in
  let st2 := unset_effect st1 "OLD_PS1" in
  let st3 := fold_left unset_effect (unset_keys keys) st2 in
  let st4 := sh.setvar "PATH" (sh.getvar st3 "PREVIOUS_PATH") st3 in
  let st5 := unset_effect st4 "PREVIOUS_PATH" in
  let st6 := unset_effect st5 "TOOLENV_DIR" in
  sh.unset_func "deactivate" st6.

Definition safe_entries (entries : list (string * string)) : Prop :=
  Forall (fun '(key, buf) => sh.is_name key = true /\ plain buf = true) entries.

Definition safe_keys (keys : list string) : Prop :=
  Forall (fun key => sh.is_name key = true) keys.

(** The value of [PATH] after the segments, first to last, have each been
    put in front of it. *)
Definition path_value (dir : string) (segments : list string) (old : string)
  : string :=
  fold_left (fun acc segment => dir +:+ "/" +:+ segment +:+ ":" +:+ acc)
    segments old.

(** The expansions of the entries whose key is [PATH], in order. *)
Definition path_bufs (entries : list (string * string)) : list string :=
  flat_map (fun '(key, buf) => if Str.eqb key "PATH" then [buf] else []) entries.

(** The [PATH] segment of each tool that declares one, in the order of the
    manifest. *)
Definition path_segments (tools : list Tool) : list string :=
  omap (fun tool => expansion tool <$> Env tool !! "PATH") tools.

(** The keys and the expanded values of the manifest can be written into
    the script as they are: a key is a variable name, an expansion holds
    no quote, backslash, dollar, backquote or newline. *)
Definition tools_safe (tools : list Tool) : Prop :=
  forall tool key value,
    tool ∈ tools -> Env tool !! key = Some value ->
    sh.is_name key = true /\ plain (expansion tool value) = true.

(** No tool declares one of the [reserved] variables. *)
Definition keys_avoid (reserved : list string) (tools : list Tool) : Prop :=
  forall tool key,
    tool ∈ tools -> is_Some (Env tool !! key) -> key ∉ reserved.

Definition readme_tools : list Tool := [node_tool; go_tool].

(** A world left by an earlier run. *)
Definition stale_world : World :=
  {| fs := {| dirs := {[ "env"; "env/bin"; "env/storage" ]};
              files := {[ "env/bin/activate" := "# an older script" ]} |};
     trace := [];
     seed := 0 |}.

Definition readme_host : Host := sample_host {| Tools := readme_tools |} 200.

Definition sample_shell : sh.State :=
  {| sh.vars := {[ "PATH" := "/usr/bin:/bin"; "PS1" := "$ "; "HOME" := "/root" ]};
     sh.funcs := ∅;
     sh.cwd := "/proj" |}.

End Statements.

(** * Definitions used by the further properties *)

(** ** Hosts on which chosen calls fail

    [fault] says which calls fail and with which error; every other call
    succeeds as on [sample_host].  The archive a download returns unpacks
    to one directory and one file below the install directory. *)

Inductive Call : Type :=
| CallOpen
| CallDecode
| CallMkdirAll (path : string)
| CallRemoveAll (path : string)
| CallGet (url : string)
| CallCreateTemp
| CallCopy (file : string)
| CallRemove (file : string)
| CallRun (argv : list string)
| CallWriteFile (path : string).

Definition unpacked (argv : list string) : gset string * gmap string string :=
  match argv with
  | [_; _; _; _; install_dir; _] =>
      ({[ install_dir +:+ "/bin" ]}, {[ install_dir +:+ "/bin/tool" := "binary" ]})
  | _ => (∅, ∅)
  end.

Definition faulty_host (cfg : Config) (fault : Call -> option error) : Host := {|
  GOOS := "linux";
  GOARCH := "amd64";
  ext_template := unit;
  ext_Parse := fun _ _ => Err (Foreign "template: not read by the model");
  ext_Execute := fun _ _ => Ok "";
  host_Decode := fun _ =>
    match fault CallDecode with Some e => Err e | None => Ok cfg end;
  host_Open := fun _ _ =>
    match fault CallOpen with Some e => Err e | None => Ok "tools:" end;
  host_MkdirAll := fun _ path => fault (CallMkdirAll path);
  host_RemoveAll := fun _ path => fault (CallRemoveAll path);
  host_Get := fun _ url =>
    match fault (CallGet url) with
    | Some e => Err e
    | None => Ok {| Status := "200 OK"; StatusCode := 200; Body := "archive" |}
    end;
  host_CreateTemp := fun _ _ _ =>
    match fault CallCreateTemp with
    | Some e => Err e
    | None => Ok "/tmp/toolenv-download-1"
    end;
  host_Copy := fun _ file _ =>
    match fault (CallCopy file) with Some e => Some (3, e) | None => None end;
  host_Remove := fun _ file => fault (CallRemove file);
  host_Run := fun _ argv => (unpacked argv, fault (CallRun argv));
  host_WriteFile := fun _ path _ => fault (CallWriteFile path);
  host_range := fun _ m => map_to_list m;
  host_range_perm := fun _ m => reflexivity (map_to_list m)
|}.

(** ** What the statements speak of *)

(** The install directory [setup] computes for a tool. *)
Definition install_dir_of (storage_dir : string) (tool : Tool) : string :=
  filepath.Join [storage_dir; Name tool +:+ "@" +:+ Version tool].

Definition installing (tool : Tool) : string :=
  nl +:+ "Installing " +:+ Name tool +:+ " version " +:+ Version tool
     +:+ " ..." +:+ nl.

(** The URL [setup] resolves for a tool. *)
Definition resolved_url (h : Host) (tool : Tool) : result string :=
  buildURL h (URL tool) (Version tool)
    (normalizeSystem h (Normalization tool)).1
    (normalizeSystem h (Normalization tool)).2.

(** A byte that the escaping of [generateActivationScript] makes safe
    inside double quotes: a plain byte or a double quote. *)
Definition quotable_char (c : ascii) : bool :=
  plain_char c || Ascii.eqb c "034".

Definition quotable (s : string) : bool := Str.all quotable_char s.

(** The calls a run may make on things that exist outside it: it opens
    only the manifest, removes only the storage directory and scratch files
    created among the same events, runs only [tar] on such a scratch file,
    and writes only the activation script. *)
Definition tidy_event (env_name : string) (events : list Event) (e : Event)
  : Prop :=
  match e with
  | EvOpen path => path = "toolenv.yml"
  | EvRemoveAll path => path = filepath.Join [env_name; "storage"]
  | EvCreateTemp dir pattern _ => dir = "" /\ pattern = scratch_pattern
  | EvRemove file => EvCreateTemp "" scratch_pattern file ∈ events
  | EvRun argv =>
      exists s archive install_dir,
        argv = tar_argv s archive install_dir
        /\ EvCreateTemp "" scratch_pattern archive ∈ events
  | EvWriteFile path _ => path = filepath.Join [env_name; "bin"; "activate"]
  | _ => True
  end.

Definition tidy (env_name : string) (events : list Event) : Prop :=
  forall e, e ∈ events -> tidy_event env_name events e.

(** No file is written. *)
Definition never_writes (events : list Event) : Prop :=
  forall path data, EvWriteFile path data ∉ events.

(** A program that only adds events to the trace, and adds events of which
    [Q] holds. *)
Definition emits {A} (Q : list Event -> Prop) (m : M A) : Prop :=
  forall w, exists events, trace (m w).2 = trace w ++ events /\ Q events.

(** The world once [io.Copy] has failed after [n] bytes. *)
Definition partly_copied (tmp_file body : string) (n : nat) (w : World) : World :=
  with_fs {| dirs := dirs (fs w);
             files := <[tmp_file := String.substring 0 n body]> (files (fs w)) |}
    (log (EvCopy tmp_file) w).

(** The world in which [installTool] is called for a tool. *)
Definition at_install (h : Host) (storage_dir : string) (tool : Tool) (w : World)
  : World :=
  log (EvPrintf (installing tool))
    (os_MkdirAll h (install_dir_of storage_dir tool) w).2.

(** ** Templates made of text and fields

    The templates the README shows: literal text without braces, and
    actions that name one field. *)

Inductive Piece : Type :=
| Text (text : string)
| Field (name : string).

Definition piece_source (p : Piece) : string :=
  match p with
  | Text text => text
  | Field name => "{{." +:+ name +:+ "}}"
  end.

(** The template as written in the manifest. *)
Fixpoint template_of (pieces : list Piece) : string :=
  match pieces with
  | [] => ""
  | p :: rest => piece_source p +:+ template_of rest
  end.

Definition piece_ok (p : Piece) : bool :=
  match p with
  | Text text => negb (Str.contains "{" text)
  | Field name => template.is_identifier name
  end.

(** What the template prints for the bindings [data]. *)
Definition piece_value (data : gmap string string) (p : Piece) : string :=
  match p with
  | Text text => text
  | Field name => default "<no value>" (data !! name)
  end.

Fixpoint value_of (data : gmap string string) (pieces : list Piece) : string :=
  match pieces with
  | [] => ""
  | p :: rest => piece_value data p +:+ value_of data rest
  end.

(** The escaping of double quotes touches the text only. *)
Definition escape_piece (p : Piece) : Piece :=
  match p with
  | Text text => Text (escape_quotes text)
  | Field name => Field name
  end.

(** ** The closing messages of a run *)

Definition closing_messages (env_name : string) : list string :=
  [ "Environment created at ./" +:+ filepath.Join ["."; env_name] +:+ nl;
    "Activate with: source ./" +:+ filepath.Join ["."; env_name]
      +:+ "/bin/activate" +:+ nl ].

(** None of the closing messages is printed. *)
Definition no_closing_message (env_name : string) (events : list Event) : Prop :=
  forall text, text ∈ closing_messages env_name -> EvPrintf text ∉ events.

(** ** A host whose maps are ranged over in two orders

    A loop that starts with an even seed meets the entries of a map in the
    order of [map_to_list], a loop that starts with an odd seed meets them
    in the reverse order. *)

Definition alternating_range (n : nat) (m : gmap string string)
  : list (string * string) :=
  if Nat.even n then map_to_list m else reverse (map_to_list m).

Definition alternating_host : Host := {|
  GOOS := "linux";
  GOARCH := "amd64";
  ext_template := unit;
  ext_Parse := fun _ _ => Err (Foreign "template: not read by the model");
  ext_Execute := fun _ _ => Ok "";
  host_Decode := fun _ => Ok {| Tools := readme_tools |};
  host_Open := fun _ _ => Ok "tools:";
  host_MkdirAll := fun _ _ => None;
  host_RemoveAll := fun _ _ => None;
  host_Get := fun _ _ =>
    Ok {| Status := "200 OK"; StatusCode := 200; Body := "archive" |};
  host_CreateTemp := fun _ _ _ => Ok "/tmp/toolenv-download-1";
  host_Copy := fun _ _ _ => None;
  host_Remove := fun _ _ => None;
  host_Run := fun _ _ => (∅, ∅, None);
  host_WriteFile := fun _ _ _ => None;
  host_range := alternating_range;
  host_range_perm := fun n m =>
    match Nat.even n as b
      return (if b then map_to_list m else reverse (map_to_list m))
             ≡ₚ map_to_list m
    with
    | true => reflexivity (map_to_list m)
    | false => reverse_Permutation (map_to_list m)
    end
|}.

(** The same world with another state of the runtime's random choice. *)
Definition reseed (n : nat) (w : World) : World :=
  {| fs := fs w; trace := trace w; seed := n |}.

(** * Properties *)

(** ** Strings *)

Module StrFacts.

Lemma app_cons (c : ascii) (s t : string) :
  String c s +:+ t = String c (s +:+ t).
Proof. reflexivity. Qed.

Lemma app_nil_r (s : string) : s +:+ "" = s.
Proof. induction s as [|c s IH]; [reflexivity|]. by rewrite app_cons, IH. Qed.

Lemma app_assoc (a b c : string) : (a +:+ b) +:+ c = a +:+ b +:+ c.
Proof.
  induction a as [|x a IH]; [reflexivity|]. by rewrite !app_cons, IH.
Qed.

Lemma strip_prefix_app (p s : string) :
  Str.strip_prefix p (p +:+ s) = Some s.
Proof.
  induction p as [|c p IH]; [reflexivity|].
  rewrite app_cons. simpl. by rewrite Ascii.eqb_refl.
Qed.

Lemma eqb_true (a b : string) : Str.eqb a b = true <-> a = b.
Proof. unfold Str.eqb. apply bool_decide_eq_true. Qed.

Lemma eqb_false (a b : string) : Str.eqb a b = false <-> a <> b.
Proof. unfold Str.eqb. apply bool_decide_eq_false. Qed.

Lemma string_of_list_ascii_app (l1 l2 : list ascii) :
  string_of_list_ascii (l1 ++ l2)
  = string_of_list_ascii l1 +:+ string_of_list_ascii l2.
Proof. induction l1 as [|c l1 IH]; [reflexivity|]. simpl. by rewrite IH. Qed.

Lemma Ext_loop_snoc (l : list ascii) (c : ascii) (seen : string) :
  filepath.Ext_loop (l ++ [c]) seen
  = if forallb filepath.no_mark l then
      if Ascii.eqb c "/" then ""
      else if Ascii.eqb c "." then
        String c (string_of_list_ascii (rev l) +:+ seen)
      else ""
    else filepath.Ext_loop l seen.
Proof.
  revert seen. induction l as [|d l IH]; intros seen.
  - simpl. by destruct (Ascii.eqb c "/"), (Ascii.eqb c ".").
  - simpl. unfold filepath.no_mark at 1.
    destruct (Ascii.eqb d "/"); [reflexivity|].
    destruct (Ascii.eqb d "."); [reflexivity|].
    simpl. rewrite IH. destruct (forallb filepath.no_mark l); [|reflexivity].
    destruct (Ascii.eqb c "/"); [reflexivity|].
    destruct (Ascii.eqb c "."); [|reflexivity].
    f_equal. rewrite string_of_list_ascii_app. simpl.
    by rewrite app_assoc.
Qed.

Lemma no_mark_contains (s : string) :
  forallb filepath.no_mark (rev (list_ascii_of_string s)) = true ->
  Str.contains "/" s = false /\ Str.contains "." s = false.
Proof.
  induction s as [|c s IH]; intros Hs; [done|].
  simpl in Hs. rewrite forallb_app in Hs. simpl in Hs.
  apply andb_true_iff in Hs as [Hs Hc]. rewrite andb_true_r in Hc.
  destruct (IH Hs) as [H1 H2]. unfold filepath.no_mark in Hc.
  apply andb_true_iff in Hc as [Hc1 Hc2].
  apply negb_true_iff in Hc1, Hc2.
  change (Str.contains ?x (String c s))
    with (if Ascii.eqb x c then true else Str.contains x s).
  rewrite (Ascii.eqb_sym "/" c), (Ascii.eqb_sym "." c), Hc1, Hc2. done.
Qed.

Lemma contains_no_mark (s : string) :
  Str.contains "/" s = false -> Str.contains "." s = false ->
  forallb filepath.no_mark (rev (list_ascii_of_string s)) = true.
Proof.
  induction s as [|c s IH]; intros H1 H2; [done|].
  change (Str.contains ?x (String c s))
    with (if Ascii.eqb x c then true else Str.contains x s) in H1, H2.
  destruct (Ascii.eqb "/" c) eqn:E1; [done|].
  destruct (Ascii.eqb "." c) eqn:E2; [done|].
  simpl. rewrite forallb_app, IH by done. simpl. unfold filepath.no_mark.
  by rewrite (Ascii.eqb_sym c "/"), (Ascii.eqb_sym c "."), E1, E2.
Qed.

(** A final element with a dot has an extension. *)
Lemma Ext_front_dot (s : string) :
  Str.contains "/" s = false -> filepath.Ext_front s = "" ->
  Str.contains "." s = false.
Proof.
  induction s as [|c s IH]; intros H1 H2; [done|].
  change (Str.contains ?x (String c s))
    with (if Ascii.eqb x c then true else Str.contains x s) in *.
  destruct (Ascii.eqb "/" c) eqn:E1; [done|].
  simpl in H2. destruct (filepath.Ext_front s) eqn:E; [|done].
  rewrite H1 in H2. simpl in H2. rewrite andb_true_r in H2.
  rewrite (Ascii.eqb_sym "." c).
  destruct (Ascii.eqb c "."); [done|]. by apply IH.
Qed.

(** The walk of the library and the recursion from the front agree. *)
Lemma Ext_front_eq (path : string) : filepath.Ext path = filepath.Ext_front path.
Proof.
  unfold filepath.Ext. induction path as [|c rest IH]; [reflexivity|].
  simpl. rewrite Ext_loop_snoc, app_nil_r.
  rewrite rev_involutive, string_of_list_ascii_of_string.
  destruct (forallb filepath.no_mark (rev (list_ascii_of_string rest))) eqn:Hq.
  - destruct (no_mark_contains rest Hq) as [H1 H2].
    assert (Hrest : filepath.Ext_front rest = "").
    { clear IH Hq. induction rest as [|d rest IH]; [done|].
      change (Str.contains ?x (String d rest))
        with (if Ascii.eqb x d then true else Str.contains x rest) in H1, H2.
      destruct (Ascii.eqb "/" d); [done|]. destruct (Ascii.eqb "." d) eqn:E; [done|].
      simpl. rewrite IH by done. by rewrite (Ascii.eqb_sym d "."), E. }
    rewrite Hrest, H1. simpl.
    destruct (Ascii.eqb c "/") eqn:E1.
    + apply Ascii.eqb_eq in E1 as ->. reflexivity.
    + by destruct (Ascii.eqb c ".").
  - rewrite IH. destruct (filepath.Ext_front rest) eqn:E; [|done].
    destruct (Str.contains "/" rest) eqn:H1; [by rewrite andb_false_r|].
    pose proof (Ext_front_dot rest H1 E) as H2.
    by rewrite contains_no_mark in Hq.
Qed.

(** A path that ends in an extension without a separator has that
    extension, whatever comes before. *)
Lemma Ext_app (p e : string) :
  filepath.Ext e <> "" -> filepath.Ext (p +:+ e) = filepath.Ext e.
Proof.
  rewrite !Ext_front_eq. intros He. induction p as [|c p IH]; [reflexivity|].
  rewrite app_cons. simpl. rewrite IH.
  destruct (filepath.Ext_front e); [done | reflexivity].
Qed.

End StrFacts.

(** ** Templates *)

Module TemplateFacts.
Import template.

Ltac bytes c := destruct c as [[] [] [] [] [] [] [] []].

Lemma scan_text_byte (c : ascii) acc nodes rest :
  c <> "{"%char ->
  scan false acc nodes (String c rest) = scan false (acc +:+ String c "") nodes rest.
Proof. intros Hc. bytes c; try reflexivity. congruence. Qed.

Lemma scan_action_byte (c : ascii) acc nodes rest :
  modelled_byte c = true ->
  scan true acc nodes (String c rest) = scan true (acc +:+ String c "") nodes rest.
Proof. intros Hc. bytes c; try reflexivity; discriminate Hc. Qed.

Lemma scan_open acc nodes rest :
  scan false acc nodes ("{{" +:+ rest) = scan true "" (add_text acc nodes) rest.
Proof. reflexivity. Qed.

Lemma scan_close acc nodes rest :
  scan true acc nodes ("}}" +:+ rest) =
  match action acc with
  | Some (Ok n) => scan false "" (nodes ++ [n]) rest
  | Some (Err e) => Some (Err e)
  | None => None
  end.
Proof. reflexivity. Qed.

(** Text without a brace is read as text. *)
Lemma scan_text (text : string) acc nodes rest :
  Str.contains "{" text = false ->
  scan false acc nodes (text +:+ rest) = scan false (acc +:+ text) nodes rest.
Proof.
  revert acc. induction text as [|c text IH]; intros acc Ht.
  - by rewrite StrFacts.app_nil_r.
  - change (Str.contains "{" (String c text))
      with (if Ascii.eqb "{" c then true else Str.contains "{" text) in Ht.
    destruct (Ascii.eqb_spec "{"%char c) as [|Hc]; [done|].
    rewrite StrFacts.app_cons, scan_text_byte by congruence.
    rewrite IH by done. by rewrite StrFacts.app_assoc.
Qed.

(** The bytes of a word are read into the action. *)
Lemma scan_word (w : string) acc nodes rest :
  Str.all isAlphaNumeric w = true ->
  scan true acc nodes (w +:+ rest) = scan true (acc +:+ w) nodes rest.
Proof.
  revert acc. induction w as [|c w IH]; intros acc Hw.
  - by rewrite StrFacts.app_nil_r.
  - simpl in Hw. apply andb_true_iff in Hw as [Hc Hw].
    rewrite StrFacts.app_cons, scan_action_byte.
    + rewrite IH by done. by rewrite StrFacts.app_assoc.
    + unfold modelled_byte. by rewrite Hc.
Qed.

Lemma split_word (w : string) :
  Str.all isAlphaNumeric w = true -> Str.split " " w = [w].
Proof.
  induction w as [|c w IH]; intros Hw; [reflexivity|].
  simpl in Hw. apply andb_true_iff in Hw as [Hc Hw].
  simpl. rewrite IH by done.
  destruct (Ascii.eqb_spec c " "%char) as [->|]; [discriminate Hc | reflexivity].
Qed.

Lemma is_identifier_all (w : string) :
  is_identifier w = true -> Str.all isAlphaNumeric w = true.
Proof.
  destruct w; [discriminate|]. unfold is_identifier.
  intros H. by apply andb_true_iff in H as [_ H].
Qed.

(** [{{.name}}] is a field of the data. *)
Lemma action_field (name : string) :
  is_identifier name = true ->
  action (String "." name) = Some (Ok (FieldNode name)).
Proof.
  intros Hn. unfold action, words.
  change (Str.split " " (String "." name))
    with (match Str.split " " name with
          | [] => [String "."%char ""]
          | p :: ps => String "."%char p :: ps
          end).
  rewrite split_word by by apply is_identifier_all.
  rewrite filter_cons_True by done. rewrite filter_nil. by rewrite Hn.
Qed.

(** [{{name}}] calls a function, and only the predefined ones exist. *)
Lemma action_function (name : string) :
  is_identifier name = true -> name ∉ reserved ->
  action name = Some (Err (FunctionNotDefined name)).
Proof.
  intros Hn Hr. unfold action, words.
  rewrite split_word by by apply is_identifier_all.
  assert (name <> "") by (intros ->; discriminate Hn).
  rewrite filter_cons_True by done. rewrite filter_nil.
  rewrite Hn, bool_decide_eq_false_2 by done. simpl.
  destruct name as [|c name]; [done|].
  bytes c; try reflexivity. discriminate Hn.
Qed.

Lemma exec_app data (a b : list Node) :
  exec data (a ++ b) = exec data a +:+ exec data b.
Proof.
  induction a as [|n a IH]; [reflexivity|].
  simpl. by rewrite IH, StrFacts.app_assoc.
Qed.

Lemma exec_add_text data text nodes :
  exec data (add_text text nodes) = exec data nodes +:+ text.
Proof.
  unfold add_text. destruct text; simpl.
  - by rewrite StrFacts.app_nil_r.
  - rewrite exec_app. simpl. by rewrite StrFacts.app_nil_r.
Qed.

(** A template with one field between two texts. *)
Lemma scan_one_field (pre name post : string) :
  Str.contains "{" pre = false -> Str.contains "{" post = false ->
  is_identifier name = true ->
  scan false "" [] (pre +:+ "{{." +:+ name +:+ "}}" +:+ post) =
  Some (Ok (add_text post (add_text pre [] ++ [FieldNode name]))).
Proof.
  intros Hpre Hpost Hn.
  rewrite scan_text by done. simpl (_ +:+ pre).
  change ("{{." +:+ name +:+ "}}" +:+ post)
    with ("{{" +:+ String "." (name +:+ "}}" +:+ post)).
  rewrite scan_open, scan_action_byte by reflexivity.
  rewrite scan_word by by apply is_identifier_all.
  rewrite scan_close.
  change (("" +:+ String "."%char "") +:+ name) with (String "."%char name).
  rewrite action_field by done.
  rewrite <- (StrFacts.app_nil_r post) at 1.
  rewrite scan_text by done. reflexivity.
Qed.

(** A template with one bare name between two texts. *)
Lemma scan_one_function (pre name post : string) :
  Str.contains "{" pre = false ->
  is_identifier name = true -> name ∉ reserved ->
  scan false "" [] (pre +:+ "{{" +:+ name +:+ "}}" +:+ post) =
  Some (Err (FunctionNotDefined name)).
Proof.
  intros Hpre Hn Hr.
  rewrite scan_text by done. rewrite scan_open.
  rewrite scan_word by by apply is_identifier_all.
  rewrite scan_close.
  change ("" +:+ name) with name.
  by rewrite action_function.
Qed.

End TemplateFacts.

(** ** Template resolution *)

Section Resolution.
Context (h : Host).

(** On a template the model reads, resolution is the model's: it does not
    fail once the template is parsed. *)
Lemma buildURL_modelled (t version os_name arch : string) (nodes : list template.Node) :
  template.scan false "" [] t = Some (Ok nodes) ->
  buildURL h t version os_name arch
  = Ok (template.exec (url_data version os_name arch) nodes).
Proof. intros Hs. unfold buildURL, template_Parse. by rewrite Hs. Qed.

Lemma buildURL_parse_error (t version os_name arch : string) (e : error) :
  template.scan false "" [] t = Some (Err e) ->
  buildURL h t version os_name arch = Err e.
Proof. intros Hs. unfold buildURL, template_Parse. by rewrite Hs. Qed.

Lemma url_data_unknown (version os_name arch name : string) :
  name ∉ ["version"; "os"; "arch"] ->
  url_data version os_name arch !! name = None.
Proof.
  intros Hn. unfold url_data.
  rewrite !lookup_insert_ne, lookup_empty; [done | | |];
    intros <-; apply Hn; set_solver.
Qed.

End Resolution.

Module EscapeFacts.

Lemma escape_app (a b : string) :
  escape_quotes (a +:+ b) = escape_quotes a +:+ escape_quotes b.
Proof.
  unfold escape_quotes. induction a as [|c a IH]; [reflexivity|].
  rewrite StrFacts.app_cons. simpl. rewrite IH.
  destruct (Ascii.eqb c "034"); [|reflexivity].
  by rewrite StrFacts.app_assoc.
Qed.

Lemma escape_word (w : string) :
  Str.all template.isAlphaNumeric w = true -> escape_quotes w = w.
Proof.
  unfold escape_quotes. induction w as [|c w IH]; intros Hw; [reflexivity|].
  simpl in Hw. apply andb_true_iff in Hw as [Hc Hw]. simpl. rewrite IH by done.
  destruct (Ascii.eqb_spec c "034"%char) as [->|]; [discriminate Hc | reflexivity].
Qed.

Lemma escape_no_brace (s : string) :
  Str.contains "{" s = false -> Str.contains "{" (escape_quotes s) = false.
Proof.
  unfold escape_quotes. induction s as [|c s IH]; intros Hs; [reflexivity|].
  change (Str.contains "{" (String c s))
    with (if Ascii.eqb "{" c then true else Str.contains "{" s) in Hs.
  destruct (Ascii.eqb_spec "{"%char c) as [|Hc]; [done|].
  simpl. destruct (Ascii.eqb c "034").
  - apply IH, Hs.
  - change (Str.contains "{" (String c ?s))
      with (if Ascii.eqb "{" c then true else Str.contains "{" s).
    destruct (Ascii.eqb_spec "{"%char c); [done|]. apply IH, Hs.
Qed.

End EscapeFacts.

(** C1, as the claim writes the template: [{{version}}] calls a function
    [version], which no template of the program defines, so the template is
    rejected when it is parsed and no URL is produced. *)
Lemma C1_bare_names_are_rejected :
  buildURL (sample_host {| Tools := [] |} 200)
    "https://x/{{version}}/{{os}}-{{arch}}.tgz" "1.0" "linux" "x64"
  = Err (FunctionNotDefined "version")
  /\ ~ (exists h,
          buildURL h "https://x/{{version}}/{{os}}-{{arch}}.tgz" "1.0" "linux" "x64"
          = Ok "https://x/1.0/linux-x64.tgz").
Proof.
  split; [reflexivity|].
  intros [h H].
  rewrite (buildURL_parse_error h _ _ _ _ (FunctionNotDefined "version")) in H
    by reflexivity.
  discriminate H.
Qed.

(** C1, amended: [buildURL] is a function of the template and the three
    bindings.  It neither reads nor changes the world, on a template the
    model reads its result is the same on every host, and with the
    variables written as fields the template
    [https://x/{{.version}}/{{.os}}-{{.arch}}.tgz] with version 1.0, os linux
    and arch x64 resolves to [https://x/1.0/linux-x64.tgz]. *)
Theorem C1_buildURL_is_a_function_of_its_arguments :
  forall (h : Host),
    buildURL h "https://x/{{.version}}/{{.os}}-{{.arch}}.tgz" "1.0" "linux" "x64"
    = Ok "https://x/1.0/linux-x64.tgz"
    /\ (forall t v o a w, lift (buildURL h t v o a) w = (buildURL h t v o a, w))
    /\ (forall h' t v o a,
          template.scan false "" [] t <> None ->
          buildURL h' t v o a = buildURL h t v o a).
Proof.
  intros h. split; [reflexivity|]. split; [reflexivity|].
  intros h' t v o a Ht. unfold buildURL, template_Parse.
  destruct (template.scan false "" [] t) as [[nodes|e]|]; done.
Qed.

(** C3, as stated, fails: a field the data does not have is printed as
    [<no value>], not as empty text, and a bare unknown name is rejected
    when the template is parsed. *)
Lemma C3_unknown_variable_is_not_empty :
  buildURL (sample_host {| Tools := [] |} 200) "a{{.foo}}b" "1.0" "linux" "x64"
  = Ok "a<no value>b"
  /\ buildURL (sample_host {| Tools := [] |} 200) "a{{foo}}b" "1.0" "linux" "x64"
     = Err (FunctionNotDefined "foo")
  /\ ~ (exists h, buildURL h "a{{.foo}}b" "1.0" "linux" "x64" = Ok "ab").
Proof.
  split; [reflexivity|]. split; [reflexivity|].
  intros [h H].
  rewrite (buildURL_modelled h _ _ _ _
             [template.TextNode "a"; template.FieldNode "foo"; template.TextNode "b"])
    in H by reflexivity.
  discriminate H.
Qed.

(** C3, amended: in a URL template or an environment value made of text
    and one field [{{.name}}], expansion does not fail, and a name outside
    the supported set (version, os and arch for a URL; version for an
    environment value) is replaced by the text [<no value>]. *)
Theorem C3_unknown_field_prints_no_value :
  forall (h : Host) (pre name post : string),
    Str.contains "{" pre = false ->
    Str.contains "{" post = false ->
    template.is_identifier name = true ->
    (name ∉ ["version"; "os"; "arch"] ->
     forall version os_name arch,
       buildURL h (pre +:+ "{{." +:+ name +:+ "}}" +:+ post) version os_name arch
       = Ok (pre +:+ "<no value>" +:+ post))
    /\ (name <> "version" ->
        forall tool key sb w,
          export_entry h tool sb (key, pre +:+ "{{." +:+ name +:+ "}}" +:+ post) w
          = (Ok (WriteString sb
                   (export_line key
                      (escape_quotes pre +:+ "<no value>" +:+ escape_quotes post))),
             w)).
Proof.
  intros h pre name post Hpre Hpost Hn. split.
  - intros Hu version os_name arch.
    rewrite (buildURL_modelled h _ _ _ _ _
               (TemplateFacts.scan_one_field pre name post Hpre Hpost Hn)).
    rewrite TemplateFacts.exec_add_text, TemplateFacts.exec_app,
      TemplateFacts.exec_add_text.
    simpl. rewrite url_data_unknown by done.
    by rewrite StrFacts.app_assoc.
  - intros Hu tool key sb w.
    unfold export_entry, bind, lift, ret, template_Parse, template_Execute.
    fold (escape_quotes (pre +:+ "{{." +:+ name +:+ "}}" +:+ post)).
    rewrite !EscapeFacts.escape_app.
    rewrite (EscapeFacts.escape_word name)
      by by apply TemplateFacts.is_identifier_all.
    change (escape_quotes "{{.") with "{{.".
    change (escape_quotes "}}") with "}}".
    rewrite TemplateFacts.scan_one_field
      by (try apply EscapeFacts.escape_no_brace; done).
    rewrite TemplateFacts.exec_add_text, TemplateFacts.exec_app,
      TemplateFacts.exec_add_text.
    simpl. rewrite lookup_singleton_ne by done.
    by rewrite StrFacts.app_assoc.
Qed.

Lemma C3_unknown_field_prints_no_value_witness :
  buildURL (sample_host {| Tools := [] |} 200)
    ("https://x/" +:+ "{{." +:+ "flavour" +:+ "}}" +:+ ".tgz") "1.0" "linux" "x64"
  = Ok ("https://x/" +:+ "<no value>" +:+ ".tgz").
Proof.
  refine (proj1 (C3_unknown_field_prints_no_value
                   (sample_host {| Tools := [] |} 200)
                   "https://x/" "flavour" ".tgz" _ _ _) _ "1.0" "linux" "x64").
  - reflexivity.
  - reflexivity.
  - reflexivity.
  - rewrite !not_elem_of_cons. repeat split; try discriminate.
    apply not_elem_of_nil.
Defined.

(** ** Platform normalisation *)

(** C4: [normalizeSystem] starts from the detected pair and replaces each
    axis by its own table alone; an axis without an entry, or an absent
    record, keeps the detected value; the result of one axis does not
    depend on the other table, and the function always returns a pair. *)
Theorem C4_normalizeSystem_axes_are_independent :
  forall (h : Host),
    (forall spec,
       normalizeSystem h spec
       = (spec_normalize_axis (OS <$> spec) (GOOS h),
          spec_normalize_axis (Arch <$> spec) (GOARCH h)))
    /\ normalizeSystem h None = (GOOS h, GOARCH h)
    /\ (forall spec mapped,
          Arch spec !! GOARCH h = Some mapped ->
          (normalizeSystem h (Some spec)).2 = mapped)
    /\ (forall spec mapped,
          OS spec !! GOOS h = Some mapped ->
          (normalizeSystem h (Some spec)).1 = mapped)
    /\ (forall spec,
          Arch spec !! GOARCH h = None ->
          (normalizeSystem h (Some spec)).2 = GOARCH h)
    /\ (forall spec,
          OS spec !! GOOS h = None ->
          (normalizeSystem h (Some spec)).1 = GOOS h)
    /\ (forall spec spec',
          Arch spec = Arch spec' ->
          (normalizeSystem h (Some spec)).2 = (normalizeSystem h (Some spec')).2)
    /\ (forall spec spec',
          OS spec = OS spec' ->
          (normalizeSystem h (Some spec)).1 = (normalizeSystem h (Some spec')).1).
Proof.
  intros h.
  assert (Heq : forall spec,
             normalizeSystem h spec
             = (spec_normalize_axis (OS <$> spec) (GOOS h),
                spec_normalize_axis (Arch <$> spec) (GOARCH h))).
  { intros [spec|]; [|reflexivity]. unfold normalizeSystem. simpl.
    by destruct (Arch spec !! GOARCH h), (OS spec !! GOOS h). }
  split; [exact Heq|]. split; [reflexivity|].
  repeat split.
  - intros spec mapped Hm. rewrite Heq. simpl. by rewrite Hm.
  - intros spec mapped Hm. rewrite Heq. simpl. by rewrite Hm.
  - intros spec Hm. rewrite Heq. simpl. by rewrite Hm.
  - intros spec Hm. rewrite Heq. simpl. by rewrite Hm.
  - intros spec spec' Hs. rewrite !Heq. simpl. by rewrite Hs.
  - intros spec spec' Hs. rewrite !Heq. simpl. by rewrite Hs.
Qed.

Lemma C4_normalizeSystem_axes_are_independent_witness :
  (normalizeSystem (sample_host {| Tools := [] |} 200)
     (Some {| Arch := {[ "amd64" := "x64" ]}; OS := ∅ |})).2 = "x64".
Proof.
  refine (proj1 (proj2 (proj2 (C4_normalizeSystem_axes_are_independent
                                 (sample_host {| Tools := [] |} 200))))
            {| Arch := {[ "amd64" := "x64" ]}; OS := ∅ |} "x64" _).
  reflexivity.
Defined.

Lemma C1_buildURL_is_a_function_of_its_arguments_witness :
  buildURL (sample_host {| Tools := [node_tool] |} 404)
    "https://x/{{.version}}.zip" "1.0" "linux" "x64"
  = buildURL (sample_host {| Tools := [] |} 200)
      "https://x/{{.version}}.zip" "1.0" "linux" "x64".
Proof.
  refine (proj2 (proj2 (C1_buildURL_is_a_function_of_its_arguments
                          (sample_host {| Tools := [] |} 200)))
            (sample_host {| Tools := [node_tool] |} 404)
            "https://x/{{.version}}.zip" "1.0" "linux" "x64" _).
  vm_compute. discriminate.
Defined.

(** ** Installing one archive *)

Section Install.
Context (h : Host).

Lemma installTool_transport_error url install_dir w e :
  host_Get h (at_get url w) url = Err e ->
  installTool h url install_dir w = (Err e, at_create url w).
Proof.
  intros Hg. unfold installTool, bind, Printf, http_Get.
  fold (downloading url). fold (at_get url w). by rewrite Hg.
Qed.

Lemma installTool_bad_status url install_dir w response :
  host_Get h (at_get url w) url = Ok response ->
  StatusCode response <> 200%Z ->
  installTool h url install_dir w
  = (Err (DownloadFailed (Status response)), log (EvBodyClose url) (at_create url w)).
Proof.
  intros Hg Hs. unfold installTool, bind, Printf, http_Get.
  fold (downloading url). fold (at_get url w). rewrite Hg.
  unfold defer. apply Z.eqb_neq in Hs. rewrite Hs. reflexivity.
Qed.

Lemma installTool_no_scratch url install_dir w response e :
  host_Get h (at_get url w) url = Ok response ->
  StatusCode response = 200%Z ->
  host_CreateTemp h (at_create url w) "" scratch_pattern = Err e ->
  installTool h url install_dir w
  = (Err e,
     log (EvBodyClose url)
       (log (EvCreateTemp "" scratch_pattern "") (at_create url w))).
Proof.
  intros Hg Hs Hc. unfold installTool, bind, Printf, http_Get.
  fold (downloading url). fold (at_get url w). rewrite Hg.
  unfold defer. rewrite Hs, Z.eqb_refl. change (negb true) with false.
  cbv beta iota.
  unfold os_CreateTemp. fold (at_create url w). fold scratch_pattern.
  by rewrite Hc.
Qed.

Lemma installTool_scratch url install_dir w response tmp_file :
  host_Get h (at_get url w) url = Ok response ->
  StatusCode response = 200%Z ->
  host_CreateTemp h (at_create url w) "" scratch_pattern = Ok tmp_file ->
  installTool h url install_dir w
  = ((unpack h url install_dir tmp_file (Body response) (created url tmp_file w)).1,
     release h url tmp_file
       (unpack h url install_dir tmp_file (Body response) (created url tmp_file w)).2).
Proof.
  intros Hg Hs Hc. unfold installTool, bind, Printf, http_Get.
  fold (downloading url). fold (at_get url w). rewrite Hg.
  unfold defer. rewrite Hs, Z.eqb_refl. change (negb true) with false.
  cbv beta iota.
  unfold os_CreateTemp. fold (at_create url w). fold scratch_pattern.
  rewrite Hc. fold (creating tmp_file). fold (created url tmp_file w).
  fold (removing tmp_file).
  unfold unpack, bind, release, File_Close.
  destruct (io_Copy h tmp_file (Body response) (created url tmp_file w))
    as [[[]|e] w4]; simpl.
  - match goal with
    | |- context [?f w4] =>
        lazymatch f with
        | (if _ then _ else _) => destruct (f w4) as [r w5]
        end
    end.
    simpl. by destruct (os_Remove h tmp_file (log (EvClose tmp_file) w5)).
  - by destruct (os_Remove h tmp_file (log (EvClose tmp_file) w4)).
Qed.

End Install.

Section InstallFacts.
Context (h : Host).

Lemma unpack_copy_failed url install_dir tmp_file body w n e :
  host_Copy h w tmp_file body = Some (n, e) ->
  exists w1,
    unpack h url install_dir tmp_file body w = (Err e, w1)
    /\ trace w1 = trace w ++ [EvCopy tmp_file].
Proof.
  intros Hc. unfold unpack, bind, io_Copy. rewrite Hc. eauto.
Qed.

Lemma unpack_dispatch url install_dir tmp_file body w :
  host_Copy h w tmp_file body = None ->
  unpack h url install_dir tmp_file body w
  = match spec_strategy (filepath.Ext url) with
    | Some s => exec_Run h (tar_argv s tmp_file install_dir) (copied tmp_file body w)
    | None => (Err (UnsupportedArchiveFormat (filepath.Ext url)), copied tmp_file body w)
    end.
Proof.
  intros Hc. unfold unpack, bind, io_Copy. rewrite Hc.
  fold (copied tmp_file body w). unfold spec_strategy, Str.eqb.
  destruct (bool_decide (filepath.Ext url = ".gz")),
    (bool_decide (filepath.Ext url = ".tgz")),
    (bool_decide (filepath.Ext url = ".xz")); reflexivity.
Qed.

Lemma exec_Run_trace argv w :
  trace (exec_Run h argv w).2 = trace w ++ [EvRun argv].
Proof. unfold exec_Run. by destruct (host_Run h w argv) as [[? ?] [?|]]. Qed.

Lemma release_trace url tmp_file w :
  trace (release h url tmp_file w)
  = trace w ++ [EvClose tmp_file; EvRemove tmp_file;
                EvPrintf (removing tmp_file); EvBodyClose url].
Proof.
  unfold release, os_Remove.
  destruct (host_Remove h (log (EvClose tmp_file) w) tmp_file); simpl;
    by rewrite <- !app_assoc.
Qed.

Lemma release_files url tmp_file w :
  host_Remove h (log (EvClose tmp_file) w) tmp_file = None ->
  files (fs (release h url tmp_file w)) = delete tmp_file (files (fs w)).
Proof. intros Hr. unfold release, os_Remove. by rewrite Hr. Qed.

Lemma release_dirs url tmp_file w :
  dirs (fs (release h url tmp_file w)) = dirs (fs w).
Proof.
  unfold release, os_Remove.
  by destruct (host_Remove h (log (EvClose tmp_file) w) tmp_file).
Qed.

Lemma created_trace url tmp_file w :
  trace (created url tmp_file w)
  = trace w ++ [EvPrintf (downloading url); EvGet url;
                EvCreateTemp "" scratch_pattern tmp_file;
                EvPrintf (creating tmp_file)].
Proof. unfold created, at_create, at_get. simpl. by rewrite <- !app_assoc. Qed.

End InstallFacts.

(** C10: when the response arrives with a status other than 200,
    [installTool] returns the download error after three calls only (the
    announcement, the request and the closing of the body): no scratch file
    is created, no extraction is chosen or run, and the file system is left
    as it was. *)
Theorem C10_bad_status_creates_nothing :
  forall (h : Host) (url install_dir : string) (w : World) (response : Response),
    host_Get h (at_get url w) url = Ok response ->
    StatusCode response <> 200%Z ->
    exists w',
      installTool h url install_dir w = (Err (DownloadFailed (Status response)), w')
      /\ trace w' = trace w ++ [EvPrintf (downloading url); EvGet url; EvBodyClose url]
      /\ fs w' = fs w.
Proof.
  intros h url install_dir w response Hg Hs.
  eexists. split; [by apply installTool_bad_status|].
  split; [|reflexivity]. unfold at_create, at_get. simpl. by rewrite <- !app_assoc.
Qed.

Lemma C10_bad_status_creates_nothing_witness :
  exists w',
    installTool (sample_host {| Tools := [] |} 404) "https://x/a.tgz" "env/storage/a@1"
      empty_world
    = (Err (DownloadFailed "status"), w')
    /\ trace w' = trace empty_world
                  ++ [EvPrintf (downloading "https://x/a.tgz");
                      EvGet "https://x/a.tgz"; EvBodyClose "https://x/a.tgz"]
    /\ fs w' = fs empty_world.
Proof.
  refine (C10_bad_status_creates_nothing (sample_host {| Tools := [] |} 404)
            "https://x/a.tgz" "env/storage/a@1" empty_world
            {| Status := "status"; StatusCode := 404; Body := "archive" |} _ _).
  - reflexivity.
  - vm_compute. discriminate.
Defined.

(** C8: once the scratch file exists, every return of [installTool], be it
    success, a failed copy, a failed extraction or an unsupported format,
    is followed by the same deferred calls: the file is closed, then
    removed, then the removal is announced and the body is closed.  When
    the removal succeeds the file is gone from the file system. *)
Theorem C8_scratch_file_is_removed_on_every_return :
  forall (h : Host) (url install_dir : string) (w : World)
         (response : Response) (tmp_file : string),
    host_Get h (at_get url w) url = Ok response ->
    StatusCode response = 200%Z ->
    host_CreateTemp h (at_create url w) "" scratch_pattern = Ok tmp_file ->
    forall r w',
      installTool h url install_dir w = (r, w') ->
      exists w4,
        unpack h url install_dir tmp_file (Body response) (created url tmp_file w)
        = (r, w4)
        /\ trace w' = trace w4 ++ [EvClose tmp_file; EvRemove tmp_file;
                                   EvPrintf (removing tmp_file); EvBodyClose url]
        /\ (host_Remove h (log (EvClose tmp_file) w4) tmp_file = None ->
            files (fs w') !! tmp_file = None).
Proof.
  intros h url install_dir w response tmp_file Hg Hs Hc r w' Hrun.
  rewrite (installTool_scratch h url install_dir w response tmp_file Hg Hs Hc) in Hrun.
  destruct (unpack h url install_dir tmp_file (Body response) (created url tmp_file w))
    as [r4 w4].
  simpl in Hrun. injection Hrun as <- <-.
  exists w4. split; [reflexivity|]. split; [apply release_trace|].
  intros Hr. rewrite release_files by done. apply lookup_delete_eq.
Qed.

Lemma C8_scratch_file_is_removed_on_every_return_witness :
  exists w4,
    unpack (sample_host {| Tools := [] |} 200) "https://x/a.zip" "env/storage/a@1"
      "/tmp/toolenv-download-1" "archive"
      (created "https://x/a.zip" "/tmp/toolenv-download-1" empty_world)
    = (Err (UnsupportedArchiveFormat ".zip"), w4)
    /\ trace (installTool (sample_host {| Tools := [] |} 200) "https://x/a.zip"
                "env/storage/a@1" empty_world).2
       = trace w4 ++ [EvClose "/tmp/toolenv-download-1";
                      EvRemove "/tmp/toolenv-download-1";
                      EvPrintf (removing "/tmp/toolenv-download-1");
                      EvBodyClose "https://x/a.zip"]
    /\ (host_Remove (sample_host {| Tools := [] |} 200)
          (log (EvClose "/tmp/toolenv-download-1") w4) "/tmp/toolenv-download-1" = None ->
        files (fs (installTool (sample_host {| Tools := [] |} 200) "https://x/a.zip"
                     "env/storage/a@1" empty_world).2)
          !! "/tmp/toolenv-download-1" = None).
Proof.
  refine (C8_scratch_file_is_removed_on_every_return
            (sample_host {| Tools := [] |} 200) "https://x/a.zip" "env/storage/a@1"
            empty_world {| Status := "status"; StatusCode := 200; Body := "archive" |}
            "/tmp/toolenv-download-1" _ _ _ _ _ _).
  - reflexivity.
  - reflexivity.
  - reflexivity.
  - vm_compute. reflexivity.
Defined.

(** What ends a URL decides, whatever comes before. *)
Lemma strategy_of_suffix (front : string) :
  spec_strategy (filepath.Ext (front +:+ ".tgz")) = Some GzipTar
  /\ spec_strategy (filepath.Ext (front +:+ ".gz")) = Some GzipTar
  /\ spec_strategy (filepath.Ext (front +:+ ".xz")) = Some XzTar
  /\ spec_strategy (filepath.Ext (front +:+ ".zip")) = None
  /\ spec_strategy (filepath.Ext "https://example.org/download/archive") = None.
Proof.
  repeat split; try (rewrite StrFacts.Ext_app by discriminate); reflexivity.
Qed.

Ltac no_run :=
  let Hin := fresh "Hin" in
  intros ? Hin;
  repeat (apply elem_of_cons in Hin as [Hin|Hin]; [discriminate Hin|]);
  by apply elem_of_nil in Hin.

(** C2: the extraction is chosen from the extension of the URL alone.  In
    every run that has stored the body in the scratch file, [.tgz] and
    [.gz] run the gzip extraction, [.xz] runs the xz extraction, and their
    result is the result of [installTool]; any other extension returns the
    unsupported-format error and runs no extraction.  Whatever the host
    answers, a URL with another extension never runs an extraction and
    never succeeds. *)
Theorem C2_extraction_is_chosen_by_extension :
  forall (h : Host) (url install_dir : string) (w : World),
    (forall response tmp_file,
       host_Get h (at_get url w) url = Ok response ->
       StatusCode response = 200%Z ->
       host_CreateTemp h (at_create url w) "" scratch_pattern = Ok tmp_file ->
       host_Copy h (created url tmp_file w) tmp_file (Body response) = None ->
       let wc := copied tmp_file (Body response) (created url tmp_file w) in
       let closing := [EvClose tmp_file; EvRemove tmp_file;
                       EvPrintf (removing tmp_file); EvBodyClose url] in
       match spec_strategy (filepath.Ext url) with
       | Some s =>
           (installTool h url install_dir w).1
           = match (host_Run h wc (tar_argv s tmp_file install_dir)).2 with
             | Some e => Err e
             | None => Ok tt
             end
           /\ trace (installTool h url install_dir w).2
              = trace wc ++ [EvRun (tar_argv s tmp_file install_dir)] ++ closing
       | None =>
           (installTool h url install_dir w).1
           = Err (UnsupportedArchiveFormat (filepath.Ext url))
           /\ trace (installTool h url install_dir w).2 = trace wc ++ closing
       end)
    /\ (spec_strategy (filepath.Ext url) = None ->
        is_ok (installTool h url install_dir w).1 = false
        /\ exists events,
             trace (installTool h url install_dir w).2 = trace w ++ events
             /\ no_extraction events).
Proof.
  intros h url install_dir w. split.
  - intros response tmp_file Hg Hs Hc Hcopy wc closing.
    rewrite (installTool_scratch h url install_dir w response tmp_file Hg Hs Hc).
    rewrite (unpack_dispatch h url install_dir tmp_file _ _ Hcopy).
    fold wc. cbn [fst snd].
    destruct (spec_strategy (filepath.Ext url)) as [s|].
    + rewrite release_trace, exec_Run_trace. split.
      * unfold exec_Run.
        by destruct (host_Run h wc (tar_argv s tmp_file install_dir)) as [[? ?] [?|]].
      * by rewrite <- app_assoc.
    + cbn [fst snd]. by rewrite release_trace.
  - intros Hnone.
    destruct (host_Get h (at_get url w) url) as [response|e] eqn:Hg.
    2:{ rewrite (installTool_transport_error h url install_dir w e Hg).
        split; [reflexivity|]. eexists. split.
        - unfold at_create, at_get. simpl. by rewrite <- app_assoc.
        - no_run. }
    destruct (decide (StatusCode response = 200%Z)) as [Hs|Hs].
    2:{ rewrite (installTool_bad_status h url install_dir w response Hg Hs).
        split; [reflexivity|]. eexists. split.
        - unfold at_create, at_get. simpl. by rewrite <- !app_assoc.
        - no_run. }
    destruct (host_CreateTemp h (at_create url w) "" scratch_pattern)
      as [tmp_file|e] eqn:Hc.
    2:{ rewrite (installTool_no_scratch h url install_dir w response e Hg Hs Hc).
        split; [reflexivity|]. eexists. split.
        - unfold at_create, at_get. simpl. by rewrite <- !app_assoc.
        - no_run. }
    rewrite (installTool_scratch h url install_dir w response tmp_file Hg Hs Hc).
    cbn [fst snd]. rewrite release_trace.
    destruct (host_Copy h (created url tmp_file w) tmp_file (Body response))
      as [[n e]|] eqn:Hcopy.
    + destruct (unpack_copy_failed h url install_dir tmp_file _ _ n e Hcopy)
        as (w1 & -> & Ht).
      split; [reflexivity|]. cbn [fst snd]. rewrite Ht, created_trace.
      eexists. split; [by rewrite <- !app_assoc|].
      no_run.
    + rewrite (unpack_dispatch h url install_dir tmp_file _ _ Hcopy), Hnone.
      split; [reflexivity|]. cbn [fst snd copied with_fs log trace].
      rewrite created_trace.
      eexists. split; [by rewrite <- !app_assoc|].
      no_run.
Qed.

Lemma C2_extraction_is_chosen_by_extension_witness :
  (installTool (sample_host {| Tools := [] |} 200) "https://x/a.tar.xz"
     "env/storage/a@1" empty_world).1 = Ok tt
  /\ trace (installTool (sample_host {| Tools := [] |} 200) "https://x/a.tar.xz"
              "env/storage/a@1" empty_world).2
     = trace (copied "/tmp/toolenv-download-1" "archive"
                (created "https://x/a.tar.xz" "/tmp/toolenv-download-1" empty_world))
       ++ [EvRun (tar_argv XzTar "/tmp/toolenv-download-1" "env/storage/a@1")]
       ++ [EvClose "/tmp/toolenv-download-1"; EvRemove "/tmp/toolenv-download-1";
           EvPrintf (removing "/tmp/toolenv-download-1");
           EvBodyClose "https://x/a.tar.xz"].
Proof.
  refine (proj1 (C2_extraction_is_chosen_by_extension
                   (sample_host {| Tools := [] |} 200) "https://x/a.tar.xz"
                   "env/storage/a@1" empty_world)
            {| Status := "status"; StatusCode := 200; Body := "archive" |}
            "/tmp/toolenv-download-1" _ _ _ _).
  - reflexivity.
  - reflexivity.
  - reflexivity.
  - reflexivity.
Defined.

(** ** The whole run *)

Section SetupFacts.
Context (h : Host).

Lemma bind_apply {A B} (m : M A) (k : A -> M B) (w : World) :
  bind m k w
  = match m w with
    | (Ok a, w') => k a w'
    | (Err e, w') => (Err e, w')
    end.
Proof. reflexivity. Qed.

Lemma for_each_cons {A} (x : A) (xs : list A) (body : A -> M unit) :
  for_each (x :: xs) body = bind (body x) (fun _ => for_each xs body).
Proof. reflexivity. Qed.

Lemma for_each_app {A} (xs ys : list A) (body : A -> M unit) (w : World) :
  for_each (xs ++ ys) body w
  = match for_each xs body w with
    | (Ok _, w1) => for_each ys body w1
    | (Err e, w1) => (Err e, w1)
    end.
Proof.
  revert w. induction xs as [|x xs IH]; intros w; [reflexivity|].
  simpl. unfold bind. destruct (body x w) as [[[]|e] w1]; [apply IH | reflexivity].
Qed.

Lemma setup_tool_bad_url storage_dir tool w e :
  buildURL h (URL tool) (Version tool)
    (normalizeSystem h (Normalization tool)).1
    (normalizeSystem h (Normalization tool)).2 = Err e ->
  setup_tool h storage_dir tool w
  = (Err (Wrapped "failed to build the tool URL" e), w).
Proof.
  intros Hb. unfold setup_tool.
  destruct (normalizeSystem h (Normalization tool)) as [os_name arch].
  simpl in Hb. unfold bind, wrap, lift. by rewrite Hb.
Qed.

Lemma setup_unfold env_name w :
  setup h env_name w
  = match loadEnv h w with
    | (Ok config, w0) =>
        match prepare h env_name w0 with
        | (Ok _, w1) =>
            match for_each (Tools config)
                    (setup_tool h (filepath.Join [env_name; "storage"])) w1 with
            | (Ok _, w2) =>
                (generateActivationScript h env_name (Tools config) ;;
                 Printf ("Environment created at ./"
                           +:+ filepath.Join ["."; env_name] +:+ nl) ;;
                 Printf ("Activate with: source ./"
                           +:+ filepath.Join ["."; env_name] +:+ "/bin/activate"
                           +:+ nl))%prog w2
            | (Err e, w2) => (Err e, w2)
            end
        | (Err e, w1) => (Err e, w1)
        end
    | (Err e, w0) => (Err e, w0)
    end.
Proof.
  unfold setup, prepare, bind.
  destruct (loadEnv h w) as [[config|e] w0]; [|reflexivity].
  destruct (wrap "failed to create env" _ w0) as [[[]|e] w1]; [|reflexivity].
  destruct (wrap "failed to cleanup the storage" _ w1) as [[[]|e] w2]; reflexivity.
Qed.

End SetupFacts.

(** C7: when the URL template of a manifest entry fails to parse, the run
    returns an error and ends in the world that the preparation and the
    entries before it have produced: for the entry itself nothing is
    requested from the network and no directory is made. *)
Theorem C7_unparsable_url_stops_before_the_tool :
  forall (h : Host) (env_name : string) (w w0 : World) (config : Config)
         (before after : list Tool) (tool : Tool) (e : error),
    loadEnv h w = (Ok config, w0) ->
    Tools config = before ++ tool :: after ->
    template_Parse h "url" (URL tool) = Err e ->
    is_ok (setup h env_name w).1 = false
    /\ (setup h env_name w).2
       = ((prepare h env_name ;;
           for_each before (setup_tool h (filepath.Join [env_name; "storage"])))%prog
            w0).2.
Proof.
  intros h env_name w w0 config before after tool e Hload Htools Hparse.
  rewrite setup_unfold, Hload, Htools.
  rewrite (bind_apply (prepare h env_name)).
  destruct (prepare h env_name w0) as [[[]|e1] w1]; [|done].
  rewrite for_each_app.
  destruct (for_each before _ w1) as [[[]|e2] w2]; [|done].
  rewrite for_each_cons, bind_apply.
  rewrite (setup_tool_bad_url h _ tool w2 e); [done|].
  unfold buildURL. by rewrite Hparse.
Qed.

Lemma C7_unparsable_url_stops_before_the_tool_witness :
  let bad := {| Name := "node"; Version := "22.18.0";
                URL := "https://x/node-{{version}}.tar.xz";
                Env := ∅; Normalization := None |} in
  let host := sample_host {| Tools := [go_tool; bad; node_tool] |} 200 in
  is_ok (setup host "env" empty_world).1 = false
  /\ (setup host "env" empty_world).2
     = ((prepare host "env" ;;
         for_each [go_tool] (setup_tool host (filepath.Join ["env"; "storage"])))%prog
          (log (EvClose "toolenv.yml") (log (EvOpen "toolenv.yml") empty_world))).2.
Proof.
  intros bad host.
  refine (C7_unparsable_url_stops_before_the_tool host "env" empty_world _
            {| Tools := [go_tool; bad; node_tool] |} [go_tool] [node_tool] bad
            (FunctionNotDefined "version") _ _ _).
  - reflexivity.
  - reflexivity.
  - reflexivity.
Defined.

(** ** Directories and trace during a run *)

Section Grows.
Context (h : Host).

Lemma prefix_log (l : list Event) (e : Event) : l `prefix_of` l ++ [e].
Proof. by exists [e]. Qed.

Lemma grows_ret {A} (a : A) : grows (ret a).
Proof. by intros w. Qed.

Lemma grows_fail {A} (e : error) : grows (@fail A e).
Proof. by intros w. Qed.

Lemma grows_lift {A} (r : result A) : grows (lift r).
Proof. by intros w. Qed.

Lemma grows_bind {A B} (m : M A) (k : A -> M B) :
  grows m -> (forall a, grows (k a)) -> grows (bind m k).
Proof.
  intros Hm Hk w. unfold bind. destruct (Hm w) as [Hd Ht].
  destruct (m w) as [[a|e] w1]; [|done].
  destruct (Hk a w1) as [Hd' Ht']. simpl in *.
  split; [set_solver | by etrans].
Qed.

Lemma grows_wrap {A} (context : string) (m : M A) :
  grows m -> grows (wrap context m).
Proof.
  intros Hm w. unfold wrap. specialize (Hm w). by destruct (m w) as [[a|e] w1].
Qed.

Lemma grows_defer {A B} (cleanup : M B) (body : M A) :
  grows cleanup -> grows body -> grows (defer cleanup body).
Proof.
  intros Hc Hb w. unfold defer. destruct (Hb w) as [Hd Ht].
  destruct (body w) as [r w1]. destruct (Hc w1) as [Hd' Ht'].
  destruct (cleanup w1) as [r2 w2]. simpl in *.
  split; [set_solver | by etrans].
Qed.

Lemma grows_if {A} (b : bool) (m1 m2 : M A) :
  grows m1 -> grows m2 -> grows (if b then m1 else m2).
Proof. by destruct b. Qed.

Lemma grows_Printf text : grows (Printf text).
Proof. intros w. split; [done | apply prefix_log]. Qed.

Lemma grows_MkdirAll path : grows (os_MkdirAll h path).
Proof.
  intros w. unfold os_MkdirAll.
  destruct (host_MkdirAll h w path); simpl; (split; [set_solver | apply prefix_log]).
Qed.

Lemma grows_Get url : grows (http_Get h url).
Proof. intros w. split; [done | apply prefix_log]. Qed.

Lemma grows_Body_Close url : grows (Body_Close url).
Proof. intros w. split; [done | apply prefix_log]. Qed.

Lemma grows_CreateTemp dir pattern : grows (os_CreateTemp h dir pattern).
Proof.
  intros w. unfold os_CreateTemp.
  destruct (host_CreateTemp h w dir pattern); (split; [done | apply prefix_log]).
Qed.

Lemma grows_Copy file body : grows (io_Copy h file body).
Proof.
  intros w. unfold io_Copy.
  destruct (host_Copy h w file body) as [[n e]|]; (split; [done | apply prefix_log]).
Qed.

Lemma grows_File_Close file : grows (File_Close file).
Proof. intros w. split; [done | apply prefix_log]. Qed.

Lemma grows_Remove file : grows (os_Remove h file).
Proof.
  intros w. unfold os_Remove.
  destruct (host_Remove h w file); (split; [done | apply prefix_log]).
Qed.

Lemma grows_Run argv : grows (exec_Run h argv).
Proof.
  intros w. unfold exec_Run.
  destruct (host_Run h w argv) as [[new_dirs new_files] [e|]]; simpl;
    (split; [set_solver | apply prefix_log]).
Qed.

Lemma grows_WriteFile path data : grows (os_WriteFile h path data).
Proof.
  intros w. unfold os_WriteFile.
  destruct (host_WriteFile h w path data); (split; [done | apply prefix_log]).
Qed.

Lemma grows_range m : grows (range_map h m).
Proof. by intros w. Qed.

Lemma grows_for_each {A} (xs : list A) (body : A -> M unit) :
  (forall x, grows (body x)) -> grows (for_each xs body).
Proof.
  intros Hb. induction xs as [|x xs IH]; [apply grows_ret|].
  apply grows_bind; [apply Hb | intros _; apply IH].
Qed.

Lemma grows_fold_each {A S} (xs : list A) (body : S -> A -> M S) (s : S) :
  (forall s x, grows (body s x)) -> grows (fold_each xs body s).
Proof.
  intros Hb. revert s. induction xs as [|x xs IH]; intros s; [apply grows_ret|].
  apply grows_bind; [apply Hb | intros s'; apply IH].
Qed.

Create HintDb grows.
Hint Resolve grows_ret grows_fail grows_lift grows_Printf grows_MkdirAll
  grows_Get grows_Body_Close grows_CreateTemp grows_Copy grows_File_Close
  grows_Remove grows_Run grows_WriteFile grows_range : grows.

Ltac grows :=
  repeat first
    [ solve [auto with grows]
    | apply grows_bind; [|intros ?]
    | apply grows_defer
    | apply grows_if
    | apply grows_wrap
    | apply grows_for_each; intros ?
    | apply grows_fold_each; intros ? ? ].

Lemma grows_installTool url install_dir : grows (installTool h url install_dir).
Proof. unfold installTool, extractTarGz, extractTarXz. grows. Qed.

Lemma grows_setup_tool storage_dir tool : grows (setup_tool h storage_dir tool).
Proof.
  pose proof grows_installTool as Hinstall.
  unfold setup_tool. destruct (normalizeSystem h (Normalization tool)).
  grows.
Qed.

Lemma grows_export_entry tool sb entry : grows (export_entry h tool sb entry).
Proof. unfold export_entry. destruct entry. grows. Qed.

Lemma grows_unset_entry sb entry : grows (unset_entry sb entry).
Proof. unfold unset_entry. destruct entry. grows. Qed.

Lemma grows_generateActivationScript env_name tools :
  grows (generateActivationScript h env_name tools).
Proof.
  pose proof grows_export_entry as Hexport.
  pose proof grows_unset_entry as Hunset.
  unfold generateActivationScript. grows.
Qed.

End Grows.

(** ** The install directory of a tool *)

Module PathFacts.

Lemma split_no_sep (sep : ascii) (s : string) :
  Str.contains sep s = false -> Str.split sep s = [s].
Proof.
  induction s as [|c s IH]; intros Hs; [reflexivity|].
  change (Str.contains sep (String c s))
    with (if Ascii.eqb sep c then true else Str.contains sep s) in Hs.
  simpl. rewrite (Ascii.eqb_sym c sep).
  destruct (Ascii.eqb sep c); [done|]. by rewrite IH.
Qed.

(** A name and a version joined by [@] are never an element that [Clean]
    drops or resolves. *)
Lemma at_is_kept (name version : string) :
  let elem := name +:+ "@" +:+ version in
  elem <> "" /\ elem <> "." /\ elem <> "..".
Proof.
  destruct name as [|c1 [|c2 [|c3 name]]]; repeat split; try discriminate.
Qed.

Lemma clean_step_keep (rooted : bool) (out : list string) (elem : string) :
  elem <> "" -> elem <> "." -> elem <> ".." ->
  filepath.clean_step rooted out elem = elem :: out.
Proof.
  intros H0 H1 H2. unfold filepath.clean_step.
  by rewrite !(proj2 (StrFacts.eqb_false _ _)) by done.
Qed.

Lemma prefixes_from_cons (done : string) (c : ascii) (rest : string) :
  filepath.prefixes_from done (String c rest)
  = if Ascii.eqb c "/" && negb (Str.is_empty done)
    then done :: filepath.prefixes_from (done +:+ String c "") rest
    else filepath.prefixes_from (done +:+ String c "") rest.
Proof. reflexivity. Qed.

Lemma Join_storage (elem : string) :
  Str.contains "/" elem = false ->
  elem <> "" -> elem <> "." -> elem <> ".." ->
  filepath.Join ["env/storage"; elem] = "env/storage/" +:+ elem.
Proof.
  intros Hs H0 H1 H2.
  change (filepath.Join ["env/storage"; elem])
    with (filepath.Clean ("env/storage/" +:+ elem)).
  unfold filepath.Clean.
  change ("env/storage/" +:+ elem)
    with (String "e" (String "n" (String "v" (String "/" (String "s" (String "t"
           (String "o" (String "r" (String "a" (String "g" (String "e"
           (String "/" elem)))))))))))).
  cbv beta iota.
  change (Ascii.eqb "e" "/") with false. cbv iota.
  simpl Str.split. rewrite split_no_sep by done.
  simpl fold_left. rewrite !(clean_step_keep _ _ elem) by done.
  reflexivity.
Qed.

Lemma storage_above (elem : string) :
  "env/storage" ∈ filepath.prefixes ("env/storage/" +:+ elem).
Proof.
  change (filepath.prefixes ("env/storage/" +:+ elem))
    with ("env" :: "env/storage" :: filepath.prefixes_from "env/storage/" elem).
  apply elem_of_cons. right. apply elem_of_cons. by left.
Qed.

(** The directory of the storage is made with the install directory of a
    tool whose name and version hold no separator. *)
Lemma storage_made_with_install_dir (name version : string) :
  Str.contains "/" (name +:+ "@" +:+ version) = false ->
  "env/storage"
  ∈ filepath.prefixes (filepath.Join ["env/storage"; name +:+ "@" +:+ version]).
Proof.
  intros Hs. destruct (at_is_kept name version) as (H0 & H1 & H2).
  rewrite Join_storage by done. apply storage_above.
Qed.

End PathFacts.

(** ** The text of the activation script *)

Section Script.
Context (h : Host).

Lemma fold_each_cons {A S} (x : A) (xs : list A) (body : S -> A -> M S) (s : S) :
  fold_each (x :: xs) body s = bind (body s x) (fun s' => fold_each xs body s').
Proof. reflexivity. Qed.

Lemma export_entry_eq tool sb key value w :
  export_entry h tool sb (key, value) w
  = match expand_value h (Version tool) value with
    | Ok buf => (Ok (sb ++ [export_line key buf]), w)
    | Err e => (Err e, w)
    end.
Proof.
  unfold export_entry, expand_value, bind, lift, ret, WriteString.
  fold (escape_quotes value).
  destruct (template_Parse h "env" (escape_quotes value)) as [tmpl|e]; [|done].
  by destruct (template_Execute h tmpl _).
Qed.

Lemma export_loop_ok tool entries sb sb' w w' :
  fold_each entries (export_entry h tool) sb w = (Ok sb', w') ->
  w' = w
  /\ sb' = sb ++ map (fun '(key, value) => export_line key (expansion h tool value))
                   entries
  /\ Forall (fun '(key, value) => is_ok (expand_value h (Version tool) value) = true)
       entries.
Proof.
  revert sb. induction entries as [|[key value] entries IH]; intros sb Hrun.
  - injection Hrun as <- <-. by rewrite app_nil_r.
  - rewrite fold_each_cons, bind_apply, export_entry_eq in Hrun.
    rewrite map_cons. unfold expansion at 1.
    destruct (expand_value h (Version tool) value) as [buf|e] eqn:Hv; [|done].
    apply IH in Hrun as (-> & -> & Hall).
    split; [done|]. split; [by rewrite <- app_assoc|].
    constructor; [by rewrite Hv | done].
Qed.

Lemma export_loops_ok tools sb sb' w w' :
  fold_each tools
    (fun sb tool =>
       bind (range_map h (Env tool))
         (fun entries => fold_each entries (export_entry h tool) sb)) sb w
  = (Ok sb', w') ->
  w' = skip_seed (length tools) w
  /\ sb' = sb ++ export_block h (ranges h (seed w) tools)
  /\ expansions_ok h tools.
Proof.
  revert sb w. induction tools as [|tool tools IH]; intros sb w Hrun.
  - injection Hrun as <- <-. split; [|split].
    + destruct w. unfold skip_seed. simpl. f_equal. lia.
    + by rewrite app_nil_r.
    + intros tool key value Hin. by apply elem_of_nil in Hin.
  - rewrite fold_each_cons, !bind_apply in Hrun. unfold range_map at 1 in Hrun.
    destruct (fold_each (host_range h (seed w) (Env tool)) _ sb _)
      as [[sb1|e] w1] eqn:Hinner; [|done].
    apply export_loop_ok in Hinner as (-> & -> & Hall).
    apply IH in Hrun as (-> & -> & Hok).
    split; [|split].
    + unfold skip_seed. simpl. f_equal. lia.
    + simpl. by rewrite <- app_assoc.
    + intros tool' key value Hin Hlook.
      apply elem_of_cons in Hin as [->|Hin]; [|by eapply Hok].
      rewrite Forall_forall in Hall.
      apply (Hall (key, value)).
      rewrite (host_range_perm h (seed w) (Env tool)).
      by apply elem_of_map_to_list.
Qed.

Lemma unset_loop_eq entries sb w :
  fold_each entries unset_entry sb w
  = (Ok (sb ++ flat_map (fun '(key, _) => unset_line key) entries), w).
Proof.
  revert sb. induction entries as [|[key value] entries IH]; intros sb.
  - simpl. by rewrite app_nil_r.
  - rewrite fold_each_cons, bind_apply. simpl flat_map.
    unfold unset_entry at 1, unset_line at 1.
    destruct (Str.eqb key "PATH"); unfold ret; rewrite IH; [done|].
    unfold WriteString. by rewrite <- app_assoc.
Qed.

Lemma unset_loops_eq tools sb w :
  fold_each tools
    (fun sb tool =>
       bind (range_map h (Env tool))
         (fun entries => fold_each entries unset_entry sb)) sb w
  = (Ok (sb ++ unset_block (ranges h (seed w) tools)), skip_seed (length tools) w).
Proof.
  revert sb w. induction tools as [|tool tools IH]; intros sb w.
  - simpl. rewrite app_nil_r. unfold ret, skip_seed. destruct w. simpl.
    do 2 f_equal. lia.
  - rewrite fold_each_cons, !bind_apply. unfold range_map at 1.
    rewrite unset_loop_eq, IH. simpl. rewrite <- app_assoc.
    unfold skip_seed. simpl. do 2 f_equal. lia.
Qed.

(** A successful [generateActivationScript] has expanded every value and
    writes the concatenation of [script_chunks], and nothing else. *)
Lemma generateActivationScript_ok env_name tools w w' :
  generateActivationScript h env_name tools w = (Ok tt, w') ->
  let path := filepath.Join [env_name; "bin"; "activate"] in
  let script := Builder_String (script_chunks h env_name (seed w) tools) in
  let w1 := skip_seed (2 * length tools) w in
  expansions_ok h tools
  /\ host_WriteFile h w1 path script = None
  /\ w' = with_fs {| dirs := dirs (fs w);
                     files := <[path := script]> (files (fs w)) |}
            (log (EvWriteFile path script) w1).
Proof.
  intros Hrun path script w1. unfold generateActivationScript in Hrun.
  rewrite bind_apply in Hrun.
  match type of Hrun with
  | context [fold_each tools ?f ?sb w] =>
      destruct (fold_each tools f sb w) as [[sb1|e] w2] eqn:Hexp; [|done]
  end.
  apply export_loops_ok in Hexp as (-> & -> & Hok).
  rewrite bind_apply, unset_loops_eq in Hrun.
  split; [done|].
  assert (Hw : skip_seed (length tools) (skip_seed (length tools) w) = w1).
  { unfold w1, skip_seed. simpl. f_equal. lia. }
  rewrite Hw in Hrun.
  assert (Hs : forall sb0, Builder_String sb0 = script ->
                 os_WriteFile h path (Builder_String sb0) w1 = (Ok tt, w') ->
                 host_WriteFile h w1 path script = None
                 /\ w' = with_fs {| dirs := dirs (fs w);
                                    files := <[path := script]> (files (fs w)) |}
                           (log (EvWriteFile path script) w1)).
  { intros sb0 -> Hwrite. unfold os_WriteFile in Hwrite.
    destruct (host_WriteFile h w1 path _); [done|].
    by injection Hwrite as <-. }
  eapply Hs; [|exact Hrun].
  unfold script, script_chunks, WriteString, script_head, script_prompt, script_foot.
  simpl seed. f_equal. rewrite <- !app_assoc. reflexivity.
Qed.

End Script.

(** ** Storage and script over a whole run *)

Section Lifecycle.
Context (h : Host).

Lemma prepare_env_ok w0 w1 :
  prepare h "env" w0 = (Ok tt, w1) ->
  trace w1 = trace w0 ++ [EvMkdirAll "env/bin"; EvRemoveAll "env/storage"]
  /\ ("env/storage" ∉ dirs (fs w1))
  /\ seed w1 = seed w0.
Proof.
  unfold prepare. rewrite bind_apply.
  change (filepath.Join [filepath.Join ["."; "env"]; "bin"]) with "env/bin".
  change (filepath.Join ["env"; "storage"]) with "env/storage".
  unfold wrap, os_MkdirAll, os_RemoveAll.
  destruct (host_MkdirAll h w0 "env/bin"); [done|].
  destruct (host_RemoveAll h _ "env/storage"); [done|].
  intros [= <-]. simpl. split; [by rewrite <- app_assoc|]. split; [|done].
  intros Hin. apply elem_of_filter in Hin as [Hin _]. discriminate Hin.
Qed.

Lemma setup_tool_makes_storage tool w w' :
  setup_tool h "env/storage" tool w = (Ok tt, w') ->
  Str.contains "/" (Name tool +:+ "@" +:+ Version tool) = false ->
  "env/storage" ∈ dirs (fs w').
Proof.
  intros Hrun Hs. unfold setup_tool in Hrun.
  destruct (normalizeSystem h (Normalization tool)) as [os_name arch].
  rewrite bind_apply in Hrun. unfold wrap at 1, lift in Hrun.
  destruct (buildURL h (URL tool) (Version tool) os_name arch) as [url|e]; [|done].
  rewrite bind_apply in Hrun. unfold wrap at 1, os_MkdirAll in Hrun.
  destruct (host_MkdirAll h w _); [done|].
  match type of Hrun with
  | bind ?m ?k ?w1 = _ =>
      assert (Hg : grows (bind m k));
      [| destruct (Hg w1) as [Hd _]; rewrite Hrun in Hd; apply Hd ]
  end.
  - apply grows_bind; [apply grows_Printf|]. intros _.
    apply grows_bind; [apply grows_wrap, grows_installTool|]. intros _.
    apply grows_Printf.
  - simpl. apply elem_of_union_l, elem_of_list_to_set.
    by apply PathFacts.storage_made_with_install_dir.
Qed.

Lemma tools_make_storage tools tool w w' :
  for_each tools (setup_tool h "env/storage") w = (Ok tt, w') ->
  tool ∈ tools ->
  Str.contains "/" (Name tool +:+ "@" +:+ Version tool) = false ->
  "env/storage" ∈ dirs (fs w').
Proof.
  intros Hrun Hin Hs.
  apply list_elem_of_split in Hin as (before & after & ->).
  rewrite for_each_app in Hrun.
  destruct (for_each before _ w) as [[[]|e] w1]; [|done].
  rewrite for_each_cons, bind_apply in Hrun.
  destruct (setup_tool h "env/storage" tool w1) as [[[]|e] w2] eqn:Htool; [|done].
  apply setup_tool_makes_storage in Htool; [|done].
  destruct (grows_for_each after (setup_tool h "env/storage")
              (grows_setup_tool h "env/storage") w2) as [Hd _].
  rewrite Hrun in Hd. by apply Hd.
Qed.

End Lifecycle.

(** C9, as stated, fails on the empty manifest: the run succeeds, removes
    [env/storage], which existed before, and ends without it; no call made
    after the removal creates a directory.  It also fails on a run that
    stops at a tool: when the download of the first tool is answered with
    status 404, the run returns an error and [env/bin/activate], which
    existed before, keeps its content. *)
Lemma C9_empty_manifest_leaves_no_storage :
  "env/storage" ∈ dirs (fs stale_world)
  /\ (main_action (sample_host {| Tools := [] |} 200) stale_world).1 = Ok tt
  /\ ("env/storage"
      ∉ dirs (fs (main_action (sample_host {| Tools := [] |} 200) stale_world).2))
  /\ (exists script,
        trace (main_action (sample_host {| Tools := [] |} 200) stale_world).2
        = [ EvOpen "toolenv.yml"; EvClose "toolenv.yml";
            EvMkdirAll "env/bin"; EvRemoveAll "env/storage";
            EvWriteFile "env/bin/activate" script;
            EvPrintf ("Environment created at ./env" +:+ nl);
            EvPrintf ("Activate with: source ./env/bin/activate" +:+ nl) ])
  /\ is_ok (main_action (sample_host {| Tools := readme_tools |} 404) stale_world).1
     = false
  /\ files (fs (main_action (sample_host {| Tools := readme_tools |} 404)
                  stale_world).2) !! "env/bin/activate"
     = Some "# an older script".
Proof.
  split; [apply elem_of_union_r, elem_of_singleton; reflexivity|].
  split; [reflexivity|]. split.
  - apply (bool_decide_unpack _). vm_compute. exact I.
  - split; [eexists; vm_compute; reflexivity|].
    split; [reflexivity|]. vm_compute. reflexivity.
Qed.

(** C9, amended: a run that succeeds has asked for the removal of
    [env/storage] right after making [env/bin] and before anything is done
    for a tool, and leaves in [env/bin/activate] the script it generated.
    The storage directory comes back only as the parent of the install
    directory of a tool: it exists at the end when the manifest has a tool
    whose name and version hold no separator, and it does not exist at the
    end when the manifest has no tool. *)
Theorem C9_storage_is_reset_and_script_rewritten :
  forall (h : Host) (w w' : World),
    main_action h w = (Ok tt, w') ->
    exists (config : Config) (w0 : World) (events : list Event) (script : string),
      loadEnv h w = (Ok config, w0)
      /\ trace w'
         = trace w0 ++ [EvMkdirAll "env/bin"; EvRemoveAll "env/storage"] ++ events
      /\ EvWriteFile "env/bin/activate" script ∈ events
      /\ files (fs w') !! "env/bin/activate" = Some script
      /\ (Tools config = [] -> "env/storage" ∉ dirs (fs w'))
      /\ (forall tool,
            tool ∈ Tools config ->
            Str.contains "/" (Name tool +:+ "@" +:+ Version tool) = false ->
            "env/storage" ∈ dirs (fs w')).
Proof.
  intros h w w' Hrun. unfold main_action in Hrun. rewrite setup_unfold in Hrun.
  destruct (loadEnv h w) as [[config|e] w0]; [|done].
  destruct (prepare h "env" w0) as [[[]|e] w1] eqn:Hprep; [|done].
  apply prepare_env_ok in Hprep as (Ht1 & Hnot & _).
  change (filepath.Join ["env"; "storage"]) with "env/storage" in Hrun.
  destruct (for_each (Tools config) _ w1) as [[[]|e] w2] eqn:Hloop; [|done].
  rewrite bind_apply in Hrun.
  destruct (generateActivationScript h "env" (Tools config) w2)
    as [[[]|e] w3] eqn:Hgen; [|done].
  apply generateActivationScript_ok in Hgen as (_ & _ & ->).
  change (filepath.Join ["env"; "bin"; "activate"]) with "env/bin/activate" in Hrun.
  injection Hrun as <-.
  destruct (grows_for_each (Tools config) (setup_tool h "env/storage")
              (grows_setup_tool h "env/storage") w1) as [_ [evs Hevs]].
  rewrite Hloop in Hevs. simpl in Hevs.
  set (script := Builder_String (script_chunks h "env" (seed w2) (Tools config))).
  exists config, w0,
    (evs ++ [EvWriteFile "env/bin/activate" script;
             EvPrintf ("Environment created at ./" +:+ filepath.Join ["."; "env"] +:+ nl);
             EvPrintf ("Activate with: source ./" +:+ filepath.Join ["."; "env"]
                         +:+ "/bin/activate" +:+ nl)]),
    script.
  split; [done|]. split.
  { simpl. rewrite Hevs, Ht1. by rewrite <- !app_assoc. }
  split.
  { apply elem_of_app. right. apply elem_of_cons. by left. }
  split.
  { simpl. apply lookup_insert_eq. }
  split.
  - intros Hempty. rewrite Hempty in Hloop. injection Hloop as <-. exact Hnot.
  - intros tool Hin Hs. simpl.
    by eapply tools_make_storage.
Qed.

Lemma C9_storage_is_reset_and_script_rewritten_witness :
  exists (config : Config) (w0 : World) (events : list Event) (script : string),
    loadEnv (sample_host {| Tools := [node_tool; go_tool] |} 200) empty_world
    = (Ok config, w0)
    /\ trace (main_action (sample_host {| Tools := [node_tool; go_tool] |} 200)
                empty_world).2
       = trace w0 ++ [EvMkdirAll "env/bin"; EvRemoveAll "env/storage"] ++ events
    /\ EvWriteFile "env/bin/activate" script ∈ events
    /\ files (fs (main_action (sample_host {| Tools := [node_tool; go_tool] |} 200)
                    empty_world).2) !! "env/bin/activate" = Some script
    /\ (Tools config = [] ->
        "env/storage"
        ∉ dirs (fs (main_action (sample_host {| Tools := [node_tool; go_tool] |} 200)
                      empty_world).2))
    /\ (forall tool,
          tool ∈ Tools config ->
          Str.contains "/" (Name tool +:+ "@" +:+ Version tool) = false ->
          "env/storage"
          ∈ dirs (fs (main_action (sample_host {| Tools := [node_tool; go_tool] |} 200)
                        empty_world).2)).
Proof.
  refine (C9_storage_is_reset_and_script_rewritten
            (sample_host {| Tools := [node_tool; go_tool] |} 200) empty_world _ _).
  vm_compute. reflexivity.
Defined.

(** ** The lines of the script and their meaning *)

Module ShFacts.
Import sh.

Lemma expand_cons st m out c rest :
  expand st m out (String c rest)
  = match step st m out c with
    | Stop out' => Some (out', rest)
    | Go m' out' => expand st m' out' rest
    | Bad => None
    end.
Proof. reflexivity. Qed.

Lemma plain_byte_plain out c :
  plain_char c = true -> plain_byte out c = Go Plain (out +:+ String c "").
Proof.
  unfold plain_char, plain_byte. intros Hc.
  apply negb_true_iff in Hc.
  repeat (apply orb_false_iff in Hc as [Hc ?]).
  by repeat match goal with H : Ascii.eqb _ _ = false |- _ => rewrite H; clear H end.
Qed.

(** Plain text inside double quotes is copied. *)
Lemma expand_plain st out s rest :
  plain s = true ->
  expand st Plain out (s +:+ rest) = expand st Plain (out +:+ s) rest.
Proof.
  revert out. induction s as [|c s IH]; intros out Hs.
  - by rewrite StrFacts.app_nil_r.
  - unfold plain in Hs. simpl in Hs. apply andb_true_iff in Hs as [Hc Hs].
    rewrite StrFacts.app_cons, expand_cons. unfold step.
    rewrite plain_byte_plain by done. rewrite IH by done.
    by rewrite StrFacts.app_assoc.
Qed.

Lemma expand_toolenv st out rest :
  expand st Plain out ("$TOOLENV_DIR/" +:+ rest)
  = expand st Plain ((out +:+ getvar st "TOOLENV_DIR") +:+ "/") rest.
Proof. reflexivity. Qed.

Lemma expand_path_end st out :
  expand st Plain out (":$PATH" +:+ quote)
  = Some ((out +:+ ":") +:+ getvar st "PATH", "").
Proof. reflexivity. Qed.

Lemma expand_end st out : expand st Plain out quote = Some (out, "").
Proof. reflexivity. Qed.

Lemma read_name_app x c rest :
  Str.all name_char x = true -> name_char c = false ->
  read_name (x +:+ String c rest) = (x, String c rest).
Proof.
  intros Hx Hc. induction x as [|d x IH].
  - simpl. change ("" +:+ String c rest) with (String c rest). simpl. by rewrite Hc.
  - simpl in Hx. apply andb_true_iff in Hx as [Hd Hx].
    rewrite StrFacts.app_cons. simpl. by rewrite Hd, IH.
Qed.

Lemma is_name_all x : is_name x = true -> Str.all name_char x = true.
Proof.
  destruct x; [discriminate|]. unfold is_name.
  intros H. by apply andb_true_iff in H as [_ H].
Qed.

Lemma command_export st x w v :
  is_name x = true ->
  word st w = Some v ->
  command st ("export " +:+ x +:+ "=" +:+ w) = Some (setvar x v st).
Proof.
  intros Hx Hw. unfold command.
  change (trim_left ("export " +:+ x +:+ "=" +:+ w))
    with ("export " +:+ x +:+ "=" +:+ w).
  change ("export " +:+ x +:+ "=" +:+ w)
    with (String "e" ("xport " +:+ x +:+ "=" +:+ w)) at 1.
  cbv iota.
  change (String "e" ("xport " +:+ x +:+ "=" +:+ w))
    with ("export " +:+ x +:+ "=" +:+ w).
  rewrite StrFacts.strip_prefix_app.
  change ("=" +:+ w) with (String "="%char w).
  rewrite read_name_app by (by apply is_name_all || reflexivity).
  by rewrite Hx, Hw.
Qed.

Lemma word_quoted st content v :
  expand st Plain "" content = Some (v, "") ->
  word st (quote +:+ content) = Some v.
Proof. intros He. change (quote +:+ content) with (String "034" content). simpl. by rewrite He. Qed.

Lemma command_export_body st key buf :
  is_name key = true -> plain buf = true ->
  command st (export_body key buf) = Some (export_effect st (key, buf)).
Proof.
  intros Hk Hb. unfold export_body, export_effect.
  destruct (Str.eqb key "PATH") eqn:Hp.
  - apply (command_export st "PATH"); [reflexivity|].
    apply word_quoted. rewrite expand_toolenv, expand_plain by done.
    rewrite expand_path_end. do 2 f_equal.
    change ("" +:+ getvar st "TOOLENV_DIR") with (getvar st "TOOLENV_DIR").
    by rewrite !StrFacts.app_assoc.
  - apply command_export; [done|].
    apply word_quoted. rewrite expand_toolenv, expand_plain by done.
    rewrite expand_end. do 2 f_equal.
    change ("" +:+ getvar st "TOOLENV_DIR") with (getvar st "TOOLENV_DIR").
    by rewrite !StrFacts.app_assoc.
Qed.

Lemma not_dash_f key : is_name key = true -> Str.strip_prefix "-f " key = None.
Proof.
  destruct key as [|c key]; [done|]. unfold is_name. intros H.
  apply andb_true_iff in H as [H _].
  TemplateFacts.bytes c; try reflexivity; discriminate H.
Qed.

Lemma command_unset_body st key :
  is_name key = true ->
  command st (unset_body key) = Some (unset_effect st key).
Proof.
  intros Hk. unfold command, unset_body.
  change (trim_left (tab +:+ "unset " +:+ key)) with ("unset " +:+ key).
  change ("unset " +:+ key) with (String "u" ("nset " +:+ key)) at 1.
  cbv iota.
  change (Str.strip_prefix "export " (String "u" ("nset " +:+ key))) with (@None string).
  change (Str.strip_prefix "unset -f " (String "u" ("nset " +:+ key)))
    with (Str.strip_prefix "-f " key).
  rewrite not_dash_f by done.
  change (Str.strip_prefix "unset " (String "u" ("nset " +:+ key))) with (Some key).
  cbv beta iota. by rewrite Hk.
Qed.

Lemma header_not_name c line : name_char c = false -> header (String c line) = None.
Proof. intros Hc. unfold header. simpl. by rewrite Hc. Qed.

Lemma header_export rest : header ("export " +:+ rest) = None.
Proof.
  unfold header.
  change (read_name ("export " +:+ rest)) with ("export", String " " rest).
  cbv beta iota. rewrite (proj2 (StrFacts.eqb_false _ _)) by done.
  by rewrite andb_false_r.
Qed.

Lemma header_export_body key buf : header (export_body key buf) = None.
Proof. unfold export_body. destruct (Str.eqb key "PATH"); apply header_export. Qed.

Lemma header_unset_body key : header (unset_body key) = None.
Proof. by apply header_not_name. Qed.

(** Lines that are commands are run in order. *)
Lemma run_commands_first st lines rest :
  Forall (fun line => header line = None) lines ->
  run st None (lines ++ rest)
  = match run_commands st lines with
    | Some st' => run st' None rest
    | None => None
    end.
Proof.
  intros Hl. revert st. induction Hl as [|line lines Hh _ IH]; intros st; [done|].
  simpl. rewrite Hh. destruct (command st line); [apply IH | done].
Qed.

Lemma run_commands_only st lines :
  Forall (fun line => header line = None) lines ->
  run st None lines = run_commands st lines.
Proof.
  intros Hl. rewrite <- (app_nil_r lines) at 1.
  rewrite run_commands_first by done. by destruct (run_commands st lines).
Qed.

Lemma run_commands_app st l1 l2 :
  run_commands st (l1 ++ l2)
  = match run_commands st l1 with
    | Some st' => run_commands st' l2
    | None => None
    end.
Proof.
  revert st. induction l1 as [|line l1 IH]; intros st; [done|].
  simpl. destruct (command st line); [apply IH | done].
Qed.

(** The lines of a function body are kept up to the closing brace. *)
Lemma run_define st f acc body rest :
  Forall (fun line => line <> "}") body ->
  run st (Some (f, acc)) (body ++ "}" :: rest)
  = run (define f (acc ++ body) st) None rest.
Proof.
  intros Hb. revert acc. induction Hb as [|line body Hl _ IH]; intros acc.
  - simpl. by rewrite app_nil_r.
  - simpl. rewrite (proj2 (StrFacts.eqb_false _ _)) by done.
    rewrite IH. by rewrite <- app_assoc.
Qed.

End ShFacts.

(** ** From the text of the script to its lines *)

Module LineFacts.

Lemma contains_cons c d s :
  Str.contains c (String d s) = if Ascii.eqb c d then true else Str.contains c s.
Proof. reflexivity. Qed.

Lemma contains_app c a b :
  Str.contains c (a +:+ b) = Str.contains c a || Str.contains c b.
Proof.
  induction a as [|d a IH]; [reflexivity|].
  rewrite StrFacts.app_cons, !contains_cons, IH. by destruct (Ascii.eqb c d).
Qed.

Lemma plain_no_newline s : plain s = true -> Str.contains "010" s = false.
Proof.
  unfold plain. induction s as [|c s IH]; intros Hs; [reflexivity|].
  simpl in Hs. apply andb_true_iff in Hs as [Hc Hs].
  rewrite contains_cons, IH by done.
  destruct (Ascii.eqb_spec "010"%char c) as [<-|]; [discriminate Hc | reflexivity].
Qed.

Lemma name_no_newline x : sh.is_name x = true -> Str.contains "010" x = false.
Proof.
  intros Hx. apply ShFacts.is_name_all in Hx.
  induction x as [|c x IH]; [reflexivity|].
  simpl in Hx. apply andb_true_iff in Hx as [Hc Hx].
  rewrite contains_cons, IH by done.
  destruct (Ascii.eqb_spec "010"%char c) as [<-|]; [discriminate Hc | reflexivity].
Qed.

Lemma split_line sep body rest :
  Str.contains sep body = false ->
  Str.split sep (body +:+ String sep rest) = body :: Str.split sep rest.
Proof.
  induction body as [|c body IH]; intros Hb.
  - change ("" +:+ String sep rest) with (String sep rest).
    simpl. by rewrite Ascii.eqb_refl.
  - rewrite contains_cons in Hb. rewrite StrFacts.app_cons. simpl.
    rewrite (Ascii.eqb_sym c sep).
    destruct (Ascii.eqb sep c); [done|]. by rewrite IH.
Qed.

(** Chunks that each end a line give back the lines. *)
Lemma lines_of_chunks (bodies : list string) (last : string) :
  Forall (fun b => Str.contains "010" b = false) bodies ->
  Str.contains "010" last = false ->
  Str.split "010" (Builder_String (map (fun b => b +:+ nl) bodies ++ [last]))
  = bodies ++ [last].
Proof.
  intros Hb Hl. induction Hb as [|b bodies Hb _ IH].
  - simpl. rewrite StrFacts.app_nil_r. by apply PathFacts.split_no_sep.
  - simpl. unfold nl at 1. rewrite StrFacts.app_assoc.
    change (String "010" "" +:+ ?s) with (String "010" s).
    rewrite split_line by done. f_equal. apply IH.
Qed.

Lemma export_line_body key buf : export_line key buf = export_body key buf +:+ nl.
Proof.
  unfold export_line, export_body.
  destruct (Str.eqb key "PATH"); by rewrite !StrFacts.app_assoc.
Qed.

Lemma export_block_lines h rs :
  export_block h rs
  = map (fun b => b +:+ nl)
      (map (fun '(key, buf) => export_body key buf) (flat_entries h rs)).
Proof.
  unfold export_block, flat_entries.
  induction rs as [|[tool entries] rs IH]; [reflexivity|].
  simpl. rewrite !map_app, IH. f_equal.
  rewrite !map_map. apply map_ext. intros [key value]. apply export_line_body.
Qed.

Lemma unset_block_lines rs :
  unset_block rs
  = map (fun b => b +:+ nl) (map unset_body (unset_keys (flat_keys rs))).
Proof.
  unfold unset_block, flat_keys, unset_keys.
  induction rs as [|[tool entries] rs IH]; [reflexivity|].
  simpl. rewrite filter_app, !map_app, IH. f_equal.
  clear IH. induction entries as [|[key value] entries IH]; [reflexivity|].
  simpl. rewrite IH. unfold unset_line, Str.eqb.
  rewrite filter_cons. simpl.
  destruct (decide (key <> "PATH")) as [Hk|Hk].
  - rewrite bool_decide_eq_false_2 by done. simpl. f_equal.
  - rewrite bool_decide_eq_true_2; [done|]. by destruct (decide (key = "PATH")).
Qed.

(** The strings written to the builder are the lines of the script, each
    but the last followed by a newline. *)
Lemma script_chunks_lines h env_name n tools :
  script_chunks h env_name n tools
  = map (fun b => b +:+ nl)
      (activation_lines env_name (flat_entries h (ranges h n tools))
       ++ ["deactivate() {"]
       ++ deactivate_body (flat_keys (ranges h (n + length tools) tools)))
    ++ ["}"].
Proof.
  unfold script_chunks, activation_lines, deactivate_body.
  rewrite export_block_lines, unset_block_lines.
  rewrite !map_app, <- !app_assoc.
  unfold script_head, script_prompt, script_foot. simpl.
  rewrite !StrFacts.app_assoc. reflexivity.
Qed.

End LineFacts.

(** ** The shell after activation and after [deactivate] *)

Module RunFacts.
Import sh.

Lemma run_commands_app_local st l1 l2 :
  run_commands st (l1 ++ l2)
  = match run_commands st l1 with
    | Some st' => run_commands st' l2
    | None => None
    end.
Proof. apply ShFacts.run_commands_app. Qed.

Lemma run_exports st entries :
  safe_entries entries ->
  run_commands st (map (fun '(key, buf) => export_body key buf) entries)
  = Some (fold_left export_effect entries st).
Proof.
  intros Hs. revert st. induction Hs as [|[key buf] entries [Hk Hb] _ IH]; intros st.
  - reflexivity.
  - simpl. rewrite ShFacts.command_export_body by done. apply IH.
Qed.

Lemma run_unsets st keys :
  safe_keys keys ->
  run_commands st (map unset_body keys) = Some (fold_left unset_effect keys st).
Proof.
  intros Hs. revert st. induction Hs as [|key keys Hk _ IH]; intros st.
  - reflexivity.
  - simpl. rewrite ShFacts.command_unset_body by done. apply IH.
Qed.

Lemma command_toolenv st env_name :
  plain env_name = true ->
  command st ("export TOOLENV_DIR=" +:+ quote +:+ "$(pwd)/" +:+ env_name +:+ quote)
  = Some (setvar "TOOLENV_DIR" (cwd st +:+ "/" +:+ env_name) st).
Proof.
  intros He. apply (ShFacts.command_export st "TOOLENV_DIR"); [reflexivity|].
  apply ShFacts.word_quoted.
  change (expand st Plain "" ("$(pwd)/" +:+ env_name +:+ quote))
    with (expand st Plain (cwd st +:+ "/") (env_name +:+ quote)).
  rewrite ShFacts.expand_plain by done. rewrite ShFacts.expand_end.
  by rewrite StrFacts.app_assoc.
Qed.

Lemma run_activation st0 env_name entries :
  plain env_name = true -> safe_entries entries ->
  run_commands st0 (activation_lines env_name entries)
  = Some (activated env_name entries st0).
Proof.
  intros He Hs. unfold activation_lines.
  rewrite run_commands_app_local.
  change (run_commands st0 [?a; ?b; ?c; ?d])
    with (match command st0 c with
          | Some st1 =>
              match command st1 d with
              | Some st2 => Some st2
              | None => None
              end
          | None => None
          end).
  rewrite command_toolenv by done. cbv beta iota.
  change (command ?st ("export PREVIOUS_PATH=" +:+ quote +:+ "$PATH" +:+ quote))
    with (Some (setvar "PREVIOUS_PATH" (getvar st "PATH") st)).
  cbv beta iota.
  rewrite run_commands_app_local, run_exports by done.
  reflexivity.
Qed.

End RunFacts.

Module SourceFacts.
Import sh.

Lemma tab_line_not_brace (x : string) : tab +:+ x <> "}".
Proof. intros H. discriminate H. Qed.

Lemma run_deactivation st keys :
  safe_keys (unset_keys keys) ->
  run_commands st (deactivate_body keys) = Some (deactivated keys st).
Proof.
  intros Hs. unfold deactivate_body.
  rewrite RunFacts.run_commands_app_local.
  change (run_commands st [?a; ?b])
    with (Some (unset_effect (setvar "PS1" (getvar st "OLD_PS1") st) "OLD_PS1")).
  cbv beta iota.
  rewrite RunFacts.run_commands_app_local, RunFacts.run_unsets by done.
  reflexivity.
Qed.

Lemma activation_lines_commands env_name entries :
  Forall (fun line => header line = None) (activation_lines env_name entries).
Proof.
  unfold activation_lines. repeat apply Forall_app_2.
  - repeat constructor.
  - apply Forall_map, Forall_forall. intros [key buf] _.
    apply ShFacts.header_export_body.
  - repeat constructor.
Qed.

Lemma deactivate_body_commands keys :
  Forall (fun line => header line = None) (deactivate_body keys).
Proof.
  unfold deactivate_body. repeat apply Forall_app_2.
  - repeat constructor.
  - apply Forall_map, Forall_forall. intros key _. apply ShFacts.header_unset_body.
  - repeat constructor.
Qed.

Lemma deactivate_body_open keys :
  Forall (fun line => line <> "}") (deactivate_body keys).
Proof.
  unfold deactivate_body. repeat apply Forall_app_2.
  - repeat constructor; apply tab_line_not_brace.
  - apply Forall_map, Forall_forall. intros key _. apply tab_line_not_brace.
  - repeat constructor; apply tab_line_not_brace.
Qed.

(** Running the lines of the script defines [deactivate] in the activated
    state. *)
Lemma run_script_lines st0 env_name entries keys :
  plain env_name = true -> safe_entries entries ->
  run st0 None (script_lines env_name entries keys)
  = Some (define "deactivate" (deactivate_body keys)
            (activated env_name entries st0)).
Proof.
  intros He Hs. unfold script_lines.
  rewrite ShFacts.run_commands_first by apply activation_lines_commands.
  rewrite RunFacts.run_activation by done.
  change (run ?st None (["deactivate() {"] ++ ?body ++ ["}"]))
    with (run st (Some ("deactivate", [])) (body ++ ["}"])).
  rewrite ShFacts.run_define by apply deactivate_body_open.
  reflexivity.
Qed.

Lemma call_deactivate st keys :
  safe_keys (unset_keys keys) ->
  call (define "deactivate" (deactivate_body keys) st) "deactivate"
  = Some (deactivated keys (define "deactivate" (deactivate_body keys) st)).
Proof.
  intros Hs. unfold call, define at 1. simpl funcs. rewrite lookup_insert_eq.
  rewrite ShFacts.run_commands_only by apply deactivate_body_commands.
  by apply run_deactivation.
Qed.

Lemma export_body_no_newline key buf :
  is_name key = true -> plain buf = true ->
  Str.contains "010" (export_body key buf) = false.
Proof.
  intros Hk Hb. unfold export_body.
  destruct (Str.eqb key "PATH"); rewrite !LineFacts.contains_app;
    rewrite ?(LineFacts.name_no_newline key), ?(LineFacts.plain_no_newline buf) by done;
    reflexivity.
Qed.

Lemma unset_body_no_newline key :
  is_name key = true -> Str.contains "010" (unset_body key) = false.
Proof.
  intros Hk. unfold unset_body. rewrite !LineFacts.contains_app.
  by rewrite (LineFacts.name_no_newline key).
Qed.

Lemma script_lines_no_newline env_name entries keys :
  plain env_name = true -> safe_entries entries -> safe_keys (unset_keys keys) ->
  Forall (fun b => Str.contains "010" b = false)
    (activation_lines env_name entries
     ++ ["deactivate() {"] ++ deactivate_body keys).
Proof.
  intros He Hs Hk. apply LineFacts.plain_no_newline in He.
  unfold activation_lines, deactivate_body. repeat apply Forall_app_2.
  - repeat constructor; rewrite ?LineFacts.contains_app, ?He; reflexivity.
  - apply Forall_map. eapply Forall_impl; [exact Hs|].
    intros [key buf] [H1 H2]. by apply export_body_no_newline.
  - repeat constructor.
  - repeat constructor.
  - repeat constructor.
  - apply Forall_map. eapply Forall_impl; [exact Hk|].
    intros key H1. by apply unset_body_no_newline.
  - repeat constructor.
Qed.

(** Sourcing the text of the script. *)
Lemma source_script st0 env_name entries keys :
  plain env_name = true -> safe_entries entries -> safe_keys (unset_keys keys) ->
  source st0 (script_text env_name entries keys)
  = Some (define "deactivate" (deactivate_body keys)
            (activated env_name entries st0)).
Proof.
  intros He Hs Hk. unfold source, script_text.
  rewrite LineFacts.lines_of_chunks;
    [| by apply script_lines_no_newline | reflexivity].
  rewrite <- !app_assoc. by apply run_script_lines.
Qed.

End SourceFacts.

(** ** Variables after activation and after [deactivate] *)

Module VarFacts.
Import sh.

Lemma getvar_setvar_eq st x v : getvar (setvar x v st) x = v.
Proof. unfold getvar, setvar. simpl. by rewrite lookup_insert_eq. Qed.

Lemma getvar_setvar_ne st x y v : x <> y -> getvar (setvar x v st) y = getvar st y.
Proof. intros Hxy. unfold getvar, setvar. simpl. by rewrite lookup_insert_ne. Qed.

Lemma vars_unset_effect st key : vars (unset_effect st key) = delete key (vars st).
Proof.
  unfold unset_effect. destruct (vars st !! key) eqn:Hk; simpl; [done|].
  symmetry. by apply delete_id.
Qed.

Lemma lookup_export_effect_ne st key buf x :
  x <> key -> vars (export_effect st (key, buf)) !! x = vars st !! x.
Proof.
  intros Hx. unfold export_effect.
  destruct (Str.eqb key "PATH") eqn:Hp; simpl.
  - apply StrFacts.eqb_true in Hp as ->. by rewrite lookup_insert_ne.
  - by rewrite lookup_insert_ne.
Qed.

(** A variable that is no key of the entries is left alone. *)
Lemma fold_export_other entries st x :
  x ∉ entries.*1 ->
  vars (fold_left export_effect entries st) !! x = vars st !! x.
Proof.
  revert st. induction entries as [|[key buf] entries IH]; intros st Hx; [done|].
  simpl in Hx. apply not_elem_of_cons in Hx as [Hx1 Hx2].
  change (fold_left export_effect ((key, buf) :: entries) st)
    with (fold_left export_effect entries (export_effect st (key, buf))).
  rewrite IH by done. by apply lookup_export_effect_ne.
Qed.

Lemma getvar_fold_export_other entries st x :
  x ∉ entries.*1 ->
  getvar (fold_left export_effect entries st) x = getvar st x.
Proof. intros Hx. unfold getvar. by rewrite fold_export_other. Qed.

(** Each [PATH] entry puts its segment in front of the value so far. *)
Lemma fold_export_path entries st :
  "TOOLENV_DIR" ∉ entries.*1 ->
  getvar (fold_left export_effect entries st) "PATH"
  = path_value (getvar st "TOOLENV_DIR") (path_bufs entries) (getvar st "PATH").
Proof.
  revert st. induction entries as [|[key buf] entries IH]; intros st Hd; [done|].
  simpl in Hd. apply not_elem_of_cons in Hd as [Hd1 Hd2].
  change (fold_left export_effect ((key, buf) :: entries) st)
    with (fold_left export_effect entries (export_effect st (key, buf))).
  rewrite IH by done.
  assert (Hdir : getvar (export_effect st (key, buf)) "TOOLENV_DIR"
                 = getvar st "TOOLENV_DIR").
  { unfold getvar. by rewrite lookup_export_effect_ne. }
  rewrite Hdir.
  unfold path_bufs. simpl flat_map. fold (path_bufs entries).
  unfold export_effect.
  destruct (Str.eqb key "PATH") eqn:Hp.
  - by rewrite getvar_setvar_eq.
  - apply StrFacts.eqb_false in Hp. by rewrite getvar_setvar_ne.
Qed.

Lemma fold_unset_lookup keys st x :
  vars (fold_left unset_effect keys st) !! x
  = if decide (x ∈ keys) then None else vars st !! x.
Proof.
  revert st. induction keys as [|key keys IH]; intros st.
  - simpl. destruct (decide (x ∈ [])) as [Hin|]; [|done].
    by apply elem_of_nil in Hin.
  - simpl. rewrite IH, vars_unset_effect.
    destruct (decide (x ∈ keys)) as [Hin|Hin].
    + rewrite decide_True; [done|]. by apply elem_of_cons; right.
    + destruct (decide (x = key)) as [->|Hne].
      * rewrite lookup_delete_eq, decide_True; [done|]. by apply elem_of_cons; left.
      * rewrite lookup_delete_ne by done. rewrite decide_False; [done|].
        intros [?|?]%elem_of_cons; done.
Qed.

Lemma path_value_app dir l1 l2 old :
  path_value dir (l1 ++ l2) old = path_value dir l2 (path_value dir l1 old).
Proof. unfold path_value. apply fold_left_app. Qed.

Lemma path_value_front dir l :
  exists front, forall old, path_value dir l old = front +:+ old.
Proof.
  induction l as [|s l IH] using rev_ind.
  - by exists "".
  - destruct IH as [front IH].
    exists (dir +:+ "/" +:+ s +:+ ":" +:+ front). intros old.
    rewrite path_value_app. simpl. rewrite IH.
    by rewrite !StrFacts.app_assoc.
Qed.

End VarFacts.

(** ** From the manifest to the entries of the script *)

Module ManifestFacts.

Section WithHost.
Context (h : Host).

Lemma range_lookup n (m : gmap string string) key value :
  (key, value) ∈ host_range h n m <-> m !! key = Some value.
Proof. rewrite (host_range_perm h n m). apply elem_of_map_to_list. Qed.

Lemma range_nodup n (m : gmap string string) : NoDup (host_range h n m).*1.
Proof. rewrite (host_range_perm h n m). apply NoDup_fst_map_to_list. Qed.

Lemma range_to_map n (m : gmap string string) :
  (list_to_map (host_range h n m) : gmap string string) = m.
Proof.
  transitivity (list_to_map (map_to_list m) : gmap string string);
    [|apply list_to_map_to_list].
  apply list_to_map_proper; [apply range_nodup | apply host_range_perm].
Qed.

Lemma elem_flat_entries n tools key buf :
  (key, buf) ∈ flat_entries h (ranges h n tools) ->
  exists tool value,
    tool ∈ tools /\ Env tool !! key = Some value /\ buf = expansion h tool value.
Proof.
  revert n. induction tools as [|tool tools IH]; intros n Hin.
  - by apply elem_of_nil in Hin.
  - unfold flat_entries in Hin. simpl in Hin. apply elem_of_app in Hin as [Hin|Hin].
    + apply list_elem_of_fmap in Hin as ([key' value] & Heq & Hin).
      injection Heq as -> ->. apply range_lookup in Hin.
      exists tool, value. split; [by left | done].
    + apply IH in Hin as (tool' & value & Ht & Hl & Hb).
      exists tool', value. split; [by right | done].
Qed.

Lemma elem_flat_keys n tools key :
  key ∈ flat_keys (ranges h n tools) <->
  exists tool, tool ∈ tools /\ is_Some (Env tool !! key).
Proof.
  revert n. induction tools as [|tool tools IH]; intros n.
  - split; [by intros Hin%elem_of_nil | by intros (? & Hin%elem_of_nil & _)].
  - unfold flat_keys. simpl. rewrite elem_of_app. fold (flat_keys (ranges h (S n) tools)).
    rewrite IH. split.
    + intros [Hin|(tool' & Ht & Hs)].
      * apply list_elem_of_fmap in Hin as ([key' value] & -> & Hin).
        apply range_lookup in Hin. exists tool. split; [by left | by eexists].
      * exists tool'. split; [by right | done].
    + intros (tool' & Ht & [value Hs]). apply elem_of_cons in Ht as [->|Ht].
      * left. apply list_elem_of_fmap. exists (key, value).
        split; [done | by apply range_lookup].
      * right. exists tool'. split; [done | by eexists].
Qed.

Lemma elem_flat_entries_keys n tools key :
  key ∈ (flat_entries h (ranges h n tools)).*1 <->
  exists tool, tool ∈ tools /\ is_Some (Env tool !! key).
Proof.
  split.
  - intros ([key' buf] & -> & Hin)%list_elem_of_fmap.
    apply elem_flat_entries in Hin as (tool & value & Ht & Hl & _).
    exists tool. split; [done | by eexists].
  - revert n. induction tools as [|tool tools IH]; intros n (tool' & Ht & [value Hl]).
    + by apply elem_of_nil in Ht.
    + unfold flat_entries. simpl. rewrite fmap_app, elem_of_app.
      apply elem_of_cons in Ht as [->|Ht].
      * left. apply list_elem_of_fmap. exists (key, expansion h tool value).
        split; [done|]. apply list_elem_of_fmap. exists (key, value).
        split; [done | by apply range_lookup].
      * right. apply IH. exists tool'. split; [done | by eexists].
Qed.

Lemma path_bufs_app l1 l2 : path_bufs (l1 ++ l2) = path_bufs l1 ++ path_bufs l2.
Proof. unfold path_bufs. apply flat_map_app. Qed.

Lemma path_bufs_none (f : string -> string) (l : list (string * string)) :
  "PATH" ∉ l.*1 -> path_bufs (map (fun '(key, value) => (key, f value)) l) = [].
Proof.
  induction l as [|[key value] l IH]; intros Hp; [done|].
  simpl in Hp. apply not_elem_of_cons in Hp as [Hp1 Hp2].
  unfold path_bufs. simpl. fold (path_bufs (map (fun '(key, value) => (key, f value)) l)).
  rewrite IH by done. by rewrite (proj2 (StrFacts.eqb_false key "PATH")).
Qed.

Lemma path_bufs_nodup (f : string -> string) (l : list (string * string)) :
  NoDup l.*1 ->
  path_bufs (map (fun '(key, value) => (key, f value)) l)
  = match (list_to_map l : gmap string string) !! "PATH" with
    | Some value => [f value]
    | None => []
    end.
Proof.
  induction l as [|[key value] l IH]; intros Hn; [done|].
  simpl in Hn. apply NoDup_cons in Hn as [Hk Hn].
  unfold path_bufs. simpl. fold (path_bufs (map (fun '(key, value) => (key, f value)) l)).
  destruct (Str.eqb key "PATH") eqn:Hp.
  - apply StrFacts.eqb_true in Hp as ->. rewrite lookup_insert_eq.
    by rewrite path_bufs_none.
  - apply StrFacts.eqb_false in Hp. rewrite lookup_insert_ne by done.
    by apply IH.
Qed.

(** The [PATH] lines of the script come one per tool, in the order of the
    manifest, whatever the order inside each tool. *)
Lemma path_bufs_segments n tools :
  path_bufs (flat_entries h (ranges h n tools)) = path_segments h tools.
Proof.
  revert n. induction tools as [|tool tools IH]; intros n; [done|].
  unfold flat_entries. simpl. fold (flat_entries h (ranges h (S n) tools)).
  rewrite path_bufs_app, IH.
  rewrite (path_bufs_nodup (expansion h tool)) by apply range_nodup.
  rewrite range_to_map. unfold path_segments. simpl.
  by destruct (Env tool !! "PATH").
Qed.

End WithHost.

End ManifestFacts.

(** ** The script in the shell *)

Section Sourced.
Context (h : Host).

Lemma safe_flat_entries n tools :
  tools_safe h tools -> safe_entries (flat_entries h (ranges h n tools)).
Proof.
  intros Hs. apply Forall_forall. intros [key buf] Hin.
  apply ManifestFacts.elem_flat_entries in Hin as (tool & value & Ht & Hl & ->).
  by eapply Hs.
Qed.

Lemma safe_flat_keys n tools :
  tools_safe h tools -> safe_keys (unset_keys (flat_keys (ranges h n tools))).
Proof.
  intros Hs. apply Forall_forall. intros key Hin.
  apply list_elem_of_filter in Hin as [_ Hin].
  apply ManifestFacts.elem_flat_keys in Hin as (tool & Ht & [value Hl]).
  by eapply Hs.
Qed.

Lemma avoided_flat_entries n tools reserved x :
  keys_avoid reserved tools -> x ∈ reserved ->
  x ∉ (flat_entries h (ranges h n tools)).*1.
Proof.
  intros Ha Hx Hin. apply list_elem_of_fmap in Hin as ([key buf] & -> & Hin).
  apply ManifestFacts.elem_flat_entries in Hin as (tool & value & Ht & Hl & _).
  by eapply (Ha tool key).
Qed.

Lemma avoided_flat_keys n tools reserved x :
  keys_avoid reserved tools -> x ∈ reserved ->
  x ∉ unset_keys (flat_keys (ranges h n tools)).
Proof.
  intros Ha Hx Hin. apply list_elem_of_filter in Hin as [_ Hin].
  apply ManifestFacts.elem_flat_keys in Hin as (tool & Ht & Hl).
  by eapply (Ha tool x).
Qed.

(** A successful run leaves the text of the script in the file. *)
Lemma generated_script_text env_name tools w w' :
  generateActivationScript h env_name tools w = (Ok tt, w') ->
  files (fs w') !! filepath.Join [env_name; "bin"; "activate"]
  = Some (script_text env_name
            (flat_entries h (ranges h (seed w) tools))
            (flat_keys (ranges h (seed w + length tools) tools))).
Proof.
  intros Hrun. apply generateActivationScript_ok in Hrun as (_ & _ & ->).
  unfold with_fs. cbn [fs files].
  rewrite lookup_insert_eq, LineFacts.script_chunks_lines. reflexivity.
Qed.

End Sourced.

Module ActivateFacts.
Import sh.

Lemma activated_path env_name entries st0 :
  "TOOLENV_DIR" ∉ entries.*1 ->
  getvar (activated env_name entries st0) "PATH"
  = path_value (cwd st0 +:+ "/" +:+ env_name) (path_bufs entries)
      (getvar st0 "PATH").
Proof.
  intros Hd. unfold activated.
  rewrite !VarFacts.getvar_setvar_ne by done.
  rewrite VarFacts.fold_export_path by done.
  rewrite VarFacts.getvar_setvar_ne by done.
  rewrite VarFacts.getvar_setvar_eq.
  by rewrite !VarFacts.getvar_setvar_ne by done.
Qed.

(** Of two segments, the later one stands in front. *)
Lemma path_value_two dir before s1 between s2 after old :
  exists front middle back,
    path_value dir (before ++ s1 :: between ++ s2 :: after) old
    = front +:+ (dir +:+ "/" +:+ s2 +:+ ":") +:+ middle
      +:+ (dir +:+ "/" +:+ s1 +:+ ":") +:+ back.
Proof.
  destruct (VarFacts.path_value_front dir after) as [front Hfront].
  destruct (VarFacts.path_value_front dir between) as [middle Hmiddle].
  exists front, middle, (path_value dir before old).
  rewrite VarFacts.path_value_app.
  change (path_value dir (s1 :: between ++ s2 :: after) ?o)
    with (path_value dir (between ++ s2 :: after) (dir +:+ "/" +:+ s1 +:+ ":" +:+ o)).
  rewrite VarFacts.path_value_app.
  change (path_value dir (s2 :: after) ?o)
    with (path_value dir after (dir +:+ "/" +:+ s2 +:+ ":" +:+ o)).
  rewrite Hfront, Hmiddle. by rewrite !StrFacts.app_assoc.
Qed.

End ActivateFacts.

(** C5: the export lines of the script follow the manifest, so its [PATH]
    lines carry the segments of the tools in the order of the manifest.  In
    the shell that has sourced the script, [PATH] holds these segments,
    each in front of the segments of the tools declared before it and of
    the previous value: of two tools that declare [PATH], the segment of
    the one declared later stands closer to the front. *)
Theorem C5_later_tool_is_earlier_in_PATH :
  forall (h : Host) (env_name : string) (tools : list Tool) (w w' : World),
    generateActivationScript h env_name tools w = (Ok tt, w') ->
    exists entries keys,
      files (fs w') !! filepath.Join [env_name; "bin"; "activate"]
      = Some (script_text env_name entries keys)
      /\ path_bufs entries = path_segments h tools
      /\ forall st0 : sh.State,
           plain env_name = true ->
           tools_safe h tools ->
           keys_avoid ["TOOLENV_DIR"] tools ->
           exists st1,
             sh.source st0 (script_text env_name entries keys) = Some st1
             /\ sh.getvar st1 "PATH"
                = path_value (sh.cwd st0 +:+ "/" +:+ env_name)
                    (path_segments h tools) (sh.getvar st0 "PATH")
             /\ (forall before earlier between later after value1 value2,
                   tools = before ++ earlier :: between ++ later :: after ->
                   Env earlier !! "PATH" = Some value1 ->
                   Env later !! "PATH" = Some value2 ->
                   exists front middle back,
                     sh.getvar st1 "PATH"
                     = front
                       +:+ ((sh.cwd st0 +:+ "/" +:+ env_name) +:+ "/"
                              +:+ expansion h later value2 +:+ ":")
                       +:+ middle
                       +:+ ((sh.cwd st0 +:+ "/" +:+ env_name) +:+ "/"
                              +:+ expansion h earlier value1 +:+ ":")
                       +:+ back).
Proof.
  intros h env_name tools w w' Hrun.
  exists (flat_entries h (ranges h (seed w) tools)),
    (flat_keys (ranges h (seed w + length tools) tools)).
  split; [by apply generated_script_text|].
  split; [apply ManifestFacts.path_bufs_segments|].
  intros st0 He Hs Ha.
  eexists. split.
  { apply SourceFacts.source_script;
      [done | by apply safe_flat_entries | by apply safe_flat_keys]. }
  change (sh.getvar (sh.define ?f ?b ?st) ?x) with (sh.getvar st x).
  rewrite ActivateFacts.activated_path
    by (eapply avoided_flat_entries; [exact Ha | by apply elem_of_cons; left]).
  rewrite ManifestFacts.path_bufs_segments.
  split; [reflexivity|].
  intros before earlier between later after value1 value2 -> H1 H2.
  unfold path_segments. rewrite omap_app. simpl. rewrite H1. simpl.
  rewrite omap_app. simpl. rewrite H2. simpl.
  apply ActivateFacts.path_value_two.
Qed.

Ltac in_list := repeat (apply elem_of_cons; first [by left | right]).

Module DeactivateFacts.
Import sh.

Lemma vars_deactivated keys st :
  vars (deactivated keys st)
  = delete "TOOLENV_DIR"
      (delete "PREVIOUS_PATH"
         (<["PATH" :=
              getvar
                (fold_left unset_effect (unset_keys keys)
                   (unset_effect (setvar "PS1" (getvar st "OLD_PS1") st) "OLD_PS1"))
                "PREVIOUS_PATH"]>
            (vars
               (fold_left unset_effect (unset_keys keys)
                  (unset_effect (setvar "PS1" (getvar st "OLD_PS1") st) "OLD_PS1"))))).
Proof.
  unfold deactivated. cbv zeta. unfold unset_func at 1. simpl vars.
  by rewrite !VarFacts.vars_unset_effect.
Qed.

Lemma lookup_after_unsets keys st x :
  x ∉ unset_keys keys -> x <> "OLD_PS1" -> x <> "PS1" ->
  vars (fold_left unset_effect (unset_keys keys)
          (unset_effect (setvar "PS1" (getvar st "OLD_PS1") st) "OLD_PS1")) !! x
  = vars st !! x.
Proof.
  intros Hk H1 H2. rewrite VarFacts.fold_unset_lookup, decide_False by done.
  rewrite VarFacts.vars_unset_effect, lookup_delete_ne by done.
  unfold setvar. simpl. by rewrite lookup_insert_ne.
Qed.

Lemma activated_other env_name entries st0 x :
  x ∉ entries.*1 ->
  x <> "TOOLENV_DIR" -> x <> "PREVIOUS_PATH" -> x <> "OLD_PS1" -> x <> "PS1" ->
  vars (activated env_name entries st0) !! x = vars st0 !! x.
Proof.
  intros Hx H1 H2 H3 H4. unfold activated, setvar at 1 2. simpl.
  rewrite !lookup_insert_ne by done.
  rewrite VarFacts.fold_export_other by done.
  unfold setvar. simpl. by rewrite !lookup_insert_ne.
Qed.

Lemma activated_old_ps1 env_name entries st0 :
  "PS1" ∉ entries.*1 ->
  getvar (activated env_name entries st0) "OLD_PS1" = getvar st0 "PS1".
Proof.
  intros Hx. unfold activated.
  rewrite VarFacts.getvar_setvar_ne by done.
  rewrite VarFacts.getvar_setvar_eq.
  rewrite VarFacts.getvar_fold_export_other by done.
  by rewrite !VarFacts.getvar_setvar_ne.
Qed.

Lemma activated_previous_path env_name entries st0 :
  "PREVIOUS_PATH" ∉ entries.*1 ->
  vars (activated env_name entries st0) !! "PREVIOUS_PATH"
  = Some (getvar st0 "PATH").
Proof.
  intros Hx. unfold activated, setvar at 1 2. simpl.
  rewrite !lookup_insert_ne by done.
  rewrite VarFacts.fold_export_other by done.
  unfold setvar at 1. simpl. rewrite lookup_insert_eq.
  by rewrite VarFacts.getvar_setvar_ne.
Qed.

(** What is left of the activation once [deactivate] has run, for keys
    that are none of the bookkeeping variables. *)
Lemma deactivated_state env_name entries keys st0 :
  (forall x, x ∈ entries.*1 -> x ∈ keys) ->
  (forall x, x ∈ ["TOOLENV_DIR"; "PREVIOUS_PATH"; "OLD_PS1"; "PS1"] -> x ∉ keys) ->
  let st2 :=
    deactivated keys
      (define "deactivate" (deactivate_body keys)
         (activated env_name entries st0)) in
  vars st2 !! "PS1" = Some (getvar st0 "PS1")
  /\ vars st2 !! "PATH" = Some (getvar st0 "PATH")
  /\ (forall key, key ∈ keys -> key <> "PATH" -> vars st2 !! key = None)
  /\ vars st2 !! "PREVIOUS_PATH" = None
  /\ vars st2 !! "TOOLENV_DIR" = None
  /\ vars st2 !! "OLD_PS1" = None
  /\ funcs st2 !! "deactivate" = None
  /\ (forall x,
        x ∉ keys ->
        x ∉ ["PATH"; "PS1"; "OLD_PS1"; "PREVIOUS_PATH"; "TOOLENV_DIR"] ->
        vars st2 !! x = vars st0 !! x).
Proof.
  intros Hin_entries Hreserved.
  set (act := activated env_name entries st0).
  set (st1 := define "deactivate" (deactivate_body keys) act).
  assert (Hres : forall x,
             x ∈ ["TOOLENV_DIR"; "PREVIOUS_PATH"; "OLD_PS1"; "PS1"] ->
             (x ∉ keys) /\ (x ∉ entries.*1) /\ (x ∉ unset_keys keys)).
  { intros x Hx. pose proof (Hreserved x Hx).
    split; [done|]. split; [by intros ?%Hin_entries|].
    by intros [_ ?]%list_elem_of_filter. }
  destruct (Hres "TOOLENV_DIR") as (Hte0 & _ & Hte); [in_list|].
  destruct (Hres "PREVIOUS_PATH") as (Hpp0 & Hpp1 & Hpp); [in_list|].
  destruct (Hres "OLD_PS1") as (_ & _ & Hold); [in_list|].
  destruct (Hres "PS1") as (_ & Hps1 & Hps); [in_list|].
  intros st2. unfold st2. rewrite vars_deactivated.
  assert (Hpath : getvar
                    (fold_left unset_effect (unset_keys keys)
                       (unset_effect (setvar "PS1" (getvar st1 "OLD_PS1") st1) "OLD_PS1"))
                    "PREVIOUS_PATH" = getvar st0 "PATH").
  { unfold getvar at 1. rewrite lookup_after_unsets by done.
    change (vars st1) with (vars act).
    unfold act. by rewrite activated_previous_path. }
  rewrite Hpath.
  split.
  { rewrite !lookup_delete_ne, lookup_insert_ne by done.
    rewrite VarFacts.fold_unset_lookup, decide_False by done.
    rewrite VarFacts.vars_unset_effect, lookup_delete_ne by done.
    unfold setvar. simpl. rewrite lookup_insert_eq. f_equal.
    change (getvar st1 "OLD_PS1") with (getvar act "OLD_PS1").
    unfold act. by apply activated_old_ps1. }
  split.
  { by rewrite !lookup_delete_ne, lookup_insert_eq by done. }
  split.
  { intros key Hk Hp.
    assert (key <> "TOOLENV_DIR" /\ key <> "PREVIOUS_PATH") as [H1 H2]
      by (split; intros ->; done).
    rewrite !lookup_delete_ne, lookup_insert_ne by done.
    rewrite VarFacts.fold_unset_lookup, decide_True; [done|].
    by apply list_elem_of_filter. }
  split.
  { by rewrite lookup_delete_ne, lookup_delete_eq. }
  split.
  { by rewrite lookup_delete_eq. }
  split.
  { rewrite !lookup_delete_ne, lookup_insert_ne by done.
    rewrite VarFacts.fold_unset_lookup, decide_False by done.
    by rewrite VarFacts.vars_unset_effect, lookup_delete_eq. }
  split.
  { unfold deactivated. cbv zeta. unfold unset_func at 1. simpl.
    apply lookup_delete_eq. }
  intros x Hx Hr.
  rewrite !not_elem_of_cons in Hr. destruct Hr as (H1 & H2 & H3 & H4 & H5 & _).
  rewrite !lookup_delete_ne, lookup_insert_ne by done.
  rewrite lookup_after_unsets;
    [| by intros [_ ?]%list_elem_of_filter | done | done].
  change (vars st1) with (vars act). unfold act.
  apply activated_other; try done.
  by intros ?%Hin_entries.
Qed.

End DeactivateFacts.

(** C6: the script ends with the definition of [deactivate], whose body
    is exactly: the prompt is set back from [OLD_PS1], which is then unset;
    every key of every tool other than [PATH] is unset; [PATH] is set from
    [PREVIOUS_PATH], not unset; [PREVIOUS_PATH], [TOOLENV_DIR] and the
    function itself are unset.  The keys are those of the entries the
    script exports.  Called after activation, [deactivate] leaves the
    prompt and [PATH] with the values they had before activation, the
    variables of the tools and the bookkeeping variables unset, the
    function gone, and every other variable as it was. *)
Theorem C6_deactivate_undoes_activation :
  forall (h : Host) (env_name : string) (tools : list Tool) (w w' : World),
    generateActivationScript h env_name tools w = (Ok tt, w') ->
    exists entries keys,
      files (fs w') !! filepath.Join [env_name; "bin"; "activate"]
      = Some (script_text env_name entries keys)
      /\ (forall key,
            key ∈ keys <-> exists tool, tool ∈ tools /\ is_Some (Env tool !! key))
      /\ (forall key, key ∈ entries.*1 <-> key ∈ keys)
      /\ forall st0 : sh.State,
           plain env_name = true ->
           tools_safe h tools ->
           keys_avoid ["TOOLENV_DIR"; "PREVIOUS_PATH"; "OLD_PS1"; "PS1"] tools ->
           exists st1 st2,
             sh.source st0 (script_text env_name entries keys) = Some st1
             /\ sh.funcs st1 !! "deactivate" = Some (deactivate_body keys)
             /\ sh.call st1 "deactivate" = Some st2
             /\ sh.vars st2 !! "PS1" = Some (sh.getvar st0 "PS1")
             /\ sh.vars st2 !! "PATH" = Some (sh.getvar st0 "PATH")
             /\ (forall key,
                   key ∈ keys -> key <> "PATH" -> sh.vars st2 !! key = None)
             /\ sh.vars st2 !! "PREVIOUS_PATH" = None
             /\ sh.vars st2 !! "TOOLENV_DIR" = None
             /\ sh.vars st2 !! "OLD_PS1" = None
             /\ sh.funcs st2 !! "deactivate" = None
             /\ (forall x,
                   x ∉ keys ->
                   x ∉ ["PATH"; "PS1"; "OLD_PS1"; "PREVIOUS_PATH"; "TOOLENV_DIR"] ->
                   sh.vars st2 !! x = sh.vars st0 !! x).
Proof.
  intros h env_name tools w w' Hrun.
  set (entries := flat_entries h (ranges h (seed w) tools)).
  set (keys := flat_keys (ranges h (seed w + length tools) tools)).
  assert (Hkeys : forall key,
             key ∈ keys <-> exists tool, tool ∈ tools /\ is_Some (Env tool !! key))
    by apply ManifestFacts.elem_flat_keys.
  assert (Hsame : forall key, key ∈ entries.*1 <-> key ∈ keys).
  { intros key. rewrite Hkeys. apply ManifestFacts.elem_flat_entries_keys. }
  exists entries, keys.
  split; [by apply generated_script_text|].
  split; [exact Hkeys|]. split; [exact Hsame|].
  intros st0 He Hs Ha.
  eexists _, _. split.
  { apply SourceFacts.source_script;
      [done | by apply safe_flat_entries | by apply safe_flat_keys]. }
  split; [apply lookup_insert_eq|].
  split; [by apply SourceFacts.call_deactivate, safe_flat_keys|].
  apply DeactivateFacts.deactivated_state.
  - intros x. apply Hsame.
  - intros x Hx (tool & Ht & Hl)%Hkeys. by apply (Ha tool x).
Qed.

(** ** The README manifest in a shell *)

Lemma readme_entries tool key value :
  tool ∈ readme_tools -> Env tool !! key = Some value ->
  (tool = node_tool /\ key = "PATH" /\ value = "storage/node@{{.version}}/bin")
  \/ (tool = go_tool /\ key = "GOROOT" /\ value = "storage/go@{{.version}}")
  \/ (tool = go_tool /\ key = "PATH" /\ value = "storage/go@{{.version}}/bin").
Proof.
  intros Hin Hl. apply elem_of_cons in Hin as [->|Hin].
  - unfold node_tool in Hl. simpl in Hl.
    apply lookup_singleton_Some in Hl as [<- <-]. by left.
  - apply elem_of_cons in Hin as [->|Hin]; [|by apply elem_of_nil in Hin].
    unfold go_tool in Hl. simpl in Hl.
    apply lookup_insert_Some in Hl as [[<- <-]|[_ Hl]]; [right; by left|].
    apply lookup_singleton_Some in Hl as [<- <-]. right; by right.
Qed.

Lemma readme_tools_safe : tools_safe readme_host readme_tools.
Proof.
  intros tool key value Hin Hl.
  destruct (readme_entries tool key value Hin Hl)
    as [(-> & -> & ->)|[(-> & -> & ->)|(-> & -> & ->)]]; split; reflexivity.
Qed.

Lemma readme_keys_avoid :
  keys_avoid ["TOOLENV_DIR"; "PREVIOUS_PATH"; "OLD_PS1"; "PS1"] readme_tools.
Proof.
  intros tool key Hin [value Hl].
  destruct (readme_entries tool key value Hin Hl)
    as [(-> & -> & ->)|[(-> & -> & ->)|(-> & -> & ->)]];
    rewrite !not_elem_of_cons; repeat split; try discriminate; apply not_elem_of_nil.
Qed.

Lemma readme_keys_avoid_dir : keys_avoid ["TOOLENV_DIR"] readme_tools.
Proof.
  intros tool key Hin Hl Hk. eapply readme_keys_avoid; [exact Hin | exact Hl |].
  apply elem_of_cons in Hk as [->|Hk]; [by apply elem_of_cons; left|].
  by apply elem_of_nil in Hk.
Qed.

Lemma C5_later_tool_is_earlier_in_PATH_witness :
  exists entries keys st1,
    files (fs (generateActivationScript readme_host "env" readme_tools empty_world).2)
      !! filepath.Join ["env"; "bin"; "activate"]
    = Some (script_text "env" entries keys)
    /\ path_bufs entries = path_segments readme_host readme_tools
    /\ sh.source sample_shell (script_text "env" entries keys) = Some st1
    /\ sh.getvar st1 "PATH"
       = path_value (sh.cwd sample_shell +:+ "/" +:+ "env")
           (path_segments readme_host readme_tools)
           (sh.getvar sample_shell "PATH").
Proof.
  destruct (C5_later_tool_is_earlier_in_PATH readme_host "env" readme_tools
              empty_world
              (generateActivationScript readme_host "env" readme_tools empty_world).2)
    as (entries & keys & Hfile & Hbufs & Hshell).
  - vm_compute. reflexivity.
  - destruct (Hshell sample_shell) as (st1 & Hsrc & Hpath & _).
    + reflexivity.
    + exact readme_tools_safe.
    + exact readme_keys_avoid_dir.
    + exists entries, keys, st1.
      exact (conj Hfile (conj Hbufs (conj Hsrc Hpath))).
Defined.

Lemma C6_deactivate_undoes_activation_witness :
  exists entries keys st1 st2,
    files (fs (generateActivationScript readme_host "env" readme_tools empty_world).2)
      !! filepath.Join ["env"; "bin"; "activate"]
    = Some (script_text "env" entries keys)
    /\ sh.source sample_shell (script_text "env" entries keys) = Some st1
    /\ sh.funcs st1 !! "deactivate" = Some (deactivate_body keys)
    /\ sh.call st1 "deactivate" = Some st2
    /\ sh.vars st2 !! "PS1" = Some (sh.getvar sample_shell "PS1")
    /\ sh.vars st2 !! "PATH" = Some (sh.getvar sample_shell "PATH")
    /\ (forall key, key ∈ keys -> key <> "PATH" -> sh.vars st2 !! key = None)
    /\ sh.funcs st2 !! "deactivate" = None.
Proof.
  destruct (C6_deactivate_undoes_activation readme_host "env" readme_tools
              empty_world
              (generateActivationScript readme_host "env" readme_tools empty_world).2)
    as (entries & keys & Hfile & _ & _ & Hshell).
  - vm_compute. reflexivity.
  - destruct (Hshell sample_shell)
      as (st1 & st2 & Hsrc & Hfun & Hcall & Hps1 & Hpath & Hkeys & _ & _ & _ & Hgone & _).
    + reflexivity.
    + exact readme_tools_safe.
    + exact readme_keys_avoid.
    + exists entries, keys, st1, st2.
      exact (conj Hfile (conj Hsrc (conj Hfun (conj Hcall
               (conj Hps1 (conj Hpath (conj Hkeys Hgone))))))).
Defined.

(** The README manifest: after activation the segment of go, declared
    second, comes first; after [deactivate] the shell is as before. *)
Example readme_PATH :
  exists st1 st2,
    sh.source sample_shell
      (default ""
         (files (fs (main_action readme_host empty_world).2) !! "env/bin/activate"))
    = Some st1
    /\ sh.getvar st1 "PATH"
       = "/proj/env/storage/go@1.25.0/bin:/proj/env/storage/node@22.18.0/bin:/usr/bin:/bin"
    /\ sh.call st1 "deactivate" = Some st2
    /\ st2 = sample_shell.
Proof.
  eexists _, _. split; [vm_compute; reflexivity|].
  split; [vm_compute; reflexivity|]. split; [vm_compute; reflexivity|].
  unfold sample_shell. f_equal; apply map_eq; intros x; vm_compute; reflexivity.
Qed.

(** * Further properties of the program *)

(** ** Templates of URLs and of environment values *)

Module FieldFacts.

(** One field between two texts, in a URL. *)
Lemma buildURL_one_field h (pre name post version os_name arch : string) :
  Str.contains "{" pre = false -> Str.contains "{" post = false ->
  template.is_identifier name = true ->
  buildURL h (pre +:+ "{{." +:+ name +:+ "}}" +:+ post) version os_name arch
  = Ok (pre
        +:+ template.exec_node (url_data version os_name arch)
              (template.FieldNode name)
        +:+ post).
Proof.
  intros Hpre Hpost Hn.
  rewrite (buildURL_modelled h _ _ _ _ _
             (TemplateFacts.scan_one_field pre name post Hpre Hpost Hn)).
  rewrite TemplateFacts.exec_add_text, TemplateFacts.exec_app,
    TemplateFacts.exec_add_text.
  change (template.exec ?d [template.FieldNode name])
    with (template.exec_node d (template.FieldNode name) +:+ "").
  change (template.exec ?d []) with "".
  rewrite StrFacts.app_nil_r.
  change ("" +:+ pre) with pre.
  by rewrite StrFacts.app_assoc.
Qed.

(** A value without an action is its own expansion, once escaped. *)
Lemma expand_value_literal h (version value : string) :
  Str.contains "{" value = false ->
  expand_value h version value = Ok (escape_quotes value).
Proof.
  intros Hv. unfold expand_value, template_Parse, template_Execute.
  pose proof (TemplateFacts.scan_text (escape_quotes value) "" [] ""
                (EscapeFacts.escape_no_brace value Hv)) as Hs.
  rewrite StrFacts.app_nil_r in Hs. rewrite Hs.
  change (template.scan false ("" +:+ escape_quotes value) [] "")
    with (Some (Ok (template.add_text (escape_quotes value) []))).
  cbv beta iota. rewrite TemplateFacts.exec_add_text. reflexivity.
Qed.

End FieldFacts.


(** ** Templates with any number of fields *)

Module PieceFacts.
Import template.

Lemma exec_node_field data name :
  exec_node data (FieldNode name) = default "<no value>" (data !! name).
Proof. simpl. by destruct (data !! name). Qed.

Lemma scan_pieces (pieces : list Piece) :
  forallb piece_ok pieces = true ->
  forall acc nodes,
    exists result,
      scan false acc nodes (template_of pieces) = Some (Ok result)
      /\ forall data,
           exec data result = exec data nodes +:+ acc +:+ value_of data pieces.
Proof.
  induction pieces as [|[text|name] pieces IH]; intros Hok acc nodes.
  - exists (add_text acc nodes). split; [reflexivity|]. intros data.
    rewrite TemplateFacts.exec_add_text. simpl. by rewrite StrFacts.app_nil_r.
  - simpl in Hok. apply andb_true_iff in Hok as [Ht Hok].
    apply negb_true_iff in Ht.
    destruct (IH Hok (acc +:+ text) nodes) as (result & Hs & He).
    exists result. split.
    + simpl. by rewrite TemplateFacts.scan_text.
    + intros data. rewrite He. simpl. by rewrite StrFacts.app_assoc.
  - simpl in Hok. apply andb_true_iff in Hok as [Hn Hok].
    destruct (IH Hok "" (add_text acc nodes ++ [FieldNode name]))
      as (result & Hs & He).
    exists result. split.
    + change (template_of (Field name :: pieces))
        with (("{{." +:+ name +:+ "}}") +:+ template_of pieces).
      rewrite !StrFacts.app_assoc.
      change ("{{." +:+ name +:+ "}}" +:+ template_of pieces)
        with ("{{" +:+ String "." (name +:+ "}}" +:+ template_of pieces)).
      rewrite TemplateFacts.scan_open, TemplateFacts.scan_action_byte by reflexivity.
      rewrite TemplateFacts.scan_word by by apply TemplateFacts.is_identifier_all.
      rewrite TemplateFacts.scan_close.
      change (("" +:+ String "."%char "") +:+ name) with (String "."%char name).
      by rewrite TemplateFacts.action_field.
    + intros data. rewrite He, TemplateFacts.exec_app, TemplateFacts.exec_add_text.
      change (exec data [FieldNode name])
        with (exec_node data (FieldNode name) +:+ "").
      rewrite exec_node_field, StrFacts.app_nil_r.
      change ("" +:+ value_of data pieces) with (value_of data pieces).
      simpl. by rewrite !StrFacts.app_assoc.
Qed.

Lemma escape_template (pieces : list Piece) :
  forallb piece_ok pieces = true ->
  escape_quotes (template_of pieces) = template_of (map escape_piece pieces)
  /\ forallb piece_ok (map escape_piece pieces) = true.
Proof.
  induction pieces as [|[text|name] pieces IH]; intros Hok; [done|..];
    simpl in Hok; apply andb_true_iff in Hok as [Hp Hok];
    destruct (IH Hok) as [He Hok'].
  - split.
    + simpl. by rewrite EscapeFacts.escape_app, He.
    + simpl. rewrite Hok', andb_true_r. apply negb_true_iff.
      apply EscapeFacts.escape_no_brace. by apply negb_true_iff.
  - split.
    + simpl. rewrite !EscapeFacts.escape_app, He.
      rewrite (EscapeFacts.escape_word name)
        by by apply TemplateFacts.is_identifier_all.
      reflexivity.
    + simpl. by rewrite Hp, Hok'.
Qed.

End PieceFacts.

(** X1.  A URL template made of text without braces and of fields, in
    any number and order, resolves to the text with every field replaced:
    [version], [os] and [arch] by the values [buildURL] was given, byte for
    byte and without expanding them again, any other field by
    [<no value>]. *)
Theorem buildURL_replaces_every_field :
  forall (h : Host) (pieces : list Piece) (version os_name arch : string),
    forallb piece_ok pieces = true ->
    buildURL h (template_of pieces) version os_name arch
    = Ok (value_of (url_data version os_name arch) pieces).
Proof.
  intros h pieces version os_name arch Hok.
  destruct (PieceFacts.scan_pieces pieces Hok "" []) as (result & Hs & He).
  rewrite (buildURL_modelled h _ version os_name arch result Hs).
  by rewrite He.
Qed.

Lemma buildURL_replaces_every_field_witness :
  buildURL readme_host
    (template_of [Text "https://nodejs.org/dist/v"; Field "version"; Text "/node-v";
                  Field "version"; Text "-"; Field "os"; Text "-"; Field "arch";
                  Text "."; Field "format"])
    "22.18.0" "linux" "x64"
  = Ok (value_of (url_data "22.18.0" "linux" "x64")
          [Text "https://nodejs.org/dist/v"; Field "version"; Text "/node-v";
           Field "version"; Text "-"; Field "os"; Text "-"; Field "arch";
           Text "."; Field "format"]).
Proof.
  refine (buildURL_replaces_every_field readme_host
            [Text "https://nodejs.org/dist/v"; Field "version"; Text "/node-v";
             Field "version"; Text "-"; Field "os"; Text "-"; Field "arch";
             Text "."; Field "format"]
            "22.18.0" "linux" "x64" _).
  reflexivity.
Defined.

(** X2.  An environment value made of text without braces and of fields
    gives the line of the script in which the double quotes of the text are
    escaped and every field is replaced, [version] by the version of the
    tool as it is (a double quote in the version is not escaped) and any
    other field, [os] and [arch] included, by [<no value>]. *)
Theorem export_entry_replaces_every_field :
  forall (h : Host) (tool : Tool) (sb : Builder) (key : string)
         (pieces : list Piece) (w : World),
    forallb piece_ok pieces = true ->
    export_entry h tool sb (key, template_of pieces) w
    = (Ok (WriteString sb
             (export_line key
                (value_of {[ "version" := Version tool ]}
                   (map escape_piece pieces)))),
       w).
Proof.
  intros h tool sb key pieces w Hok.
  destruct (PieceFacts.escape_template pieces Hok) as [Hesc Hok'].
  destruct (PieceFacts.scan_pieces (map escape_piece pieces) Hok' "" [])
    as (result & Hs & He).
  rewrite export_entry_eq. unfold expand_value, template_Parse, template_Execute.
  rewrite Hesc, Hs. by rewrite He.
Qed.

Lemma export_entry_replaces_every_field_witness :
  export_entry readme_host go_tool []
    ("GOFLAGS",
     template_of [Text ("-ldflags=" +:+ quote +:+ "-X v="); Field "version";
                  Text (quote +:+ " "); Field "os"])
    empty_world
  = (Ok (WriteString []
           (export_line "GOFLAGS"
              (value_of {[ "version" := Version go_tool ]}
                 (map escape_piece
                    [Text ("-ldflags=" +:+ quote +:+ "-X v="); Field "version";
                     Text (quote +:+ " "); Field "os"])))),
     empty_world).
Proof.
  refine (export_entry_replaces_every_field readme_host go_tool [] "GOFLAGS"
            [Text ("-ldflags=" +:+ quote +:+ "-X v="); Field "version";
             Text (quote +:+ " "); Field "os"]
            empty_world _).
  reflexivity.
Defined.

Module MalformedFacts.
Import template.

(** An action without a word. *)
Lemma scan_empty_action (pre post : string) :
  Str.contains "{" pre = false ->
  scan false "" [] (pre +:+ "{{}}" +:+ post) = Some (Err MissingValueForCommand).
Proof.
  intros Hpre. rewrite TemplateFacts.scan_text by done.
  change ("{{}}" +:+ post) with ("{{" +:+ "}}" +:+ post).
  by rewrite TemplateFacts.scan_open, TemplateFacts.scan_close.
Qed.

(** A field whose action is not closed before the template ends. *)
Lemma scan_unclosed_field (pre name : string) :
  Str.contains "{" pre = false -> is_identifier name = true ->
  scan false "" [] (pre +:+ "{{." +:+ name) = Some (Err UnclosedAction).
Proof.
  intros Hpre Hn. rewrite TemplateFacts.scan_text by done.
  change ("{{." +:+ name) with ("{{" +:+ String "." name).
  rewrite TemplateFacts.scan_open, TemplateFacts.scan_action_byte by reflexivity.
  rewrite <- (StrFacts.app_nil_r name) at 1.
  rewrite TemplateFacts.scan_word by by apply TemplateFacts.is_identifier_all.
  change (("" +:+ String "."%char "") +:+ name) with (String "."%char name).
  cbn [scan]. by rewrite TemplateFacts.action_field.
Qed.

End MalformedFacts.

(** X3.  A URL template is rejected when it holds an action with nothing
    in it, and when it ends inside the action of a field; [buildURL] returns
    the error of the parser as it is. *)
Theorem buildURL_rejects_malformed_actions :
  forall (h : Host) (pre post name version os_name arch : string),
    Str.contains "{" pre = false ->
    buildURL h (pre +:+ "{{}}" +:+ post) version os_name arch
    = Err MissingValueForCommand
    /\ (template.is_identifier name = true ->
        buildURL h (pre +:+ "{{." +:+ name) version os_name arch
        = Err UnclosedAction).
Proof.
  intros h pre post name version os_name arch Hpre. split.
  - apply buildURL_parse_error. by apply MalformedFacts.scan_empty_action.
  - intros Hn. apply buildURL_parse_error.
    by apply MalformedFacts.scan_unclosed_field.
Qed.

Lemma buildURL_rejects_malformed_actions_witness :
  buildURL (sample_host {| Tools := [] |} 200)
    ("https://x/" +:+ "{{}}" +:+ ".tgz") "1.0" "linux" "amd64"
  = Err MissingValueForCommand
  /\ buildURL (sample_host {| Tools := [] |} 200)
       ("https://x/" +:+ "{{." +:+ "version") "1.0" "linux" "amd64"
     = Err UnclosedAction.
Proof.
  pose proof (buildURL_rejects_malformed_actions
                (sample_host {| Tools := [] |} 200)
                "https://x/" ".tgz" "version" "1.0" "linux" "amd64" eq_refl) as H.
  exact (conj (proj1 H) (proj2 H eq_refl)).
Defined.

(** ** Double quotes in environment values *)

Module QuoteFacts.
Import sh.

Lemma escape_cons_plain c s :
  Ascii.eqb c "034" = false -> escape_quotes (String c s) = String c (escape_quotes s).
Proof. intros Hc. unfold escape_quotes. simpl. by rewrite Hc. Qed.

Lemma escape_cons_quote s :
  escape_quotes (String "034" s) = String "\" (String "034" (escape_quotes s)).
Proof. reflexivity. Qed.

(** The shell reads an escaped value back as the value. *)
Lemma expand_escaped st out value rest :
  quotable value = true ->
  expand st Plain out (escape_quotes value +:+ rest)
  = expand st Plain (out +:+ value) rest.
Proof.
  revert out. induction value as [|c value IH]; intros out Hv.
  - by rewrite StrFacts.app_nil_r.
  - unfold quotable in Hv. simpl in Hv. apply andb_true_iff in Hv as [Hc Hv].
    destruct (Ascii.eqb c "034") eqn:Hq.
    + apply Ascii.eqb_eq in Hq as ->.
      rewrite escape_cons_quote, !StrFacts.app_cons, ShFacts.expand_cons.
      change (step st Plain out "\") with (Go Escape out). cbv iota.
      rewrite ShFacts.expand_cons.
      change (step st Escape out "034") with (Go Plain (snoc out "034")). cbv iota.
      rewrite IH by done. unfold snoc. by rewrite StrFacts.app_assoc.
    + unfold quotable_char in Hc. rewrite Hq, orb_false_r in Hc.
      rewrite escape_cons_plain by done.
      rewrite StrFacts.app_cons, ShFacts.expand_cons. unfold step.
      rewrite ShFacts.plain_byte_plain by done. rewrite IH by done.
      by rewrite StrFacts.app_assoc.
Qed.

Lemma command_export_escaped st key value :
  is_name key = true -> quotable value = true ->
  command st (export_body key (escape_quotes value))
  = Some (export_effect st (key, value)).
Proof.
  intros Hk Hv. unfold export_body, export_effect.
  destruct (Str.eqb key "PATH") eqn:Hp.
  - apply (ShFacts.command_export st "PATH"); [reflexivity|].
    apply ShFacts.word_quoted.
    rewrite ShFacts.expand_toolenv, expand_escaped by done.
    rewrite ShFacts.expand_path_end. do 2 f_equal.
    change ("" +:+ getvar st "TOOLENV_DIR") with (getvar st "TOOLENV_DIR").
    by rewrite !StrFacts.app_assoc.
  - apply ShFacts.command_export; [done|].
    apply ShFacts.word_quoted.
    rewrite ShFacts.expand_toolenv, expand_escaped by done.
    rewrite ShFacts.expand_end. do 2 f_equal.
    change ("" +:+ getvar st "TOOLENV_DIR") with (getvar st "TOOLENV_DIR").
    by rewrite !StrFacts.app_assoc.
Qed.

End QuoteFacts.

(** X4.  The escaping of double quotes does what it is for: for a value
    without actions whose only special bytes are double quotes, the line
    written to the script, read by the shell, gives the variable the value
    of the manifest below [$TOOLENV_DIR], quotes included. *)
Theorem escaped_quotes_reach_the_variable :
  forall (h : Host) (tool : Tool) (sb : Builder) (key value : string)
         (w : World) (st : sh.State),
    Str.contains "{" value = false ->
    quotable value = true ->
    sh.is_name key = true ->
    export_entry h tool sb (key, value) w
    = (Ok (WriteString sb (export_body key (escape_quotes value) +:+ nl)), w)
    /\ sh.command st (export_body key (escape_quotes value))
       = Some (export_effect st (key, value)).
Proof.
  intros h tool sb key value w st Hb Hq Hk. split.
  - rewrite export_entry_eq, FieldFacts.expand_value_literal by done.
    by rewrite LineFacts.export_line_body.
  - by apply QuoteFacts.command_export_escaped.
Qed.

Lemma escaped_quotes_reach_the_variable_witness :
  export_entry (sample_host {| Tools := [] |} 200) go_tool []
    ("GOFLAGS", "-tags=" +:+ quote +:+ "a b" +:+ quote) empty_world
  = (Ok (WriteString []
           (export_body "GOFLAGS" (escape_quotes ("-tags=" +:+ quote +:+ "a b" +:+ quote))
            +:+ nl)),
     empty_world)
  /\ sh.command sample_shell
       (export_body "GOFLAGS" (escape_quotes ("-tags=" +:+ quote +:+ "a b" +:+ quote)))
     = Some (export_effect sample_shell
               ("GOFLAGS", "-tags=" +:+ quote +:+ "a b" +:+ quote)).
Proof.
  refine (escaped_quotes_reach_the_variable (sample_host {| Tools := [] |} 200)
            go_tool [] "GOFLAGS" ("-tags=" +:+ quote +:+ "a b" +:+ quote)
            empty_world sample_shell _ _ _).
  - reflexivity.
  - reflexivity.
  - reflexivity.
Defined.

(** ** Runs that stop before the first tool *)

Module StopFacts.

Lemma loadEnv_no_file h w e :
  host_Open h w "toolenv.yml" = Err e ->
  loadEnv h w
  = (Err (Wrapped "failed to open toolenv.yml" e), log (EvOpen "toolenv.yml") w).
Proof. intros Ho. unfold loadEnv. by rewrite Ho. Qed.

Lemma loadEnv_read h w text :
  host_Open h w "toolenv.yml" = Ok text ->
  loadEnv h w
  = (match host_Decode h text with
     | Ok config => Ok config
     | Err e => Err (Wrapped "failed to parse toolenv.yml" e)
     end,
     log (EvClose "toolenv.yml") (log (EvOpen "toolenv.yml") w)).
Proof.
  intros Ho. unfold loadEnv. rewrite Ho.
  unfold defer, wrap, lift, File_Close. by destruct (host_Decode h text).
Qed.

Lemma prepare_unfold h env_name w :
  prepare h env_name w
  = match os_MkdirAll h (filepath.Join [filepath.Join ["."; env_name]; "bin"]) w with
    | (Ok _, w1) =>
        match os_RemoveAll h (filepath.Join [env_name; "storage"]) w1 with
        | (Ok _, w2) => (Ok tt, w2)
        | (Err e, w2) => (Err (Wrapped "failed to cleanup the storage" e), w2)
        end
    | (Err e, w1) => (Err (Wrapped "failed to create env" e), w1)
    end.
Proof.
  unfold prepare. rewrite bind_apply. unfold wrap.
  destruct (os_MkdirAll h _ w) as [[[]|e] w1]; [|done].
  by destruct (os_RemoveAll h _ w1) as [[[]|e] w2].
Qed.

End StopFacts.

(** X5.  When the manifest cannot be opened, or is opened and cannot be
    decoded, the run ends with the error, wrapped with what failed, and has
    done nothing else: no directory is made, the storage is not removed.  A
    manifest that was opened is closed, also when it cannot be decoded. *)
Theorem setup_stops_at_a_bad_manifest :
  forall (h : Host) (env_name : string) (w : World),
    (forall e,
       host_Open h w "toolenv.yml" = Err e ->
       setup h env_name w
       = (Err (Wrapped "failed to open toolenv.yml" e),
          log (EvOpen "toolenv.yml") w))
    /\ (forall text e,
          host_Open h w "toolenv.yml" = Ok text ->
          host_Decode h text = Err e ->
          setup h env_name w
          = (Err (Wrapped "failed to parse toolenv.yml" e),
             log (EvClose "toolenv.yml") (log (EvOpen "toolenv.yml") w))).
Proof.
  intros h env_name w. split.
  - intros e Ho. by rewrite setup_unfold, (StopFacts.loadEnv_no_file h w e Ho).
  - intros text e Ho Hd.
    by rewrite setup_unfold, (StopFacts.loadEnv_read h w text Ho), Hd.
Qed.

Lemma setup_stops_at_a_bad_manifest_witness :
  setup (faulty_host {| Tools := readme_tools |}
           (fun c => match c with
                     | CallOpen => Some (Foreign "no such file or directory")
                     | _ => None
                     end))
    "env" stale_world
  = (Err (Wrapped "failed to open toolenv.yml" (Foreign "no such file or directory")),
     log (EvOpen "toolenv.yml") stale_world)
  /\ setup (faulty_host {| Tools := readme_tools |}
              (fun c => match c with
                        | CallDecode => Some (Foreign "yaml: line 2: mapping values")
                        | _ => None
                        end))
       "env" stale_world
     = (Err (Wrapped "failed to parse toolenv.yml"
               (Foreign "yaml: line 2: mapping values")),
        log (EvClose "toolenv.yml") (log (EvOpen "toolenv.yml") stale_world)).
Proof.
  split.
  - refine (proj1 (setup_stops_at_a_bad_manifest
                     (faulty_host {| Tools := readme_tools |}
                        (fun c => match c with
                                  | CallOpen => Some (Foreign "no such file or directory")
                                  | _ => None
                                  end))
                     "env" stale_world) _ _).
    reflexivity.
  - refine (proj2 (setup_stops_at_a_bad_manifest
                     (faulty_host {| Tools := readme_tools |}
                        (fun c => match c with
                                  | CallDecode => Some (Foreign "yaml: line 2: mapping values")
                                  | _ => None
                                  end))
                     "env" stale_world) "tools:" _ _ _).
    + reflexivity.
    + reflexivity.
Defined.

(** X6.  When [env/bin] cannot be made the run ends there, before the
    removal of the storage is asked for; when the storage cannot be removed
    the run ends there, before anything is done for a tool.  Each error is
    wrapped with the step that failed. *)
Theorem setup_stops_when_the_env_is_not_ready :
  forall (h : Host) (env_name : string) (w w0 : World) (config : Config),
    loadEnv h w = (Ok config, w0) ->
    let bin_dir := filepath.Join [filepath.Join ["."; env_name]; "bin"] in
    let storage_dir := filepath.Join [env_name; "storage"] in
    (forall e,
       host_MkdirAll h w0 bin_dir = Some e ->
       (setup h env_name w).1 = Err (Wrapped "failed to create env" e)
       /\ trace (setup h env_name w).2 = trace w0 ++ [EvMkdirAll bin_dir])
    /\ (forall w1 e,
          os_MkdirAll h bin_dir w0 = (Ok tt, w1) ->
          host_RemoveAll h w1 storage_dir = Some e ->
          (setup h env_name w).1 = Err (Wrapped "failed to cleanup the storage" e)
          /\ trace (setup h env_name w).2 = trace w1 ++ [EvRemoveAll storage_dir]).
Proof.
  intros h env_name w w0 config Hload bin_dir storage_dir. split.
  - intros e Hm. rewrite setup_unfold, Hload, StopFacts.prepare_unfold.
    fold bin_dir. unfold os_MkdirAll. by rewrite Hm.
  - intros w1 e Hm Hr. rewrite setup_unfold, Hload, StopFacts.prepare_unfold.
    fold bin_dir storage_dir. rewrite Hm. unfold os_RemoveAll. by rewrite Hr.
Qed.

Lemma setup_stops_when_the_env_is_not_ready_witness :
  let no_bin :=
    faulty_host {| Tools := readme_tools |}
      (fun c => match c with
                | CallMkdirAll _ => Some (Foreign "read-only file system")
                | _ => None
                end) in
  let no_removal :=
    faulty_host {| Tools := readme_tools |}
      (fun c => match c with
                | CallRemoveAll _ => Some (Foreign "permission denied")
                | _ => None
                end) in
  let w0 := log (EvClose "toolenv.yml") (log (EvOpen "toolenv.yml") stale_world) in
  ((setup no_bin "env" stale_world).1
   = Err (Wrapped "failed to create env" (Foreign "read-only file system"))
   /\ trace (setup no_bin "env" stale_world).2 = trace w0 ++ [EvMkdirAll "env/bin"])
  /\ ((setup no_removal "env" stale_world).1
      = Err (Wrapped "failed to cleanup the storage" (Foreign "permission denied"))
      /\ trace (setup no_removal "env" stale_world).2
         = trace (os_MkdirAll no_removal "env/bin" w0).2 ++ [EvRemoveAll "env/storage"]).
Proof.
  intros no_bin no_removal w0. split.
  - refine (proj1 (setup_stops_when_the_env_is_not_ready no_bin "env" stale_world w0
                     {| Tools := readme_tools |} _)
              (Foreign "read-only file system") _).
    + reflexivity.
    + reflexivity.
  - refine (proj2 (setup_stops_when_the_env_is_not_ready no_removal "env" stale_world
                     w0 {| Tools := readme_tools |} _)
              (os_MkdirAll no_removal "env/bin" w0).2 (Foreign "permission denied") _ _).
    + reflexivity.
    + reflexivity.
    + reflexivity.
Defined.

(** ** The events of a run *)

Section Emits.
Context (h : Host) (Q : list Event -> Prop).
Hypothesis Q_nil : Q [].
Hypothesis Q_app : forall a b, Q a -> Q b -> Q (a ++ b).

Lemma emits_silent {A} (m : M A) :
  (forall w, trace (m w).2 = trace w) -> emits Q m.
Proof. intros Hm w. exists []. by rewrite Hm, app_nil_r. Qed.

Lemma emits_ret {A} (a : A) : emits Q (ret a).
Proof. by apply emits_silent. Qed.

Lemma emits_fail {A} (e : error) : emits Q (@fail A e).
Proof. by apply emits_silent. Qed.

Lemma emits_lift {A} (r : result A) : emits Q (lift r).
Proof. by apply emits_silent. Qed.

Lemma emits_range m : emits Q (range_map h m).
Proof. by apply emits_silent. Qed.

Lemma emits_bind {A B} (m : M A) (k : A -> M B) :
  emits Q m -> (forall a, emits Q (k a)) -> emits Q (bind m k).
Proof.
  intros Hm Hk w. unfold bind. destruct (Hm w) as (ev1 & Ht1 & Hq1).
  destruct (m w) as [[a|e] w1]; [|by exists ev1].
  destruct (Hk a w1) as (ev2 & Ht2 & Hq2).
  exists (ev1 ++ ev2). split; [|by apply Q_app].
  simpl in Ht1. by rewrite Ht2, Ht1, <- app_assoc.
Qed.

Lemma emits_wrap {A} (context : string) (m : M A) :
  emits Q m -> emits Q (wrap context m).
Proof.
  intros Hm w. unfold wrap. destruct (Hm w) as (ev & Ht & Hq).
  exists ev. by destruct (m w) as [[a|e] w1].
Qed.

Lemma emits_defer {A B} (cleanup : M B) (body : M A) :
  emits Q cleanup -> emits Q body -> emits Q (defer cleanup body).
Proof.
  intros Hc Hb w. unfold defer. destruct (Hb w) as (ev1 & Ht1 & Hq1).
  destruct (body w) as [r w1]. destruct (Hc w1) as (ev2 & Ht2 & Hq2).
  destruct (cleanup w1) as [r2 w2].
  exists (ev1 ++ ev2). split; [|by apply Q_app].
  simpl in *. by rewrite Ht2, Ht1, <- app_assoc.
Qed.

Lemma emits_if {A} (b : bool) (m1 m2 : M A) :
  emits Q m1 -> emits Q m2 -> emits Q (if b then m1 else m2).
Proof. by destruct b. Qed.

Lemma emits_for_each {A} (xs : list A) (body : A -> M unit) :
  (forall x, emits Q (body x)) -> emits Q (for_each xs body).
Proof.
  intros Hb. induction xs as [|x xs IH]; [apply emits_ret|].
  rewrite for_each_cons. by apply emits_bind.
Qed.

Lemma emits_fold_each {A S} (xs : list A) (body : S -> A -> M S) (s : S) :
  (forall s x, emits Q (body s x)) -> emits Q (fold_each xs body s).
Proof.
  intros Hb. revert s. induction xs as [|x xs IH]; intros s; [apply emits_ret|].
  rewrite fold_each_cons. by apply emits_bind.
Qed.

(** A call that logs the one event [e]. *)
Lemma emits_one {A} (m : M A) (e : Event) :
  (forall w, trace (m w).2 = trace w ++ [e]) -> Q [e] -> emits Q m.
Proof. intros Hm Hq w. by exists [e]. Qed.

Lemma emits_Printf text : Q [EvPrintf text] -> emits Q (Printf text).
Proof. by apply emits_one. Qed.

Lemma emits_MkdirAll path : Q [EvMkdirAll path] -> emits Q (os_MkdirAll h path).
Proof.
  apply emits_one. intros w. unfold os_MkdirAll.
  by destruct (host_MkdirAll h w path).
Qed.

Lemma emits_RemoveAll path : Q [EvRemoveAll path] -> emits Q (os_RemoveAll h path).
Proof.
  apply emits_one. intros w. unfold os_RemoveAll.
  by destruct (host_RemoveAll h w path).
Qed.

Lemma emits_Get url : Q [EvGet url] -> emits Q (http_Get h url).
Proof. by apply emits_one. Qed.

Lemma emits_Body_Close url : Q [EvBodyClose url] -> emits Q (Body_Close url).
Proof. by apply emits_one. Qed.

Lemma emits_File_Close file : Q [EvClose file] -> emits Q (File_Close file).
Proof. by apply emits_one. Qed.

Lemma emits_CreateTemp dir pattern :
  (forall name, Q [EvCreateTemp dir pattern name]) ->
  emits Q (os_CreateTemp h dir pattern).
Proof.
  intros Hq w. unfold os_CreateTemp.
  destruct (host_CreateTemp h w dir pattern) as [name|e]; eexists; split; try done.
  all: apply Hq.
Qed.

Lemma emits_Copy file body : Q [EvCopy file] -> emits Q (io_Copy h file body).
Proof.
  apply emits_one. intros w. unfold io_Copy.
  by destruct (host_Copy h w file body) as [[n e]|].
Qed.

Lemma emits_Remove file : Q [EvRemove file] -> emits Q (os_Remove h file).
Proof.
  apply emits_one. intros w. unfold os_Remove.
  by destruct (host_Remove h w file).
Qed.

Lemma emits_Run argv : Q [EvRun argv] -> emits Q (exec_Run h argv).
Proof. apply emits_one. intros w. apply exec_Run_trace. Qed.

Lemma emits_WriteFile path data :
  Q [EvWriteFile path data] -> emits Q (os_WriteFile h path data).
Proof.
  apply emits_one. intros w. unfold os_WriteFile.
  by destruct (host_WriteFile h w path data).
Qed.

Lemma emits_loadEnv : Q [EvOpen "toolenv.yml"] -> Q [EvClose "toolenv.yml"] ->
  emits Q (loadEnv h).
Proof.
  intros Ho Hc w. destruct (host_Open h w "toolenv.yml") as [text|e] eqn:Hopen.
  - rewrite (StopFacts.loadEnv_read h w text Hopen).
    exists ([EvOpen "toolenv.yml"] ++ [EvClose "toolenv.yml"]).
    split; [|by apply Q_app]. simpl. by rewrite <- app_assoc.
  - rewrite (StopFacts.loadEnv_no_file h w e Hopen). by exists [EvOpen "toolenv.yml"].
Qed.

(** The two loops of [generateActivationScript] make no call. *)
Lemma emits_export_entry tool sb entry : emits Q (export_entry h tool sb entry).
Proof.
  destruct entry as [key value]. apply emits_silent. intros w.
  rewrite export_entry_eq. by destruct (expand_value h (Version tool) value).
Qed.

Lemma emits_unset_entry sb entry : emits Q (unset_entry sb entry).
Proof.
  destruct entry as [key value]. unfold unset_entry.
  apply emits_if; apply emits_ret.
Qed.

Lemma emits_generateActivationScript env_name tools :
  (forall data, Q [EvWriteFile (filepath.Join [env_name; "bin"; "activate"]) data]) ->
  emits Q (generateActivationScript h env_name tools).
Proof.
  intros Hq. unfold generateActivationScript.
  apply emits_bind.
  { apply emits_fold_each. intros sb tool. apply emits_bind; [apply emits_range|].
    intros entries. apply emits_fold_each. intros sb' entry.
    apply emits_export_entry. }
  intros sb. apply emits_bind.
  { apply emits_fold_each. intros sb' tool. apply emits_bind; [apply emits_range|].
    intros entries. apply emits_fold_each. intros sb'' entry.
    apply emits_unset_entry. }
  intros sb'. by apply emits_WriteFile.
Qed.

End Emits.

(** One step through a program; the conditions on [Q] are taken from the
    context, the conditions on single events are left. *)
Ltac emits :=
  repeat first
    [ apply emits_ret; assumption
    | apply emits_fail; assumption
    | apply emits_lift; assumption
    | apply emits_range; assumption
    | apply emits_bind; [assumption| |intros ?]
    | apply emits_defer; [assumption| |]
    | apply emits_if
    | apply emits_wrap
    | apply emits_Printf
    | apply emits_MkdirAll
    | apply emits_RemoveAll
    | apply emits_Get
    | apply emits_Body_Close
    | apply emits_File_Close
    | apply emits_CreateTemp; intros ?
    | apply emits_Copy
    | apply emits_Remove
    | apply emits_Run
    | apply emits_WriteFile ].

Section InstallEvents.
Context (h : Host).

Lemma at_create_trace url w :
  trace (at_create url w) = trace w ++ [EvPrintf (downloading url); EvGet url].
Proof. unfold at_create, at_get. simpl. by rewrite <- app_assoc. Qed.

Lemma copied_trace tmp_file body w :
  trace (copied tmp_file body w) = trace w ++ [EvCopy tmp_file].
Proof. reflexivity. Qed.

(** The events of [installTool], by the place where it returns. *)
Lemma installTool_events url install_dir w :
  exists events,
    trace (installTool h url install_dir w).2 = trace w ++ events
    /\ (events = [EvPrintf (downloading url); EvGet url]
        \/ events = [EvPrintf (downloading url); EvGet url; EvBodyClose url]
        \/ events = [EvPrintf (downloading url); EvGet url;
                     EvCreateTemp "" scratch_pattern ""; EvBodyClose url]
        \/ exists tmp_file middle,
             events = [EvPrintf (downloading url); EvGet url;
                       EvCreateTemp "" scratch_pattern tmp_file;
                       EvPrintf (creating tmp_file); EvCopy tmp_file]
                      ++ middle
                      ++ [EvClose tmp_file; EvRemove tmp_file;
                          EvPrintf (removing tmp_file); EvBodyClose url]
             /\ (middle = []
                 \/ exists s, middle = [EvRun (tar_argv s tmp_file install_dir)])).
Proof.
  destruct (host_Get h (at_get url w) url) as [response|e] eqn:Hget.
  2:{ rewrite (installTool_transport_error h url install_dir w e Hget).
      eexists. split; [apply at_create_trace|]. by left. }
  destruct (decide (StatusCode response = 200%Z)) as [Hs|Hs].
  2:{ rewrite (installTool_bad_status h url install_dir w response Hget Hs).
      eexists. split; [|right; left; reflexivity].
      simpl. by rewrite <- !app_assoc. }
  destruct (host_CreateTemp h (at_create url w) "" scratch_pattern)
    as [tmp_file|e] eqn:Htmp.
  2:{ rewrite (installTool_no_scratch h url install_dir w response e Hget Hs Htmp).
      eexists. split; [|right; right; left; reflexivity].
      simpl. by rewrite <- !app_assoc. }
  rewrite (installTool_scratch h url install_dir w response tmp_file Hget Hs Htmp).
  cbn [snd]. rewrite release_trace.
  destruct (host_Copy h (created url tmp_file w) tmp_file (Body response))
    as [[n e]|] eqn:Hcopy.
  - destruct (unpack_copy_failed h url install_dir tmp_file (Body response)
                (created url tmp_file w) n e Hcopy) as (w1 & -> & Ht).
    cbn [snd]. rewrite Ht, created_trace.
    eexists. split; [|right; right; right; exists tmp_file, []; split;
                      [reflexivity|by left]].
    simpl. by rewrite <- !app_assoc.
  - rewrite (unpack_dispatch h url install_dir tmp_file (Body response)
               (created url tmp_file w) Hcopy).
    destruct (spec_strategy (filepath.Ext url)) as [s|].
    + rewrite exec_Run_trace, copied_trace, created_trace.
      eexists. split; [|right; right; right;
                        exists tmp_file, [EvRun (tar_argv s tmp_file install_dir)];
                        split; [reflexivity|right; by exists s]].
      simpl. by rewrite <- !app_assoc.
    + cbn [snd]. rewrite copied_trace, created_trace.
      eexists. split; [|right; right; right; exists tmp_file, []; split;
                        [reflexivity|by left]].
      simpl. by rewrite <- !app_assoc.
Qed.

End InstallEvents.

Module TidyFacts.

Lemma tidy_nil env_name : tidy env_name [].
Proof. intros e He. by apply elem_of_nil in He. Qed.

Lemma tidy_event_mono env_name a b e :
  a ⊆ b -> tidy_event env_name a e -> tidy_event env_name b e.
Proof.
  intros Hab. destruct e; simpl; try done.
  - intros Hin. by apply Hab.
  - intros (s & archive & install_dir & -> & Hin).
    exists s, archive, install_dir. split; [done|]. by apply Hab.
Qed.

Lemma tidy_app env_name a b :
  tidy env_name a -> tidy env_name b -> tidy env_name (a ++ b).
Proof.
  intros Ha Hb e He. apply elem_of_app in He as [He|He].
  - eapply tidy_event_mono; [|by apply Ha].
    intros x Hx. apply elem_of_app. by left.
  - eapply tidy_event_mono; [|by apply Hb].
    intros x Hx. apply elem_of_app. by right.
Qed.

(** An event that is tidy whatever the other events are. *)
Lemma tidy_one env_name e : tidy_event env_name [] e -> tidy env_name [e].
Proof.
  intros He e' Hin. apply list_elem_of_singleton in Hin as ->.
  eapply tidy_event_mono; [|exact He]. intros x Hx. by apply elem_of_nil in Hx.
Qed.

Lemma tidy_installTool h env_name url install_dir :
  emits (tidy env_name) (installTool h url install_dir).
Proof.
  intros w. destruct (installTool_events h url install_dir w)
    as (events & Ht & Hcases).
  exists events. split; [done|]. clear Ht.
  destruct Hcases as [->|[->|[->|(tmp_file & middle & -> & Hm)]]].
  - intros e He. repeat (apply elem_of_cons in He as [->|He]); try done.
    by apply elem_of_nil in He.
  - intros e He. repeat (apply elem_of_cons in He as [->|He]); try done.
    by apply elem_of_nil in He.
  - intros e He. repeat (apply elem_of_cons in He as [->|He]); try done.
    by apply elem_of_nil in He.
  - assert (Hmade : EvCreateTemp "" scratch_pattern tmp_file
                    ∈ [EvPrintf (downloading url); EvGet url;
                       EvCreateTemp "" scratch_pattern tmp_file;
                       EvPrintf (creating tmp_file); EvCopy tmp_file]
                      ++ middle
                      ++ [EvClose tmp_file; EvRemove tmp_file;
                          EvPrintf (removing tmp_file); EvBodyClose url]).
    { apply elem_of_app. left. in_list. }
    intros e He. apply elem_of_app in He as [He|He].
    { repeat (apply elem_of_cons in He as [->|He]); try done.
      by apply elem_of_nil in He. }
    apply elem_of_app in He as [He|He].
    { destruct Hm as [->|[s ->]]; [by apply elem_of_nil in He|].
      apply list_elem_of_singleton in He as ->.
      by exists s, tmp_file, install_dir. }
    repeat (apply elem_of_cons in He as [->|He]); try done.
    by apply elem_of_nil in He.
Qed.

Lemma tidy_setup_tool h env_name storage_dir tool :
  emits (tidy env_name) (setup_tool h storage_dir tool).
Proof.
  pose proof (tidy_nil env_name) as Hnil.
  pose proof (tidy_app env_name) as Happ.
  unfold setup_tool. destruct (normalizeSystem h (Normalization tool)) as [os_name arch].
  apply emits_bind; try assumption; [by apply emits_wrap, emits_lift|]. intros url.
  apply emits_bind; try assumption.
  { apply emits_wrap, emits_MkdirAll. by apply tidy_one. }
  intros _. apply emits_bind; try assumption.
  { apply emits_Printf. by apply tidy_one. }
  intros _. apply emits_bind; try assumption.
  { apply emits_wrap, tidy_installTool. }
  intros _. apply emits_Printf. by apply tidy_one.
Qed.

End TidyFacts.

(** X7.  Whatever the host answers and however the run ends, the calls of
    a run stay within what the program owns: the only file it opens is the
    manifest, the only tree it removes is the storage directory of the
    environment, the only files it removes are scratch files it created
    itself during the run, the only command it runs is [tar] on such a
    scratch file, and the only file it writes is the activation script. *)
Theorem setup_keeps_to_its_own_files :
  forall (h : Host) (env_name : string) (w : World),
    exists events,
      trace (setup h env_name w).2 = trace w ++ events
      /\ tidy env_name events.
Proof.
  intros h env_name.
  pose proof (TidyFacts.tidy_nil env_name) as Hnil.
  pose proof (TidyFacts.tidy_app env_name) as Happ.
  change (emits (tidy env_name) (setup h env_name)).
  unfold setup. apply emits_bind; try assumption.
  { apply emits_loadEnv; try assumption; by apply TidyFacts.tidy_one. }
  intros config. apply emits_bind; try assumption.
  { apply emits_wrap, emits_MkdirAll. by apply TidyFacts.tidy_one. }
  intros _. apply emits_bind; try assumption.
  { apply emits_wrap, emits_RemoveAll. by apply TidyFacts.tidy_one. }
  intros _. apply emits_bind; try assumption.
  { apply emits_for_each; try assumption. intros tool.
    apply TidyFacts.tidy_setup_tool. }
  intros _. apply emits_bind; try assumption.
  { apply emits_generateActivationScript; try assumption.
    intros data. by apply TidyFacts.tidy_one. }
  intros _. apply emits_bind; try assumption.
  { apply emits_Printf. by apply TidyFacts.tidy_one. }
  intros _. apply emits_Printf. by apply TidyFacts.tidy_one.
Qed.

Module WriteFacts.

Lemma never_writes_nil : never_writes [].
Proof. intros path data He. by apply elem_of_nil in He. Qed.

Lemma never_writes_app a b :
  never_writes a -> never_writes b -> never_writes (a ++ b).
Proof.
  intros Ha Hb path data He. apply elem_of_app in He as [He|He].
  - by apply (Ha path data).
  - by apply (Hb path data).
Qed.

Lemma never_writes_one e :
  (forall path data, e <> EvWriteFile path data) -> never_writes [e].
Proof.
  intros Hne path data He. apply list_elem_of_singleton in He.
  by apply (Hne path data).
Qed.

Lemma never_writes_installTool h url install_dir :
  emits never_writes (installTool h url install_dir).
Proof.
  pose proof never_writes_nil as Hnil. pose proof never_writes_app as Happ.
  unfold installTool, extractTarGz, extractTarXz. emits.
  all: by apply never_writes_one.
Qed.

Lemma never_writes_setup_tool h storage_dir tool :
  emits never_writes (setup_tool h storage_dir tool).
Proof.
  pose proof never_writes_nil as Hnil. pose proof never_writes_app as Happ.
  unfold setup_tool. destruct (normalizeSystem h (Normalization tool)) as [os_name arch].
  apply emits_bind; [assumption|emits|intros url].
  apply emits_bind; [assumption|emits; by apply never_writes_one|intros _].
  apply emits_bind; [assumption|emits; by apply never_writes_one|intros _].
  apply emits_bind; [assumption| |intros _].
  - apply emits_wrap, never_writes_installTool.
  - emits. by apply never_writes_one.
Qed.

Lemma never_writes_before_the_script h env_name tools :
  emits never_writes
    (prepare h env_name ;;
     for_each tools (setup_tool h (filepath.Join [env_name; "storage"])))%prog.
Proof.
  pose proof never_writes_nil as Hnil. pose proof never_writes_app as Happ.
  apply emits_bind; [assumption| |intros _].
  - unfold prepare. emits; by apply never_writes_one.
  - apply emits_for_each; [assumption..|]. intros tool.
    apply never_writes_setup_tool.
Qed.

Lemma never_writes_loadEnv h : emits never_writes (loadEnv h).
Proof.
  apply emits_loadEnv; [apply never_writes_app|by apply never_writes_one..].
Qed.

(** An error of [setup_tool] is wrapped with the step that failed. *)
Lemma setup_tool_error h storage_dir tool w e w' :
  setup_tool h storage_dir tool w = (Err e, w') ->
  exists cause,
    e = Wrapped "failed to build the tool URL" cause
    \/ e = Wrapped "failed to create installation directory" cause
    \/ e = Wrapped ("failed to download and extract " +:+ Name tool) cause.
Proof.
  unfold setup_tool. destruct (normalizeSystem h (Normalization tool)) as [os_name arch].
  rewrite bind_apply. unfold wrap at 1, lift.
  destruct (buildURL h (URL tool) (Version tool) os_name arch) as [url|e0].
  2:{ intros [= <- <-]. exists e0. by left. }
  rewrite bind_apply. unfold wrap at 1.
  destruct (os_MkdirAll h _ w) as [[[]|e1] w1].
  2:{ intros [= <- <-]. exists e1. right. by left. }
  rewrite bind_apply. unfold Printf at 1. rewrite bind_apply. unfold wrap.
  destruct (installTool h url _ _) as [[[]|e2] w2].
  - unfold Printf. intros [=].
  - intros [= <- <-]. exists e2. right. by right.
Qed.

End WriteFacts.

(** X8.  The tools are handled in the order of the manifest and the first
    one that fails ends the run: the error is the one of that tool, wrapped
    with the step that failed, the world is the one that tool left, so
    nothing is done for the tools after it, and the activation script is
    not written (no file was written since the run began). *)
Theorem setup_stops_at_the_first_failing_tool :
  forall (h : Host) (env_name : string) (w w0 w2 w3 : World) (config : Config)
         (before after : list Tool) (tool : Tool) (e : error),
    loadEnv h w = (Ok config, w0) ->
    Tools config = before ++ tool :: after ->
    (prepare h env_name ;;
     for_each before (setup_tool h (filepath.Join [env_name; "storage"])))%prog w0
    = (Ok tt, w2) ->
    setup_tool h (filepath.Join [env_name; "storage"]) tool w2 = (Err e, w3) ->
    setup h env_name w = (Err e, w3)
    /\ (exists cause,
          e = Wrapped "failed to build the tool URL" cause
          \/ e = Wrapped "failed to create installation directory" cause
          \/ e = Wrapped ("failed to download and extract " +:+ Name tool) cause)
    /\ exists events, trace w3 = trace w ++ events /\ never_writes events.
Proof.
  intros h env_name w w0 w2 w3 config before after tool e Hload Htools Hbefore Htool.
  split; [|split].
  - rewrite setup_unfold, Hload, Htools.
    rewrite bind_apply in Hbefore.
    destruct (prepare h env_name w0) as [[[]|e1] w1]; [|done].
    rewrite for_each_app, Hbefore, for_each_cons, bind_apply. by rewrite Htool.
  - by eapply WriteFacts.setup_tool_error.
  - destruct (WriteFacts.never_writes_loadEnv h w) as (ev0 & Ht0 & Hq0).
    destruct (WriteFacts.never_writes_before_the_script h env_name before w0)
      as (ev1 & Ht1 & Hq1).
    destruct (WriteFacts.never_writes_setup_tool h
                (filepath.Join [env_name; "storage"]) tool w2) as (ev2 & Ht2 & Hq2).
    rewrite Hload in Ht0. rewrite Hbefore in Ht1. rewrite Htool in Ht2.
    simpl in Ht0, Ht1, Ht2.
    exists (ev0 ++ ev1 ++ ev2). split.
    + by rewrite Ht2, Ht1, Ht0, <- !app_assoc.
    + by repeat apply WriteFacts.never_writes_app.
Qed.

Lemma setup_stops_at_the_first_failing_tool_witness :
  let host :=
    faulty_host {| Tools := [go_tool; node_tool; go_tool] |}
      (fun c => match c with
                | CallGet url =>
                    if Str.eqb url "https://golang.org/dl/go1.25.0.linux-amd64.tar.gz"
                    then None else Some (Foreign "connection refused")
                | _ => None
                end) in
  let w0 := log (EvClose "toolenv.yml") (log (EvOpen "toolenv.yml") stale_world) in
  let w2 := ((prepare host "env" ;;
              for_each [go_tool] (setup_tool host "env/storage"))%prog w0).2 in
  let w3 := (setup_tool host "env/storage" node_tool w2).2 in
  setup host "env" stale_world
  = (Err (Wrapped "failed to download and extract node" (Foreign "connection refused")),
     w3)
  /\ (exists cause,
        Wrapped "failed to download and extract node" (Foreign "connection refused")
        = Wrapped "failed to build the tool URL" cause
        \/ Wrapped "failed to download and extract node" (Foreign "connection refused")
           = Wrapped "failed to create installation directory" cause
        \/ Wrapped "failed to download and extract node" (Foreign "connection refused")
           = Wrapped ("failed to download and extract " +:+ Name node_tool) cause)
  /\ exists events, trace w3 = trace stale_world ++ events /\ never_writes events.
Proof.
  intros host w0 w2 w3.
  refine (setup_stops_at_the_first_failing_tool host "env" stale_world w0 w2 w3
            {| Tools := [go_tool; node_tool; go_tool] |} [go_tool] [go_tool] node_tool
            (Wrapped "failed to download and extract node" (Foreign "connection refused"))
            _ _ _ _).
  - reflexivity.
  - reflexivity.
  - vm_compute. reflexivity.
  - vm_compute. reflexivity.
Defined.

(** ** The ways [installTool] returns *)

(** X9.  A download that fails before a scratch file exists leaves the
    file system as it was.  When the request itself fails its error is
    returned as it is, and no response body is closed, as there is none;
    when the scratch file cannot be created the error is returned as it is
    and the body of the response is closed. *)
Theorem installTool_fails_before_the_scratch_file :
  forall (h : Host) (url install_dir : string) (w : World),
    (forall e,
       host_Get h (at_get url w) url = Err e ->
       exists w',
         installTool h url install_dir w = (Err e, w')
         /\ trace w' = trace w ++ [EvPrintf (downloading url); EvGet url]
         /\ fs w' = fs w)
    /\ (forall response e,
          host_Get h (at_get url w) url = Ok response ->
          StatusCode response = 200%Z ->
          host_CreateTemp h (at_create url w) "" scratch_pattern = Err e ->
          exists w',
            installTool h url install_dir w = (Err e, w')
            /\ trace w' = trace w ++ [EvPrintf (downloading url); EvGet url;
                                      EvCreateTemp "" scratch_pattern "";
                                      EvBodyClose url]
            /\ fs w' = fs w).
Proof.
  intros h url install_dir w. split.
  - intros e Hget. eexists. split; [by apply installTool_transport_error|].
    split; [apply at_create_trace|reflexivity].
  - intros response e Hget Hs Htmp. eexists.
    split; [by eapply installTool_no_scratch|].
    split; [|reflexivity]. simpl. by rewrite <- !app_assoc.
Qed.

Lemma installTool_fails_before_the_scratch_file_witness :
  let offline :=
    faulty_host {| Tools := [] |}
      (fun c => match c with
                | CallGet _ => Some (Foreign "no such host")
                | _ => None
                end) in
  let full :=
    faulty_host {| Tools := [] |}
      (fun c => match c with
                | CallCreateTemp => Some (Foreign "no space left on device")
                | _ => None
                end) in
  (exists w',
     installTool offline "https://x/a.tgz" "env/storage/a@1" stale_world
     = (Err (Foreign "no such host"), w')
     /\ trace w' = trace stale_world
                   ++ [EvPrintf (downloading "https://x/a.tgz"); EvGet "https://x/a.tgz"]
     /\ fs w' = fs stale_world)
  /\ (exists w',
        installTool full "https://x/a.tgz" "env/storage/a@1" stale_world
        = (Err (Foreign "no space left on device"), w')
        /\ trace w' = trace stale_world
                      ++ [EvPrintf (downloading "https://x/a.tgz");
                          EvGet "https://x/a.tgz";
                          EvCreateTemp "" scratch_pattern "";
                          EvBodyClose "https://x/a.tgz"]
        /\ fs w' = fs stale_world).
Proof.
  intros offline full. split.
  - refine (proj1 (installTool_fails_before_the_scratch_file offline "https://x/a.tgz"
                     "env/storage/a@1" stale_world)
              (Foreign "no such host") _).
    reflexivity.
  - refine (proj2 (installTool_fails_before_the_scratch_file full "https://x/a.tgz"
                     "env/storage/a@1" stale_world)
              {| Status := "200 OK"; StatusCode := 200; Body := "archive" |}
              (Foreign "no space left on device") _ _ _).
    + reflexivity.
    + reflexivity.
    + reflexivity.
Defined.

Module CleanupFacts.

Lemma delete_scratch (tmp_file a b : string) (m : gmap string string) :
  delete tmp_file (<[tmp_file := a]> (<[tmp_file := b]> m)) = delete tmp_file m.
Proof.
  apply map_eq. intros p. destruct (decide (p = tmp_file)) as [->|Hne].
  - by rewrite !lookup_delete_eq.
  - by rewrite !lookup_delete_ne, !lookup_insert_ne.
Qed.

Lemma delete_unpacked (tmp_file a b : string) (new m : gmap string string) :
  delete tmp_file (new ∪ <[tmp_file := a]> (<[tmp_file := b]> m))
  = delete tmp_file (new ∪ m).
Proof.
  apply map_eq. intros p. destruct (decide (p = tmp_file)) as [->|Hne].
  - by rewrite !lookup_delete_eq.
  - rewrite !lookup_delete_ne by done.
    destruct (new !! p) as [x|] eqn:Hp.
    + by rewrite !(lookup_union_Some_l _ _ _ _ Hp).
    + by rewrite !lookup_union_r, !lookup_insert_ne.
Qed.

End CleanupFacts.

(** X10.  When copying the body to the scratch file fails, [installTool]
    returns that error without running any command, and still closes and
    removes the scratch file and closes the body: the directories are those
    from before the call, and once the removal has succeeded so are the
    files, the bytes already copied included. *)
Theorem installTool_cleans_up_a_failed_copy :
  forall (h : Host) (url install_dir : string) (w : World)
         (response : Response) (tmp_file : string) (n : nat) (e : error),
    host_Get h (at_get url w) url = Ok response ->
    StatusCode response = 200%Z ->
    host_CreateTemp h (at_create url w) "" scratch_pattern = Ok tmp_file ->
    host_Copy h (created url tmp_file w) tmp_file (Body response) = Some (n, e) ->
    exists w',
      installTool h url install_dir w = (Err e, w')
      /\ trace w' = trace w ++ [EvPrintf (downloading url); EvGet url;
                                EvCreateTemp "" scratch_pattern tmp_file;
                                EvPrintf (creating tmp_file); EvCopy tmp_file;
                                EvClose tmp_file; EvRemove tmp_file;
                                EvPrintf (removing tmp_file); EvBodyClose url]
      /\ dirs (fs w') = dirs (fs w)
      /\ (host_Remove h
            (log (EvClose tmp_file)
               (partly_copied tmp_file (Body response) n (created url tmp_file w)))
            tmp_file = None ->
          files (fs w') = delete tmp_file (files (fs w))).
Proof.
  intros h url install_dir w response tmp_file n e Hget Hs Htmp Hcopy.
  rewrite (installTool_scratch h url install_dir w response tmp_file Hget Hs Htmp).
  assert (Hu : unpack h url install_dir tmp_file (Body response) (created url tmp_file w)
               = (Err e, partly_copied tmp_file (Body response) n
                           (created url tmp_file w))).
  { unfold unpack. rewrite bind_apply. unfold io_Copy. by rewrite Hcopy. }
  rewrite Hu. cbn [fst snd]. eexists. split; [reflexivity|].
  split; [|split].
  - rewrite release_trace. unfold partly_copied. simpl. by rewrite <- !app_assoc.
  - by rewrite release_dirs.
  - intros Hrm. rewrite release_files by done.
    unfold partly_copied. simpl. apply CleanupFacts.delete_scratch.
Qed.

Lemma installTool_cleans_up_a_failed_copy_witness :
  let host :=
    faulty_host {| Tools := [] |}
      (fun c => match c with
                | CallCopy _ => Some (Foreign "unexpected EOF")
                | _ => None
                end) in
  exists w',
    installTool host "https://x/a.tgz" "env/storage/a@1" stale_world
    = (Err (Foreign "unexpected EOF"), w')
    /\ trace w' = trace stale_world
                  ++ [EvPrintf (downloading "https://x/a.tgz"); EvGet "https://x/a.tgz";
                      EvCreateTemp "" scratch_pattern "/tmp/toolenv-download-1";
                      EvPrintf (creating "/tmp/toolenv-download-1");
                      EvCopy "/tmp/toolenv-download-1";
                      EvClose "/tmp/toolenv-download-1";
                      EvRemove "/tmp/toolenv-download-1";
                      EvPrintf (removing "/tmp/toolenv-download-1");
                      EvBodyClose "https://x/a.tgz"]
    /\ dirs (fs w') = dirs (fs stale_world)
    /\ (host_Remove host
          (log (EvClose "/tmp/toolenv-download-1")
             (partly_copied "/tmp/toolenv-download-1" "archive" 3
                (created "https://x/a.tgz" "/tmp/toolenv-download-1" stale_world)))
          "/tmp/toolenv-download-1" = None ->
        files (fs w') = delete "/tmp/toolenv-download-1" (files (fs stale_world))).
Proof.
  intros host.
  refine (installTool_cleans_up_a_failed_copy host "https://x/a.tgz"
            "env/storage/a@1" stale_world
            {| Status := "200 OK"; StatusCode := 200; Body := "archive" |}
            "/tmp/toolenv-download-1" 3 (Foreign "unexpected EOF") _ _ _ _).
  - reflexivity.
  - reflexivity.
  - reflexivity.
  - reflexivity.
Defined.

(** X11.  When the archive is unpacked, the deferred calls take nothing
    away but the scratch file: after [installTool] the directories are the
    old ones and those [tar] made, and the files are the old ones and those
    [tar] wrote, except the file at the path of the scratch file.  This
    holds as well when [tar] fails: what it unpacked before failing
    stays. *)
Theorem installTool_keeps_what_tar_unpacked :
  forall (h : Host) (url install_dir : string) (w : World)
         (response : Response) (tmp_file : string) (s : Strategy),
    host_Get h (at_get url w) url = Ok response ->
    StatusCode response = 200%Z ->
    host_CreateTemp h (at_create url w) "" scratch_pattern = Ok tmp_file ->
    host_Copy h (created url tmp_file w) tmp_file (Body response) = None ->
    spec_strategy (filepath.Ext url) = Some s ->
    let wc := copied tmp_file (Body response) (created url tmp_file w) in
    let argv := tar_argv s tmp_file install_dir in
    host_Remove h (log (EvClose tmp_file) (exec_Run h argv wc).2) tmp_file = None ->
    let w' := (installTool h url install_dir w).2 in
    dirs (fs w') = (host_Run h wc argv).1.1 ∪ dirs (fs w)
    /\ files (fs w') = delete tmp_file ((host_Run h wc argv).1.2 ∪ files (fs w)).
Proof.
  intros h url install_dir w response tmp_file s Hget Hs Htmp Hcopy Hext wc argv Hrm w'.
  subst w'.
  rewrite (installTool_scratch h url install_dir w response tmp_file Hget Hs Htmp).
  rewrite (unpack_dispatch h url install_dir tmp_file (Body response)
             (created url tmp_file w) Hcopy), Hext.
  fold wc argv. cbn [snd]. rewrite release_dirs, release_files by done.
  unfold exec_Run. destruct (host_Run h wc argv) as [[new_dirs new_files] err].
  split.
  - by destruct err.
  - destruct err; simpl; apply CleanupFacts.delete_unpacked.
Qed.

Lemma installTool_keeps_what_tar_unpacked_witness :
  let host :=
    faulty_host {| Tools := [] |}
      (fun c => match c with
                | CallRun _ => Some (Foreign "exit status 2")
                | _ => None
                end) in
  let w' := (installTool host "https://x/a.tgz" "env/storage/a@1" stale_world).2 in
  let wc := copied "/tmp/toolenv-download-1" "archive"
              (created "https://x/a.tgz" "/tmp/toolenv-download-1" stale_world) in
  let argv := tar_argv GzipTar "/tmp/toolenv-download-1" "env/storage/a@1" in
  dirs (fs w') = (host_Run host wc argv).1.1 ∪ dirs (fs stale_world)
  /\ files (fs w')
     = delete "/tmp/toolenv-download-1"
         ((host_Run host wc argv).1.2 ∪ files (fs stale_world)).
Proof.
  intros host.
  refine (installTool_keeps_what_tar_unpacked host "https://x/a.tgz"
            "env/storage/a@1" stale_world
            {| Status := "200 OK"; StatusCode := 200; Body := "archive" |}
            "/tmp/toolenv-download-1" GzipTar _ _ _ _ _ _).
  - reflexivity.
  - reflexivity.
  - reflexivity.
  - reflexivity.
  - reflexivity.
  - reflexivity.
Defined.

(** ** The extension of a URL *)

Module ExtFacts.

Lemma Ext_front_no_dot (s : string) :
  Str.contains "." s = false -> filepath.Ext_front s = "".
Proof.
  induction s as [|c s IH]; [done|].
  rewrite LineFacts.contains_cons. destruct (Ascii.eqb "." c) eqn:Hc; [done|].
  intros Hs. simpl. rewrite IH by done.
  rewrite Ascii.eqb_sym in Hc. by rewrite Hc.
Qed.

(** A dot and a last element without dot or separator. *)
Lemma Ext_suffix (front suffix : string) :
  Str.contains "/" suffix = false -> Str.contains "." suffix = false ->
  filepath.Ext (front +:+ "." +:+ suffix) = "." +:+ suffix.
Proof.
  intros Hsep Hdot.
  assert (He : filepath.Ext ("." +:+ suffix) = "." +:+ suffix).
  { rewrite StrFacts.Ext_front_eq.
    change ("." +:+ suffix) with (String "." suffix).
    simpl. rewrite Ext_front_no_dot by done. by rewrite Hsep. }
  rewrite StrFacts.Ext_app; [done|]. rewrite He. discriminate.
Qed.

(** A separator and a last element without dot. *)
Lemma Ext_no_suffix (front last : string) :
  Str.contains "." last = false ->
  filepath.Ext (front +:+ "/" +:+ last) = "".
Proof.
  intros Hdot. rewrite StrFacts.Ext_front_eq.
  induction front as [|c front IH].
  - change ("" +:+ "/" +:+ last) with (String "/" last).
    simpl. by rewrite Ext_front_no_dot.
  - rewrite StrFacts.app_cons. simpl. rewrite IH.
    rewrite LineFacts.contains_app.
    change (Str.contains "/" ("/" +:+ last)) with true.
    by rewrite orb_true_r, andb_false_r.
Qed.

End ExtFacts.

(** X12.  The archive format is read from the bytes after the last dot of
    the last element of the URL, and compared as they are.  So a URL whose
    suffix is none of [gz], [tgz] and [xz] byte for byte (upper case, or
    followed by a query) is refused with that suffix in the error, and a
    URL whose last element has no dot is refused with an empty extension,
    both after the download and without any command being run. *)
Theorem installTool_refuses_other_suffixes :
  forall (h : Host) (front install_dir : string) (w : World)
         (response : Response) (tmp_file : string),
    (forall suffix url,
       Str.contains "/" suffix = false ->
       Str.contains "." suffix = false ->
       suffix ∉ ["gz"; "tgz"; "xz"] ->
       url = front +:+ "." +:+ suffix ->
       host_Get h (at_get url w) url = Ok response ->
       StatusCode response = 200%Z ->
       host_CreateTemp h (at_create url w) "" scratch_pattern = Ok tmp_file ->
       host_Copy h (created url tmp_file w) tmp_file (Body response) = None ->
       (installTool h url install_dir w).1
       = Err (UnsupportedArchiveFormat ("." +:+ suffix)))
    /\ (forall last url,
          Str.contains "." last = false ->
          url = front +:+ "/" +:+ last ->
          host_Get h (at_get url w) url = Ok response ->
          StatusCode response = 200%Z ->
          host_CreateTemp h (at_create url w) "" scratch_pattern = Ok tmp_file ->
          host_Copy h (created url tmp_file w) tmp_file (Body response) = None ->
          (installTool h url install_dir w).1 = Err (UnsupportedArchiveFormat "")).
Proof.
  intros h front install_dir w response tmp_file. split.
  - intros suffix url Hsep Hdot Hother -> Hget Hs Htmp Hcopy.
    rewrite (installTool_scratch h _ install_dir w response tmp_file Hget Hs Htmp).
    rewrite (unpack_dispatch h _ install_dir tmp_file (Body response) _ Hcopy).
    rewrite ExtFacts.Ext_suffix by done.
    assert (Hnone : spec_strategy ("." +:+ suffix) = None).
    { unfold spec_strategy.
      rewrite !not_elem_of_cons in Hother. destruct Hother as (H1 & H2 & H3 & _).
      rewrite !bool_decide_eq_false_2; [done|..].
      - intros [= E]. by apply H3.
      - intros [= E]. by apply H1.
      - intros [= E]. by apply H2. }
    by rewrite Hnone.
  - intros last url Hdot -> Hget Hs Htmp Hcopy.
    rewrite (installTool_scratch h _ install_dir w response tmp_file Hget Hs Htmp).
    rewrite (unpack_dispatch h _ install_dir tmp_file (Body response) _ Hcopy).
    by rewrite ExtFacts.Ext_no_suffix.
Qed.

Lemma installTool_refuses_other_suffixes_witness :
  (installTool (sample_host {| Tools := [] |} 200)
     ("https://x/v1.0" +:+ "." +:+ "TGZ") "env/storage/tool@1.0" empty_world).1
  = Err (UnsupportedArchiveFormat ("." +:+ "TGZ"))
  /\ (installTool (sample_host {| Tools := [] |} 200)
        ("https://x/v1.0" +:+ "/" +:+ "download") "env/storage/tool@1.0" empty_world).1
     = Err (UnsupportedArchiveFormat "").
Proof.
  split.
  - refine (proj1 (installTool_refuses_other_suffixes
                     (sample_host {| Tools := [] |} 200)
                     "https://x/v1.0" "env/storage/tool@1.0" empty_world
                     {| Status := "status"; StatusCode := 200; Body := "archive" |}
                     "/tmp/toolenv-download-1")
              "TGZ" ("https://x/v1.0" +:+ "." +:+ "TGZ") _ _ _ _ _ _ _ _).
    + reflexivity.
    + reflexivity.
    + rewrite !not_elem_of_cons. repeat split; try discriminate.
      apply not_elem_of_nil.
    + reflexivity.
    + reflexivity.
    + reflexivity.
    + reflexivity.
    + reflexivity.
  - refine (proj2 (installTool_refuses_other_suffixes
                     (sample_host {| Tools := [] |} 200)
                     "https://x/v1.0" "env/storage/tool@1.0" empty_world
                     {| Status := "status"; StatusCode := 200; Body := "archive" |}
                     "/tmp/toolenv-download-1")
              "download" ("https://x/v1.0" +:+ "/" +:+ "download") _ _ _ _ _ _).
    + reflexivity.
    + reflexivity.
    + reflexivity.
    + reflexivity.
    + reflexivity.
    + reflexivity.
Defined.

(** ** One tool of the manifest *)

Module ToolFacts.

Lemma prefixes_from_last (done todo : string) :
  done +:+ todo ∈ filepath.prefixes_from done todo.
Proof.
  revert done. induction todo as [|c todo IH]; intros done.
  - rewrite StrFacts.app_nil_r. simpl. apply elem_of_cons. by left.
  - rewrite PathFacts.prefixes_from_cons.
    assert (Hin : done +:+ String c todo
                  ∈ filepath.prefixes_from (done +:+ String c "") todo).
    { specialize (IH (done +:+ String c "")).
      by rewrite StrFacts.app_assoc in IH. }
    destruct (_ && _); [apply elem_of_cons; by right|done].
Qed.

(** [os.MkdirAll] makes the directory it is asked for. *)
Lemma MkdirAll_makes h path w :
  host_MkdirAll h w path = None ->
  os_MkdirAll h path w
  = (Ok tt,
     with_fs {| dirs := list_to_set (filepath.prefixes path) ∪ dirs (fs w);
                files := files (fs w) |} (log (EvMkdirAll path) w))
  /\ path ∈ dirs (fs (os_MkdirAll h path w).2).
Proof.
  intros Hm. unfold os_MkdirAll. rewrite Hm. split; [done|].
  simpl. apply elem_of_union_l, elem_of_list_to_set.
  apply (prefixes_from_last "" path).
Qed.

(** [setup_tool] once the URL is resolved. *)
Lemma setup_tool_resolved h storage_dir tool w url :
  resolved_url h tool = Ok url ->
  host_MkdirAll h w (install_dir_of storage_dir tool) = None ->
  setup_tool h storage_dir tool w
  = match installTool h url (install_dir_of storage_dir tool)
            (at_install h storage_dir tool w) with
    | (Ok _, w2) => (Ok tt, log (EvPrintf ("|- Done!" +:+ nl +:+ nl)) w2)
    | (Err e, w2) =>
        (Err (Wrapped ("failed to download and extract " +:+ Name tool) e), w2)
    end.
Proof.
  unfold resolved_url, setup_tool, at_install. intros Hurl Hm.
  destruct (normalizeSystem h (Normalization tool)) as [os_name arch].
  simpl in Hurl. rewrite bind_apply. unfold wrap at 1, lift. rewrite Hurl.
  fold (install_dir_of storage_dir tool).
  rewrite bind_apply. unfold wrap at 1.
  destruct (MkdirAll_makes h _ w Hm) as [-> _]. cbn [snd].
  rewrite bind_apply. unfold Printf at 1. rewrite bind_apply. unfold wrap.
  fold (installing tool). unfold log at 1.
  by destruct (installTool h url _ _) as [[[]|e2] w2].
Qed.

(** The first events of [installTool]. *)
Lemma installTool_starts h url install_dir w :
  exists events,
    trace (installTool h url install_dir w).2
    = trace w ++ [EvPrintf (downloading url); EvGet url] ++ events.
Proof.
  destruct (installTool_events h url install_dir w)
    as (events & Ht & [->|[->|[->|(tmp_file & middle & -> & _)]]]);
    rewrite Ht; eexists; reflexivity.
Qed.

Lemma setup_tool_starts h storage_dir tool w url :
  resolved_url h tool = Ok url ->
  host_MkdirAll h w (install_dir_of storage_dir tool) = None ->
  exists events,
    trace (setup_tool h storage_dir tool w).2
    = trace w ++ [EvMkdirAll (install_dir_of storage_dir tool);
                  EvPrintf (installing tool);
                  EvPrintf (downloading url); EvGet url] ++ events.
Proof.
  intros Hurl Hm. rewrite (setup_tool_resolved h storage_dir tool w url Hurl Hm).
  destruct (installTool_starts h url (install_dir_of storage_dir tool)
              (at_install h storage_dir tool w)) as (events & Ht).
  assert (Ha : trace (at_install h storage_dir tool w)
               = trace w ++ [EvMkdirAll (install_dir_of storage_dir tool);
                             EvPrintf (installing tool)]).
  { unfold at_install. destruct (MkdirAll_makes h _ w Hm) as [-> _].
    simpl. by rewrite <- app_assoc. }
  rewrite Ha in Ht.
  destruct (installTool h url _ _) as [[[]|e] w2]; simpl in *.
  - exists (events ++ [EvPrintf ("|- Done!" +:+ nl +:+ nl)]).
    rewrite Ht. by rewrite <- !app_assoc.
  - exists events. rewrite Ht. by rewrite <- !app_assoc.
Qed.

End ToolFacts.

(** X13.  For a tool whose URL resolves, the install directory is made
    before the download is requested, and it is still there when the tool
    is done, whether the install succeeded or not: a failed install leaves
    its directory behind.  The error of a failed install is wrapped with
    the name of the tool. *)
Theorem failed_install_leaves_its_directory :
  forall (h : Host) (storage_dir : string) (tool : Tool) (w : World) (url : string),
    resolved_url h tool = Ok url ->
    host_MkdirAll h w (install_dir_of storage_dir tool) = None ->
    let install_dir := install_dir_of storage_dir tool in
    install_dir ∈ dirs (fs (setup_tool h storage_dir tool w).2)
    /\ (exists events,
          trace (setup_tool h storage_dir tool w).2
          = trace w ++ [EvMkdirAll install_dir; EvPrintf (installing tool);
                        EvPrintf (downloading url); EvGet url] ++ events)
    /\ (forall cause w',
          installTool h url install_dir (at_install h storage_dir tool w)
          = (Err cause, w') ->
          setup_tool h storage_dir tool w
          = (Err (Wrapped ("failed to download and extract " +:+ Name tool) cause),
             w')).
Proof.
  intros h storage_dir tool w url Hurl Hm install_dir. split; [|split].
  - rewrite (ToolFacts.setup_tool_resolved h storage_dir tool w url Hurl Hm).
    fold install_dir.
    destruct (grows_installTool h url install_dir (at_install h storage_dir tool w))
      as [Hsub _].
    assert (Hin : install_dir ∈ dirs (fs (at_install h storage_dir tool w))).
    { unfold at_install. simpl. by apply ToolFacts.MkdirAll_makes. }
    apply Hsub in Hin.
    by destruct (installTool h url install_dir _) as [[[]|e] w2].
  - by apply ToolFacts.setup_tool_starts.
  - intros cause w' Hi.
    rewrite (ToolFacts.setup_tool_resolved h storage_dir tool w url Hurl Hm).
    fold install_dir. by rewrite Hi.
Qed.

Lemma failed_install_leaves_its_directory_witness :
  let host := sample_host {| Tools := [go_tool] |} 503 in
  let url := "https://golang.org/dl/go1.25.0.linux-amd64.tar.gz" in
  let install_dir := install_dir_of "env/storage" go_tool in
  install_dir ∈ dirs (fs (setup_tool host "env/storage" go_tool empty_world).2)
  /\ (exists events,
        trace (setup_tool host "env/storage" go_tool empty_world).2
        = trace empty_world
          ++ [EvMkdirAll install_dir; EvPrintf (installing go_tool);
              EvPrintf (downloading url); EvGet url] ++ events)
  /\ (forall cause w',
        installTool host url install_dir (at_install host "env/storage" go_tool empty_world)
        = (Err cause, w') ->
        setup_tool host "env/storage" go_tool empty_world
        = (Err (Wrapped ("failed to download and extract " +:+ Name go_tool) cause), w')).
Proof.
  intros host url install_dir.
  refine (failed_install_leaves_its_directory host "env/storage" go_tool empty_world
            url _ _).
  - reflexivity.
  - reflexivity.
Defined.

(** X14.  The platform that reaches the URL is the normalised one: for a
    tool whose URL template uses the field [arch], or the field [os], the
    download is requested from the template with the architecture, or the
    system, that [normalizeSystem] returns for the tool. *)
Theorem download_uses_the_normalised_platform :
  forall (h : Host) (storage_dir : string) (tool : Tool) (w : World)
         (pre post : string),
    Str.contains "{" pre = false ->
    Str.contains "{" post = false ->
    host_MkdirAll h w (install_dir_of storage_dir tool) = None ->
    (URL tool = pre +:+ "{{.arch}}" +:+ post ->
     EvGet (pre +:+ (normalizeSystem h (Normalization tool)).2 +:+ post)
     ∈ trace (setup_tool h storage_dir tool w).2)
    /\ (URL tool = pre +:+ "{{.os}}" +:+ post ->
        EvGet (pre +:+ (normalizeSystem h (Normalization tool)).1 +:+ post)
        ∈ trace (setup_tool h storage_dir tool w).2).
Proof.
  intros h storage_dir tool w pre post Hpre Hpost Hm.
  assert (Hget : forall url,
            resolved_url h tool = Ok url ->
            EvGet url ∈ trace (setup_tool h storage_dir tool w).2).
  { intros url Hurl.
    destruct (ToolFacts.setup_tool_starts h storage_dir tool w url Hurl Hm)
      as (events & ->).
    apply elem_of_app. right. in_list. }
  split; intros HURL; apply Hget; unfold resolved_url; rewrite HURL.
  - exact (FieldFacts.buildURL_one_field h pre "arch" post _ _ _ Hpre Hpost eq_refl).
  - exact (FieldFacts.buildURL_one_field h pre "os" post _ _ _ Hpre Hpost eq_refl).
Qed.

Lemma download_uses_the_normalised_platform_witness :
  let host := sample_host {| Tools := [] |} 200 in
  let node := {| Name := "node"; Version := "22.18.0";
                 URL := "https://nodejs.org/dist/node-" +:+ "{{.arch}}" +:+ ".tar.xz";
                 Env := ∅;
                 Normalization := Some {| Arch := {[ "amd64" := "x64" ]}; OS := ∅ |} |} in
  let zig := {| Name := "zig"; Version := "0.14.0";
                URL := "https://ziglang.org/download/zig-" +:+ "{{.os}}" +:+ ".tar.xz";
                Env := ∅;
                Normalization := Some {| Arch := ∅; OS := {[ "linux" := "Linux" ]} |} |} in
  EvGet ("https://nodejs.org/dist/node-" +:+ "x64" +:+ ".tar.xz")
  ∈ trace (setup_tool host "env/storage" node empty_world).2
  /\ EvGet ("https://ziglang.org/download/zig-" +:+ "Linux" +:+ ".tar.xz")
     ∈ trace (setup_tool host "env/storage" zig empty_world).2.
Proof.
  intros host node zig. split.
  - refine (proj1 (download_uses_the_normalised_platform host "env/storage" node
                     empty_world "https://nodejs.org/dist/node-" ".tar.xz" _ _ _) _).
    + reflexivity.
    + reflexivity.
    + reflexivity.
    + reflexivity.
  - refine (proj2 (download_uses_the_normalised_platform host "env/storage" zig
                     empty_world "https://ziglang.org/download/zig-" ".tar.xz" _ _ _) _).
    + reflexivity.
    + reflexivity.
    + reflexivity.
    + reflexivity.
Defined.

(** ** The install directories of different tools *)

Module DirFacts.

(** A name without [@] and a version can be read back from
    [name@version]. *)
Lemma at_injective (n1 v1 n2 v2 : string) :
  Str.contains "@" n1 = false -> Str.contains "@" n2 = false ->
  n1 +:+ "@" +:+ v1 = n2 +:+ "@" +:+ v2 ->
  n1 = n2 /\ v1 = v2.
Proof.
  revert n2. induction n1 as [|c n1 IH]; intros [|d n2] H1 H2 Heq.
  - change ("" +:+ "@" +:+ v1) with (String "@" v1) in Heq.
    change ("" +:+ "@" +:+ v2) with (String "@" v2) in Heq.
    by injection Heq as ->.
  - change ("" +:+ "@" +:+ v1) with (String "@" v1) in Heq.
    rewrite StrFacts.app_cons in Heq. injection Heq as <- _.
    rewrite LineFacts.contains_cons in H2. discriminate H2.
  - change ("" +:+ "@" +:+ v2) with (String "@" v2) in Heq.
    rewrite StrFacts.app_cons in Heq. injection Heq as -> _.
    rewrite LineFacts.contains_cons in H1. discriminate H1.
  - rewrite !StrFacts.app_cons in Heq. injection Heq as <- Heq.
    rewrite LineFacts.contains_cons in H1, H2.
    destruct (Ascii.eqb "@" c); [discriminate|].
    destruct (IH n2 H1 H2 Heq) as [-> ->]. done.
Qed.

Lemma app_inv_head (p a b : string) : p +:+ a = p +:+ b -> a = b.
Proof.
  induction p as [|c p IH]; [done|].
  rewrite !StrFacts.app_cons. intros [= E]. by apply IH.
Qed.

End DirFacts.

(** X15.  Below [env/storage], two tools get the same install directory
    only if they have the same name and the same version, as long as their
    names hold no [@] and neither name nor version holds a separator.
    Without that the directories can collide: the tool named [n@m] with
    version [v] and the tool named [n] with version [m@v] share one. *)
Theorem install_directories_are_distinct :
  (forall (a b : Tool),
     Str.contains "/" (Name a +:+ "@" +:+ Version a) = false ->
     Str.contains "/" (Name b +:+ "@" +:+ Version b) = false ->
     Str.contains "@" (Name a) = false ->
     Str.contains "@" (Name b) = false ->
     install_dir_of "env/storage" a = install_dir_of "env/storage" b ->
     Name a = Name b /\ Version a = Version b)
  /\ (forall (storage_dir n m v url : string) env norm,
        install_dir_of storage_dir
          {| Name := n +:+ "@" +:+ m; Version := v; URL := url;
             Env := env; Normalization := norm |}
        = install_dir_of storage_dir
            {| Name := n; Version := m +:+ "@" +:+ v; URL := url;
               Env := env; Normalization := norm |}).
Proof.
  split.
  - intros a b Ha Hb Hna Hnb Heq. unfold install_dir_of in Heq.
    destruct (PathFacts.at_is_kept (Name a) (Version a)) as (A1 & A2 & A3).
    destruct (PathFacts.at_is_kept (Name b) (Version b)) as (B1 & B2 & B3).
    rewrite !PathFacts.Join_storage in Heq by done.
    apply DirFacts.app_inv_head in Heq.
    by apply DirFacts.at_injective.
  - intros storage_dir n m v url env norm. unfold install_dir_of. simpl.
    by rewrite StrFacts.app_assoc.
Qed.

Lemma install_directories_are_distinct_witness :
  let mirrored :=
    {| Name := "go"; Version := "1.25.0";
       URL := "https://mirror.example.org/go{{.version}}.{{.os}}-{{.arch}}.tar.gz";
       Env := ∅; Normalization := None |} in
  Name go_tool = Name mirrored /\ Version go_tool = Version mirrored.
Proof.
  intros mirrored.
  refine (proj1 install_directories_are_distinct go_tool mirrored _ _ _ _ _).
  - reflexivity.
  - reflexivity.
  - reflexivity.
  - reflexivity.
  - reflexivity.
Defined.

(** ** A value that cannot be expanded *)

Section BadValue.
Context (h : Host).

Lemma export_loop_world tool entries sb w :
  (fold_each entries (export_entry h tool) sb w).2 = w.
Proof.
  revert sb. induction entries as [|[key value] entries IH]; intros sb; [done|].
  rewrite fold_each_cons, bind_apply, export_entry_eq.
  destruct (expand_value h (Version tool) value); [apply IH|done].
Qed.

Lemma export_loop_error tool entries sb w e w' :
  fold_each entries (export_entry h tool) sb w = (Err e, w') ->
  exists key value,
    (key, value) ∈ entries /\ expand_value h (Version tool) value = Err e.
Proof.
  revert sb. induction entries as [|[key value] entries IH]; intros sb Hrun.
  - discriminate Hrun.
  - rewrite fold_each_cons, bind_apply, export_entry_eq in Hrun.
    destruct (expand_value h (Version tool) value) as [buf|e0] eqn:Hv.
    + apply IH in Hrun as (k & v & Hin & He). exists k, v.
      split; [apply elem_of_cons; by right|done].
    + injection Hrun as <- _. exists key, value.
      split; [apply elem_of_cons; by left|done].
Qed.

Lemma export_loops_world tools sb w :
  exists n,
    (fold_each tools
       (fun sb tool =>
          bind (range_map h (Env tool))
            (fun entries => fold_each entries (export_entry h tool) sb)) sb w).2
    = {| fs := fs w; trace := trace w; seed := n |}.
Proof.
  revert sb w. induction tools as [|tool tools IH]; intros sb w.
  - exists (seed w). by destruct w.
  - rewrite fold_each_cons, !bind_apply. unfold range_map at 1.
    pose proof (export_loop_world tool (host_range h (seed w) (Env tool)) sb
                  {| fs := fs w; trace := trace w; seed := S (seed w) |}) as Hw.
    destruct (fold_each (host_range h (seed w) (Env tool)) _ sb _) as [[sb1|e] w1].
    + simpl in Hw. subst w1.
      exact (IH sb1 {| fs := fs w; trace := trace w; seed := S (seed w) |}).
    + simpl in Hw. subst w1. by exists (S (seed w)).
Qed.

Lemma export_loops_error tools sb w e w' :
  fold_each tools
    (fun sb tool =>
       bind (range_map h (Env tool))
         (fun entries => fold_each entries (export_entry h tool) sb)) sb w
  = (Err e, w') ->
  exists tool key value,
    tool ∈ tools /\ Env tool !! key = Some value
    /\ expand_value h (Version tool) value = Err e.
Proof.
  revert sb w. induction tools as [|tool tools IH]; intros sb w Hrun.
  - discriminate Hrun.
  - rewrite fold_each_cons, !bind_apply in Hrun. unfold range_map at 1 in Hrun.
    destruct (fold_each (host_range h (seed w) (Env tool)) _ sb _)
      as [[sb1|e1] w1] eqn:Hinner.
    + apply IH in Hrun as (t & k & v & Hin & Hl & He). exists t, k, v.
      split; [apply elem_of_cons; by right|done].
    + injection Hrun as <- _.
      apply export_loop_error in Hinner as (k & v & Hin & He).
      exists tool, k, v. split; [apply elem_of_cons; by left|].
      split; [|done]. by apply (ManifestFacts.range_lookup h (seed w)).
Qed.

(** One value that cannot be expanded stops the first loop of
    [generateActivationScript]. *)
Lemma export_loops_bad_value tools sb w tool key value :
  tool ∈ tools ->
  Env tool !! key = Some value ->
  is_ok (expand_value h (Version tool) value) = false ->
  exists e w',
    fold_each tools
      (fun sb tool =>
         bind (range_map h (Env tool))
           (fun entries => fold_each entries (export_entry h tool) sb)) sb w
    = (Err e, w')
    /\ fs w' = fs w
    /\ trace w' = trace w
    /\ exists tool' key' value',
         tool' ∈ tools /\ Env tool' !! key' = Some value'
         /\ expand_value h (Version tool') value' = Err e.
Proof.
  intros Hin Hl Hbad.
  pose proof (export_loops_world tools sb w) as [n Hw].
  destruct (fold_each tools _ sb w) as [[sb1|e] w1] eqn:Hloop.
  - apply export_loops_ok in Hloop as (_ & _ & Hok).
    specialize (Hok tool key value Hin Hl). by rewrite Hok in Hbad.
  - exists e, w1. simpl in Hw.
    split; [done|]. split; [by rewrite Hw|]. split; [by rewrite Hw|].
    by eapply export_loops_error.
Qed.

End BadValue.

(** X16.  One environment value that cannot be expanded, in any tool of
    the manifest, keeps the whole script from being written:
    [generateActivationScript] returns the error of a value, as the
    template library gave it, without having made any call, so the file
    system and the trace are as before. *)
Theorem bad_value_writes_no_script :
  forall (h : Host) (env_name : string) (tools : list Tool) (w : World)
         (tool : Tool) (key value : string),
    tool ∈ tools ->
    Env tool !! key = Some value ->
    is_ok (expand_value h (Version tool) value) = false ->
    exists e w',
      generateActivationScript h env_name tools w = (Err e, w')
      /\ fs w' = fs w
      /\ trace w' = trace w
      /\ exists tool' key' value',
           tool' ∈ tools /\ Env tool' !! key' = Some value'
           /\ expand_value h (Version tool') value' = Err e.
Proof.
  intros h env_name tools w tool key value Hin Hl Hbad.
  unfold generateActivationScript. rewrite bind_apply.
  match goal with
  | |- context [fold_each tools ?body ?sb w] =>
      destruct (export_loops_bad_value h tools sb w tool key value Hin Hl Hbad)
        as (e & w' & Hloop & Hfs & Ht & Hof)
  end.
  exists e, w'. rewrite Hloop. done.
Qed.

Lemma bad_value_writes_no_script_witness :
  let host := sample_host {| Tools := [] |} 200 in
  let bad := {| Name := "zig"; Version := "0.14.0"; URL := "";
                Env := {[ "ZIG_HOME" := "storage/zig@{{version}}" ]};
                Normalization := None |} in
  exists e w',
    generateActivationScript host "env" [go_tool; bad] stale_world = (Err e, w')
    /\ fs w' = fs stale_world
    /\ trace w' = trace stale_world
    /\ exists tool' key' value',
         tool' ∈ [go_tool; bad] /\ Env tool' !! key' = Some value'
         /\ expand_value host (Version tool') value' = Err e.
Proof.
  intros host bad.
  refine (bad_value_writes_no_script host "env" [go_tool; bad] stale_world bad
            "ZIG_HOME" "storage/zig@{{version}}" _ _ _).
  - apply elem_of_cons. right. apply elem_of_cons. left. reflexivity.
  - reflexivity.
  - reflexivity.
Defined.

(** X17.  The environment values are expanded only when every tool is
    installed: a value that cannot be expanded lets the run download and
    unpack the whole manifest and then fail with the error of a value, not
    wrapped, leaving the file system as the last tool left it and no
    script written. *)
Theorem bad_value_is_found_after_every_install :
  forall (h : Host) (env_name : string) (w w0 w2 : World) (config : Config)
         (tool : Tool) (key value : string),
    loadEnv h w = (Ok config, w0) ->
    (prepare h env_name ;;
     for_each (Tools config) (setup_tool h (filepath.Join [env_name; "storage"])))%prog
      w0
    = (Ok tt, w2) ->
    tool ∈ Tools config ->
    Env tool !! key = Some value ->
    is_ok (expand_value h (Version tool) value) = false ->
    exists e w3,
      setup h env_name w = (Err e, w3)
      /\ fs w3 = fs w2
      /\ trace w3 = trace w2
      /\ exists tool' key' value',
           tool' ∈ Tools config /\ Env tool' !! key' = Some value'
           /\ expand_value h (Version tool') value' = Err e.
Proof.
  intros h env_name w w0 w2 config tool key value Hload Hrun Hin Hl Hbad.
  rewrite setup_unfold, Hload. rewrite bind_apply in Hrun.
  destruct (prepare h env_name w0) as [[[]|e1] w1]; [|done].
  rewrite Hrun, bind_apply. unfold generateActivationScript. rewrite bind_apply.
  match goal with
  | |- context [fold_each (Tools config) ?body ?sb w2] =>
      destruct (export_loops_bad_value h (Tools config) sb w2 tool key value
                  Hin Hl Hbad) as (e & w3 & Hloop & Hfs & Ht & Hof)
  end.
  exists e, w3. rewrite Hloop. done.
Qed.

Lemma bad_value_is_found_after_every_install_witness :
  let bad := {| Name := "zig"; Version := "0.14.0";
                URL := "https://ziglang.org/download/zig-{{.version}}.tar.xz";
                Env := {[ "ZIG_HOME" := "storage/zig@{{version}}" ]};
                Normalization := None |} in
  let host := sample_host {| Tools := [go_tool; bad] |} 200 in
  let w0 := log (EvClose "toolenv.yml") (log (EvOpen "toolenv.yml") stale_world) in
  let w2 := ((prepare host "env" ;;
              for_each [go_tool; bad] (setup_tool host "env/storage"))%prog w0).2 in
  exists e w3,
    setup host "env" stale_world = (Err e, w3)
    /\ fs w3 = fs w2
    /\ trace w3 = trace w2
    /\ exists tool' key' value',
         tool' ∈ [go_tool; bad] /\ Env tool' !! key' = Some value'
         /\ expand_value host (Version tool') value' = Err e.
Proof.
  intros bad host w0 w2.
  refine (bad_value_is_found_after_every_install host "env" stale_world w0 w2
            {| Tools := [go_tool; bad] |} bad "ZIG_HOME" "storage/zig@{{version}}"
            _ _ _ _ _).
  - reflexivity.
  - vm_compute. reflexivity.
  - apply elem_of_cons. right. apply elem_of_cons. left. reflexivity.
  - reflexivity.
  - reflexivity.
Defined.

(** ** The shell after sourcing the script *)

Module SourcedFacts.
Import sh.

(** The shell that has sourced the script a successful run wrote. *)
Lemma sourced_state h env_name tools w w' script st0 :
  generateActivationScript h env_name tools w = (Ok tt, w') ->
  files (fs w') !! filepath.Join [env_name; "bin"; "activate"] = Some script ->
  plain env_name = true ->
  tools_safe h tools ->
  source st0 script
  = Some (define "deactivate"
            (deactivate_body (flat_keys (ranges h (seed w + length tools) tools)))
            (activated env_name (flat_entries h (ranges h (seed w) tools)) st0)).
Proof.
  intros Hrun Hfile He Hs.
  rewrite (generated_script_text h env_name tools w w' Hrun) in Hfile.
  injection Hfile as <-.
  apply SourceFacts.source_script;
    [done | by apply safe_flat_entries | by apply safe_flat_keys].
Qed.

Lemma ranges_app h n (a b : list Tool) :
  ranges h n (a ++ b) = ranges h n a ++ ranges h (n + length a) b.
Proof.
  revert n. induction a as [|tool a IH]; intros n.
  - simpl. by rewrite Nat.add_0_r.
  - simpl. rewrite IH. do 3 f_equal. lia.
Qed.

Lemma flat_entries_app h (a b : list (Tool * list (string * string))) :
  flat_entries h (a ++ b) = flat_entries h a ++ flat_entries h b.
Proof. unfold flat_entries. apply flat_map_app. Qed.

Lemma getvar_export_effect_eq st key buf :
  key <> "PATH" ->
  getvar (export_effect st (key, buf)) key = getvar st "TOOLENV_DIR" +:+ "/" +:+ buf.
Proof.
  intros Hk. unfold export_effect.
  apply StrFacts.eqb_false in Hk. rewrite Hk.
  apply VarFacts.getvar_setvar_eq.
Qed.

(** Among entries with distinct keys, the entry of a key decides its
    value. *)
Lemma fold_export_entry entries st key buf :
  NoDup entries.*1 -> (key, buf) ∈ entries ->
  key <> "PATH" -> "TOOLENV_DIR" ∉ entries.*1 ->
  getvar (fold_left export_effect entries st) key
  = getvar st "TOOLENV_DIR" +:+ "/" +:+ buf.
Proof.
  intros Hnd Hin Hk Hd.
  apply list_elem_of_split in Hin as (l1 & l2 & ->).
  rewrite fmap_app, fmap_cons in Hnd, Hd. simpl in Hnd, Hd.
  apply NoDup_app in Hnd as (_ & _ & Hnd2).
  apply NoDup_cons in Hnd2 as [Hnot _].
  apply not_elem_of_app in Hd as [Hd1 _].
  rewrite fold_left_app.
  change (fold_left export_effect ((key, buf) :: l2) ?s)
    with (fold_left export_effect l2 (export_effect s (key, buf))).
  rewrite VarFacts.getvar_fold_export_other by done.
  rewrite getvar_export_effect_eq by done.
  by rewrite VarFacts.getvar_fold_export_other.
Qed.

Lemma activated_toolenv_dir env_name entries st0 :
  "TOOLENV_DIR" ∉ entries.*1 ->
  getvar (activated env_name entries st0) "TOOLENV_DIR" = cwd st0 +:+ "/" +:+ env_name.
Proof.
  intros Hd. unfold activated.
  rewrite !VarFacts.getvar_setvar_ne by done.
  rewrite VarFacts.getvar_fold_export_other by done.
  rewrite VarFacts.getvar_setvar_ne by done.
  apply VarFacts.getvar_setvar_eq.
Qed.

Lemma activated_ps1 env_name entries st0 :
  "PS1" ∉ entries.*1 ->
  getvar (activated env_name entries st0) "PS1" = "(toolenv:env) " +:+ getvar st0 "PS1".
Proof.
  intros Hd. unfold activated. rewrite VarFacts.getvar_setvar_eq.
  rewrite VarFacts.getvar_setvar_ne by done.
  rewrite VarFacts.getvar_fold_export_other by done.
  by rewrite !VarFacts.getvar_setvar_ne by done.
Qed.

End SourcedFacts.

(** X18.  What sourcing the script sets up, for any name of the
    environment: [TOOLENV_DIR] is the environment below the current
    directory, [PREVIOUS_PATH] and [OLD_PS1] hold the [PATH] and the prompt
    from before, the prompt gets the fixed prefix [(toolenv:env)] (the name
    of the environment is not used for it), [deactivate] is defined, and a
    variable that no tool declares and that is none of these four is left
    as it was. *)
Theorem activation_sets_its_bookkeeping :
  forall (h : Host) (env_name : string) (tools : list Tool) (w w' : World)
         (script : string) (st0 : sh.State),
    generateActivationScript h env_name tools w = (Ok tt, w') ->
    files (fs w') !! filepath.Join [env_name; "bin"; "activate"] = Some script ->
    plain env_name = true ->
    tools_safe h tools ->
    keys_avoid ["TOOLENV_DIR"; "PREVIOUS_PATH"; "OLD_PS1"; "PS1"] tools ->
    exists st1,
      sh.source st0 script = Some st1
      /\ sh.getvar st1 "TOOLENV_DIR" = sh.cwd st0 +:+ "/" +:+ env_name
      /\ sh.getvar st1 "PREVIOUS_PATH" = sh.getvar st0 "PATH"
      /\ sh.getvar st1 "OLD_PS1" = sh.getvar st0 "PS1"
      /\ sh.getvar st1 "PS1" = "(toolenv:env) " +:+ sh.getvar st0 "PS1"
      /\ is_Some (sh.funcs st1 !! "deactivate")
      /\ (forall x,
            (forall tool, tool ∈ tools -> Env tool !! x = None) ->
            x ∉ ["TOOLENV_DIR"; "PREVIOUS_PATH"; "OLD_PS1"; "PS1"] ->
            sh.vars st1 !! x = sh.vars st0 !! x).
Proof.
  intros h env_name tools w w' script st0 Hrun Hfile He Hs Ha.
  eexists. split; [by eapply SourcedFacts.sourced_state|].
  change (sh.getvar (sh.define ?f ?b ?st) ?x) with (sh.getvar st x).
  change (sh.vars (sh.define ?f ?b ?st)) with (sh.vars st).
  assert (Hav : forall x, x ∈ ["TOOLENV_DIR"; "PREVIOUS_PATH"; "OLD_PS1"; "PS1"] ->
                  x ∉ (flat_entries h (ranges h (seed w) tools)).*1).
  { intros x Hx. by eapply avoided_flat_entries. }
  split; [apply SourcedFacts.activated_toolenv_dir, Hav; in_list|].
  split.
  { unfold sh.getvar. rewrite DeactivateFacts.activated_previous_path; [done|].
    apply Hav. in_list. }
  split; [apply DeactivateFacts.activated_old_ps1, Hav; in_list|].
  split; [apply SourcedFacts.activated_ps1, Hav; in_list|].
  split; [simpl; by rewrite lookup_insert_eq|].
  intros x Hnone Hx.
  rewrite !not_elem_of_cons in Hx. destruct Hx as (H1 & H2 & H3 & H4 & _).
  apply DeactivateFacts.activated_other; try done.
  intros Hin. apply ManifestFacts.elem_flat_entries_keys in Hin
    as (tool & Ht & [value Hl]).
  by rewrite (Hnone tool Ht) in Hl.
Qed.

Lemma activation_sets_its_bookkeeping_witness :
  let w' := (generateActivationScript readme_host "venv" readme_tools empty_world).2 in
  exists st1,
    sh.source sample_shell
      (default "" (files (fs w') !! filepath.Join ["venv"; "bin"; "activate"]))
    = Some st1
    /\ sh.getvar st1 "TOOLENV_DIR" = sh.cwd sample_shell +:+ "/" +:+ "venv"
    /\ sh.getvar st1 "PREVIOUS_PATH" = sh.getvar sample_shell "PATH"
    /\ sh.getvar st1 "OLD_PS1" = sh.getvar sample_shell "PS1"
    /\ sh.getvar st1 "PS1" = "(toolenv:env) " +:+ sh.getvar sample_shell "PS1"
    /\ is_Some (sh.funcs st1 !! "deactivate")
    /\ (forall x,
          (forall tool, tool ∈ readme_tools -> Env tool !! x = None) ->
          x ∉ ["TOOLENV_DIR"; "PREVIOUS_PATH"; "OLD_PS1"; "PS1"] ->
          sh.vars st1 !! x = sh.vars sample_shell !! x).
Proof.
  intros w'.
  refine (activation_sets_its_bookkeeping readme_host "venv" readme_tools
            empty_world w' _ sample_shell _ _ _ _ _).
  - vm_compute. reflexivity.
  - vm_compute. reflexivity.
  - reflexivity.
  - exact readme_tools_safe.
  - exact readme_keys_avoid.
Defined.

(** X19.  A variable other than [PATH] that several tools declare gets
    the value of the tool declared last: in the shell that has sourced the
    script it is the expansion of that tool's value, below the directory of
    the environment. *)
Theorem last_declaration_of_a_variable_wins :
  forall (h : Host) (env_name : string) (tools : list Tool) (w w' : World)
         (script : string) (st0 : sh.State),
    generateActivationScript h env_name tools w = (Ok tt, w') ->
    files (fs w') !! filepath.Join [env_name; "bin"; "activate"] = Some script ->
    plain env_name = true ->
    tools_safe h tools ->
    keys_avoid ["TOOLENV_DIR"; "PREVIOUS_PATH"; "OLD_PS1"; "PS1"] tools ->
    exists st1,
      sh.source st0 script = Some st1
      /\ forall before tool after key value,
           tools = before ++ tool :: after ->
           Env tool !! key = Some value ->
           key <> "PATH" ->
           (forall later, later ∈ after -> Env later !! key = None) ->
           sh.getvar st1 key
           = (sh.cwd st0 +:+ "/" +:+ env_name) +:+ "/" +:+ expansion h tool value.
Proof.
  intros h env_name tools w w' script st0 Hrun Hfile He Hs Ha.
  eexists. split; [by eapply SourcedFacts.sourced_state|].
  intros before tool after key value Htools Hl Hk Hlater.
  change (sh.getvar (sh.define ?f ?b ?st) ?x) with (sh.getvar st x).
  assert (Hkey : key ∉ ["TOOLENV_DIR"; "PREVIOUS_PATH"; "OLD_PS1"; "PS1"]).
  { apply (Ha tool key); [|by exists value]. rewrite Htools.
    apply elem_of_app. right. apply elem_of_cons. by left. }
  assert (Hav : forall n x, x ∈ ["TOOLENV_DIR"; "PREVIOUS_PATH"; "OLD_PS1"; "PS1"] ->
                  x ∉ (flat_entries h (ranges h n tools)).*1).
  { intros n x Hx. by eapply avoided_flat_entries. }
  rewrite !not_elem_of_cons in Hkey. destruct Hkey as (K1 & K2 & K3 & K4 & _).
  unfold activated. rewrite !VarFacts.getvar_setvar_ne by done.
  specialize (Hav (seed w)). revert Hav. rewrite Htools.
  rewrite SourcedFacts.ranges_app. simpl ranges.
  rewrite SourcedFacts.flat_entries_app.
  change (flat_entries h ((tool, ?l) :: ?rs))
    with (map (fun '(key, value) => (key, expansion h tool value)) l
          ++ flat_entries h rs).
  intros Hav. rewrite !fold_left_app.
  assert (Hdir : "TOOLENV_DIR"
                 ∉ (flat_entries h (ranges h (seed w) before)
                    ++ map (fun '(key, value) => (key, expansion h tool value))
                         (host_range h (seed w + length before) (Env tool))
                    ++ flat_entries h (ranges h (S (seed w + length before)) after)).*1).
  { apply Hav. in_list. }
  rewrite !fmap_app in Hdir.
  apply not_elem_of_app in Hdir as [Hd1 Hdir].
  apply not_elem_of_app in Hdir as [Hd2 Hd3].
  rewrite VarFacts.getvar_fold_export_other.
  2:{ intros Hin. apply ManifestFacts.elem_flat_entries_keys in Hin
        as (later & Hin & [v Hv]).
      by rewrite (Hlater later Hin) in Hv. }
  rewrite (SourcedFacts.fold_export_entry _ _ key (expansion h tool value)); try done.
  - rewrite VarFacts.getvar_fold_export_other by done.
    rewrite VarFacts.getvar_setvar_ne by done.
    by rewrite VarFacts.getvar_setvar_eq.
  - rewrite <- list_fmap_compose.
    erewrite list_fmap_ext; [apply (ManifestFacts.range_nodup h)|].
    by intros i [k v] _.
  - apply list_elem_of_fmap. exists (key, value). split; [done|].
    by apply ManifestFacts.range_lookup.
Qed.

Lemma last_declaration_of_a_variable_wins_witness :
  let older := {| Name := "go"; Version := "1.24.0"; URL := "";
                  Env := {[ "GOROOT" := "storage/go@{{.version}}" ]};
                  Normalization := None |} in
  let tools := [older; go_tool; node_tool] in
  let w' := (generateActivationScript readme_host "env" tools empty_world).2 in
  exists st1,
    sh.source sample_shell
      (default "" (files (fs w') !! filepath.Join ["env"; "bin"; "activate"]))
    = Some st1
    /\ sh.getvar st1 "GOROOT"
       = (sh.cwd sample_shell +:+ "/" +:+ "env") +:+ "/"
         +:+ expansion readme_host go_tool "storage/go@{{.version}}".
Proof.
  intros older tools w'.
  assert (Hreadme : forall tool, tool ∈ [go_tool; node_tool] -> tool ∈ readme_tools).
  { intros tool Hin. apply elem_of_cons in Hin as [->|Hin].
    - apply elem_of_cons. right. apply elem_of_cons. left. reflexivity.
    - apply list_elem_of_singleton in Hin as ->. apply elem_of_cons. left. reflexivity. }
  assert (Hsafe : tools_safe readme_host tools).
  { intros tool key value Hin Hl.
    apply elem_of_cons in Hin as [->|Hin].
    - unfold older in Hl. simpl in Hl.
      apply lookup_singleton_Some in Hl as [<- <-]. split; reflexivity.
    - exact (readme_tools_safe tool key value (Hreadme tool Hin) Hl). }
  assert (Havoid : keys_avoid ["TOOLENV_DIR"; "PREVIOUS_PATH"; "OLD_PS1"; "PS1"] tools).
  { intros tool key Hin Hl.
    apply elem_of_cons in Hin as [->|Hin].
    - destruct Hl as [v Hl]. unfold older in Hl. simpl in Hl.
      apply lookup_singleton_Some in Hl as [<- _].
      rewrite !not_elem_of_cons. repeat split; try discriminate.
      apply not_elem_of_nil.
    - exact (readme_keys_avoid tool key (Hreadme tool Hin) Hl). }
  destruct (last_declaration_of_a_variable_wins readme_host "env" tools empty_world w'
              (default "" (files (fs w') !! filepath.Join ["env"; "bin"; "activate"]))
              sample_shell) as (st1 & Hsrc & Hlast).
  - vm_compute. reflexivity.
  - vm_compute. reflexivity.
  - reflexivity.
  - exact Hsafe.
  - exact Havoid.
  - exists st1. split; [exact Hsrc|].
    apply (Hlast [older] go_tool [node_tool] "GOROOT" "storage/go@{{.version}}").
    + reflexivity.
    + reflexivity.
    + discriminate.
    + intros later Hin. apply list_elem_of_singleton in Hin as ->. reflexivity.
Defined.

(** ** The storage before the first tool and after the last *)

Module StorageFacts.

(** The world a successful [prepare] leaves. *)
Lemma prepare_ok h env_name w w1 :
  prepare h env_name w = (Ok tt, w1) ->
  let bin_dir := filepath.Join [filepath.Join ["."; env_name]; "bin"] in
  let storage_dir := filepath.Join [env_name; "storage"] in
  dirs (fs w1)
  = filter (fun d => filepath.within storage_dir d = false)
      (list_to_set (filepath.prefixes bin_dir) ∪ dirs (fs w))
  /\ files (fs w1)
     = filter (fun kv => filepath.within storage_dir kv.1 = false) (files (fs w)).
Proof.
  rewrite StopFacts.prepare_unfold. unfold os_MkdirAll, os_RemoveAll.
  destruct (host_MkdirAll h w _); [done|].
  destruct (host_RemoveAll h _ _); [done|].
  by intros [= <-].
Qed.

(** A tool that is set up has its install directory. *)
Lemma setup_tool_makes_its_directory h storage_dir tool w w' :
  setup_tool h storage_dir tool w = (Ok tt, w') ->
  install_dir_of storage_dir tool ∈ dirs (fs w').
Proof.
  intros Hrun.
  destruct (resolved_url h tool) as [url|e] eqn:Hurl.
  2:{ rewrite (setup_tool_bad_url h storage_dir tool w e Hurl) in Hrun.
      discriminate Hrun. }
  destruct (host_MkdirAll h w (install_dir_of storage_dir tool)) as [e|] eqn:Hm.
  { exfalso. revert Hrun. unfold setup_tool, resolved_url in *.
    destruct (normalizeSystem h (Normalization tool)) as [os_name arch].
    simpl in Hurl. rewrite bind_apply. unfold wrap at 1, lift. rewrite Hurl.
    rewrite bind_apply. unfold wrap at 1, os_MkdirAll.
    fold (install_dir_of storage_dir tool). by rewrite Hm. }
  rewrite (ToolFacts.setup_tool_resolved h storage_dir tool w url Hurl Hm) in Hrun.
  destruct (grows_installTool h url (install_dir_of storage_dir tool)
              (at_install h storage_dir tool w)) as [Hsub _].
  assert (Hin : install_dir_of storage_dir tool
                ∈ dirs (fs (at_install h storage_dir tool w))).
  { unfold at_install. simpl. by apply ToolFacts.MkdirAll_makes. }
  apply Hsub in Hin.
  destruct (installTool h url _ _) as [[[]|e] w2]; [|done].
  by injection Hrun as <-.
Qed.

Lemma tools_make_their_directories h storage_dir tools tool w w' :
  for_each tools (setup_tool h storage_dir) w = (Ok tt, w') ->
  tool ∈ tools ->
  install_dir_of storage_dir tool ∈ dirs (fs w').
Proof.
  intros Hrun Hin.
  apply list_elem_of_split in Hin as (before & after & ->).
  rewrite for_each_app in Hrun.
  destruct (for_each before _ w) as [[[]|e] w1]; [|done].
  rewrite for_each_cons, bind_apply in Hrun.
  destruct (setup_tool h storage_dir tool w1) as [[[]|e] w2] eqn:Htool; [|done].
  apply setup_tool_makes_its_directory in Htool.
  destruct (grows_for_each after (setup_tool h storage_dir)
              (grows_setup_tool h storage_dir) w2) as [Hd _].
  rewrite Hrun in Hd. by apply Hd.
Qed.

End StorageFacts.

(** X20.  Once [env/bin] is made and the storage removed, nothing is left
    at or below the storage directory, neither directory nor file, so no
    install of an earlier run survives; every file outside the storage is
    as it was, and every directory outside it is still there. *)
Theorem prepare_wipes_the_storage_only :
  forall (h : Host) (env_name : string) (w w1 : World),
    prepare h env_name w = (Ok tt, w1) ->
    let storage_dir := filepath.Join [env_name; "storage"] in
    (forall p,
       filepath.within storage_dir p = true ->
       (p ∉ dirs (fs w1)) /\ files (fs w1) !! p = None)
    /\ (forall p,
          filepath.within storage_dir p = false ->
          files (fs w1) !! p = files (fs w) !! p
          /\ (p ∈ dirs (fs w) -> p ∈ dirs (fs w1))).
Proof.
  intros h env_name w w1 Hprep storage_dir.
  destruct (StorageFacts.prepare_ok h env_name w w1 Hprep) as [Hd Hf].
  fold storage_dir in Hd, Hf. split.
  - intros p Hin. split.
    + rewrite Hd. intros Hp. apply elem_of_filter in Hp as [Hp _].
      by rewrite Hin in Hp.
    + rewrite Hf. apply map_lookup_filter_None. right.
      intros x _ Hp. simpl in Hp. by rewrite Hin in Hp.
  - intros p Hout. split.
    + rewrite Hf. destruct (files (fs w) !! p) as [x|] eqn:Hp.
      * by apply map_lookup_filter_Some.
      * apply map_lookup_filter_None. by left.
    + intros Hp. rewrite Hd. apply elem_of_filter. split; [done|].
      by apply elem_of_union_r.
Qed.

Lemma prepare_wipes_the_storage_only_witness :
  let host := sample_host {| Tools := [] |} 200 in
  let earlier :=
    {| fs := {| dirs := {[ "env"; "env/bin"; "env/storage"; "env/storage/go@1.24.0" ]};
                files := {[ "env/bin/activate" := "# an older script";
                            "env/storage/go@1.24.0/bin/go" := "binary" ]} |};
       trace := []; seed := 0 |} in
  let w1 := (prepare host "env" earlier).2 in
  (forall p,
     filepath.within "env/storage" p = true ->
     (p ∉ dirs (fs w1)) /\ files (fs w1) !! p = None)
  /\ (forall p,
        filepath.within "env/storage" p = false ->
        files (fs w1) !! p = files (fs earlier) !! p
        /\ (p ∈ dirs (fs earlier) -> p ∈ dirs (fs w1))).
Proof.
  intros host earlier w1.
  refine (prepare_wipes_the_storage_only host "env" earlier w1 _).
  reflexivity.
Defined.

(** X21.  After a run that succeeds, [env/bin] exists and so does the
    install directory of every tool of the manifest. *)
Theorem successful_run_has_every_install_directory :
  forall (h : Host) (w w' : World),
    main_action h w = (Ok tt, w') ->
    exists (config : Config) (w0 : World),
      loadEnv h w = (Ok config, w0)
      /\ "env/bin" ∈ dirs (fs w')
      /\ forall tool,
           tool ∈ Tools config ->
           install_dir_of "env/storage" tool ∈ dirs (fs w').
Proof.
  intros h w w' Hrun. unfold main_action in Hrun. rewrite setup_unfold in Hrun.
  destruct (loadEnv h w) as [[config|e] w0]; [|done].
  destruct (prepare h "env" w0) as [[[]|e] w1] eqn:Hprep; [|done].
  apply StorageFacts.prepare_ok in Hprep as [Hd1 _].
  change (filepath.Join ["env"; "storage"]) with "env/storage" in *.
  change (filepath.Join [filepath.Join ["."; "env"]; "bin"]) with "env/bin" in Hd1.
  destruct (for_each (Tools config) _ w1) as [[[]|e] w2] eqn:Hloop; [|done].
  rewrite bind_apply in Hrun.
  destruct (generateActivationScript h "env" (Tools config) w2)
    as [[[]|e] w3] eqn:Hgen; [|done].
  apply generateActivationScript_ok in Hgen as (_ & _ & ->).
  injection Hrun as <-. exists config, w0. split; [done|]. simpl. split.
  - destruct (grows_for_each (Tools config) (setup_tool h "env/storage")
                (grows_setup_tool h "env/storage") w1) as [Hsub _].
    rewrite Hloop in Hsub. apply Hsub. rewrite Hd1.
    apply elem_of_filter. split; [reflexivity|].
    apply elem_of_union_l, elem_of_list_to_set.
    apply (ToolFacts.prefixes_from_last "" "env/bin").
  - intros tool Hin. by eapply StorageFacts.tools_make_their_directories.
Qed.

Lemma successful_run_has_every_install_directory_witness :
  exists (config : Config) (w0 : World),
    loadEnv readme_host stale_world = (Ok config, w0)
    /\ "env/bin" ∈ dirs (fs (main_action readme_host stale_world).2)
    /\ forall tool,
         tool ∈ Tools config ->
         install_dir_of "env/storage" tool
         ∈ dirs (fs (main_action readme_host stale_world).2).
Proof.
  refine (successful_run_has_every_install_directory readme_host stale_world _ _).
  vm_compute. reflexivity.
Defined.

(** ** The order in which a map is ranged over *)

Module OrderFacts.
Import sh.

(** Two export lines for different variables can be swapped. *)
Lemma export_effect_comm st k1 b1 k2 b2 :
  k1 <> k2 -> k1 <> "TOOLENV_DIR" -> k2 <> "TOOLENV_DIR" ->
  export_effect (export_effect st (k1, b1)) (k2, b2)
  = export_effect (export_effect st (k2, b2)) (k1, b1).
Proof.
  intros Hne H1 H2. unfold export_effect.
  destruct (Str.eqb k1 "PATH") eqn:Hp1; destruct (Str.eqb k2 "PATH") eqn:Hp2.
  - apply StrFacts.eqb_true in Hp1, Hp2. congruence.
  - apply StrFacts.eqb_true in Hp1 as ->. apply StrFacts.eqb_false in Hp2.
    rewrite !VarFacts.getvar_setvar_ne by done.
    unfold setvar. simpl. f_equal. by apply insert_insert_ne.
  - apply StrFacts.eqb_true in Hp2 as ->. apply StrFacts.eqb_false in Hp1.
    rewrite !VarFacts.getvar_setvar_ne by done.
    unfold setvar. simpl. f_equal. by apply insert_insert_ne.
  - rewrite !VarFacts.getvar_setvar_ne by done.
    unfold setvar. simpl. f_equal. by apply insert_insert_ne.
Qed.

(** Export lines for distinct variables can be run in any order. *)
Lemma fold_export_perm (l1 l2 : list (string * string)) st :
  l1 ≡ₚ l2 -> NoDup l1.*1 -> "TOOLENV_DIR" ∉ l1.*1 ->
  fold_left export_effect l1 st = fold_left export_effect l2 st.
Proof.
  intros Hperm. revert st.
  induction Hperm as [|[k b] l1 l2 Hperm IH|[k1 b1] [k2 b2] l|l1 l2 l3 H12 IH12 H23 IH23];
    intros st Hnd Hd.
  - done.
  - simpl in Hnd, Hd. apply NoDup_cons in Hnd as [_ Hnd].
    apply not_elem_of_cons in Hd as [_ Hd]. cbn [fold_left]. by apply IH.
  - simpl in Hnd, Hd. apply NoDup_cons in Hnd as [Hnot _].
    apply not_elem_of_cons in Hnot as [Hne _].
    apply not_elem_of_cons in Hd as [Hd1 Hd].
    apply not_elem_of_cons in Hd as [Hd2 _].
    cbn [fold_left]. by rewrite export_effect_comm.
  - rewrite IH12 by done. apply IH23.
    + by rewrite <- H12.
    + by rewrite <- H12.
Qed.

Lemma keys_of_expanded h tool (l : list (string * string)) :
  (map (fun '(key, value) => (key, expansion h tool value)) l).*1 = l.*1.
Proof.
  rewrite <- list_fmap_compose. apply list_fmap_ext. by intros i [k v] _.
Qed.

(** The variables the export lines set do not depend on the order in which
    the entries of each tool were met. *)
Lemma fold_flat_entries_seed h tools n n' st :
  keys_avoid ["TOOLENV_DIR"] tools ->
  fold_left export_effect (flat_entries h (ranges h n tools)) st
  = fold_left export_effect (flat_entries h (ranges h n' tools)) st.
Proof.
  revert n n' st. induction tools as [|tool tools IH]; intros n n' st Ha; [done|].
  simpl ranges.
  change (flat_entries h ((tool, ?l) :: ?rs))
    with (map (fun '(key, value) => (key, expansion h tool value)) l
          ++ flat_entries h rs).
  rewrite !fold_left_app.
  rewrite (fold_export_perm
             (map (fun '(key, value) => (key, expansion h tool value))
                (host_range h n (Env tool)))
             (map (fun '(key, value) => (key, expansion h tool value))
                (host_range h n' (Env tool)))).
  - apply IH. intros t k Hin. apply Ha. apply elem_of_cons. by right.
  - apply fmap_Permutation.
    by rewrite (host_range_perm h n), (host_range_perm h n').
  - rewrite keys_of_expanded. apply ManifestFacts.range_nodup.
  - rewrite keys_of_expanded. intros Hin.
    apply list_elem_of_fmap in Hin as ([k v] & Hk & Hin). simpl in Hk. subst k.
    apply ManifestFacts.range_lookup in Hin.
    apply (Ha tool "TOOLENV_DIR"); [apply elem_of_cons; by left|by exists v|].
    apply elem_of_cons. by left.
Qed.

End OrderFacts.

(** X22.  The runtime picks the order in which the entries of a map are
    met, and so the order of the lines of the script; the variables of the
    shell that has sourced the script do not depend on it: two scripts
    generated for the same tools, whatever the orders picked, leave the same
    variables. *)
Theorem activation_does_not_depend_on_map_order :
  forall (h : Host) (env_name : string) (tools : list Tool)
         (wa wa' wb wb' : World) (script_a script_b : string) (st0 : sh.State),
    generateActivationScript h env_name tools wa = (Ok tt, wa') ->
    generateActivationScript h env_name tools wb = (Ok tt, wb') ->
    files (fs wa') !! filepath.Join [env_name; "bin"; "activate"] = Some script_a ->
    files (fs wb') !! filepath.Join [env_name; "bin"; "activate"] = Some script_b ->
    plain env_name = true ->
    tools_safe h tools ->
    keys_avoid ["TOOLENV_DIR"] tools ->
    exists sta stb,
      sh.source st0 script_a = Some sta
      /\ sh.source st0 script_b = Some stb
      /\ sh.vars sta = sh.vars stb.
Proof.
  intros h env_name tools wa wa' wb wb' script_a script_b st0
    Hra Hrb Hfa Hfb He Hs Ha.
  eexists _, _.
  split;
    [exact (SourcedFacts.sourced_state h env_name tools wa wa' script_a st0
              Hra Hfa He Hs)|].
  split;
    [exact (SourcedFacts.sourced_state h env_name tools wb wb' script_b st0
              Hrb Hfb He Hs)|].
  change (sh.vars (sh.define ?f ?b ?st)) with (sh.vars st).
  unfold activated.
  by rewrite (OrderFacts.fold_flat_entries_seed h tools (seed wa) (seed wb)).
Qed.

Lemma activation_does_not_depend_on_map_order_witness :
  let wa' := (generateActivationScript alternating_host "env" readme_tools
                (reseed 0 stale_world)).2 in
  let wb' := (generateActivationScript alternating_host "env" readme_tools
                (reseed 1 stale_world)).2 in
  files (fs wa') !! "env/bin/activate" <> files (fs wb') !! "env/bin/activate"
  /\ exists sta stb,
       sh.source sample_shell (default "" (files (fs wa') !! "env/bin/activate"))
       = Some sta
       /\ sh.source sample_shell (default "" (files (fs wb') !! "env/bin/activate"))
          = Some stb
       /\ sh.vars sta = sh.vars stb.
Proof.
  intros wa' wb'.
  assert (Hsafe : tools_safe alternating_host readme_tools).
  { intros tool key value Hin Hl.
    destruct (readme_entries tool key value Hin Hl)
      as [(-> & -> & ->)|[(-> & -> & ->)|(-> & -> & ->)]]; split; reflexivity. }
  split.
  - vm_compute. discriminate.
  - refine (activation_does_not_depend_on_map_order alternating_host "env"
              readme_tools (reseed 0 stale_world) wa' (reseed 1 stale_world) wb'
              _ _ sample_shell _ _ _ _ _ Hsafe readme_keys_avoid_dir).
    + vm_compute. reflexivity.
    + vm_compute. reflexivity.
    + vm_compute. reflexivity.
    + vm_compute. reflexivity.
    + reflexivity.
Defined.

(** ** The closing messages *)

Module ClosingFacts.

Lemma no_closing_message_nil env_name : no_closing_message env_name [].
Proof. intros text _ He. by apply elem_of_nil in He. Qed.

Lemma no_closing_message_app env_name a b :
  no_closing_message env_name a -> no_closing_message env_name b ->
  no_closing_message env_name (a ++ b).
Proof.
  intros Ha Hb text Hin He. apply elem_of_app in He as [He|He].
  - by apply (Ha text).
  - by apply (Hb text).
Qed.

(** An event that is no message. *)
Lemma no_closing_message_call env_name e :
  (forall text, e <> EvPrintf text) -> no_closing_message env_name [e].
Proof.
  intros Hne text _ He. apply list_elem_of_singleton in He.
  by apply (Hne text).
Qed.

(** A message that begins with another byte than the closing messages. *)
Lemma no_closing_message_progress env_name c text :
  c <> "E"%char -> c <> "A"%char ->
  no_closing_message env_name [EvPrintf (String c text)].
Proof.
  intros HE HA msg Hin He. apply list_elem_of_singleton in He.
  injection He as ->. unfold closing_messages in Hin.
  apply elem_of_cons in Hin as [Hin|Hin].
  - rewrite StrFacts.app_cons in Hin. injection Hin as Hc _. by apply HE.
  - apply list_elem_of_singleton in Hin.
    rewrite StrFacts.app_cons in Hin. injection Hin as Hc _. by apply HA.
Qed.

Lemma no_closing_message_installTool h env_name url install_dir :
  emits (no_closing_message env_name) (installTool h url install_dir).
Proof.
  pose proof (no_closing_message_nil env_name) as Hnil.
  pose proof (no_closing_message_app env_name) as Happ.
  unfold installTool, extractTarGz, extractTarXz. emits.
  all: try (by apply no_closing_message_call).
  all: by apply no_closing_message_progress.
Qed.

Lemma no_closing_message_setup_tool h env_name storage_dir tool :
  emits (no_closing_message env_name) (setup_tool h storage_dir tool).
Proof.
  pose proof (no_closing_message_nil env_name) as Hnil.
  pose proof (no_closing_message_app env_name) as Happ.
  unfold setup_tool. destruct (normalizeSystem h (Normalization tool)) as [os_name arch].
  apply emits_bind; [assumption|emits|intros url].
  apply emits_bind;
    [assumption|emits; by apply no_closing_message_call|intros _].
  apply emits_bind; [assumption| |intros _].
  { apply emits_Printf. unfold nl. rewrite StrFacts.app_cons.
    by apply no_closing_message_progress. }
  apply emits_bind; [assumption| |intros _].
  - apply emits_wrap, no_closing_message_installTool.
  - apply emits_Printf. by apply no_closing_message_progress.
Qed.

(** The steps of [setup] before the closing messages. *)
Lemma no_closing_message_before h env_name :
  emits (no_closing_message env_name)
    (config <- loadEnv h ;
     prepare h env_name ;;
     for_each (Tools config) (setup_tool h (filepath.Join [env_name; "storage"])) ;;
     generateActivationScript h env_name (Tools config))%prog.
Proof.
  pose proof (no_closing_message_nil env_name) as Hnil.
  pose proof (no_closing_message_app env_name) as Happ.
  apply emits_bind; [assumption| |intros config].
  { apply emits_loadEnv; [assumption|by apply no_closing_message_call..]. }
  apply emits_bind; [assumption| |intros _].
  { unfold prepare. emits; by apply no_closing_message_call. }
  apply emits_bind; [assumption| |intros _].
  { apply emits_for_each; [assumption..|]. intros tool.
    apply no_closing_message_setup_tool. }
  apply emits_generateActivationScript; [assumption..|].
  intros data. by apply no_closing_message_call.
Qed.

(** [setup] is these steps and then the two messages. *)
Lemma setup_closing h env_name w :
  setup h env_name w
  = match (config <- loadEnv h ;
           prepare h env_name ;;
           for_each (Tools config)
             (setup_tool h (filepath.Join [env_name; "storage"])) ;;
           generateActivationScript h env_name (Tools config))%prog w with
    | (Ok _, w3) =>
        (Ok tt,
         log (EvPrintf ("Activate with: source ./" +:+ filepath.Join ["."; env_name]
                          +:+ "/bin/activate" +:+ nl))
           (log (EvPrintf ("Environment created at ./"
                             +:+ filepath.Join ["."; env_name] +:+ nl)) w3))
    | (Err e, w3) => (Err e, w3)
    end.
Proof.
  rewrite setup_unfold, !bind_apply.
  destruct (loadEnv h w) as [[config|e] w0]; [|done].
  rewrite !bind_apply.
  destruct (prepare h env_name w0) as [[[]|e] w1]; [|done].
  rewrite !bind_apply.
  destruct (for_each (Tools config) _ w1) as [[[]|e] w2]; [|done].
  rewrite bind_apply.
  by destruct (generateActivationScript h env_name (Tools config) w2)
    as [[[]|e] w3].
Qed.

End ClosingFacts.

(** X23.  The two closing messages tell whether the run succeeded: a run
    that succeeds prints both as its last two events, and a run that fails,
    wherever it fails, prints neither. *)
Theorem closing_messages_mean_success :
  forall (h : Host) (env_name : string) (w : World),
    exists events,
      no_closing_message env_name events
      /\ (is_ok (setup h env_name w).1 = true ->
          trace (setup h env_name w).2
          = trace w ++ events ++ map EvPrintf (closing_messages env_name))
      /\ (is_ok (setup h env_name w).1 = false ->
          trace (setup h env_name w).2 = trace w ++ events).
Proof.
  intros h env_name w.
  destruct (ClosingFacts.no_closing_message_before h env_name w)
    as (events & Ht & Hq).
  exists events. split; [done|].
  rewrite ClosingFacts.setup_closing.
  destruct ((config <- loadEnv h ; _)%prog w) as [[[]|e] w3]; simpl in *.
  - split; [|done]. intros _. rewrite Ht. by rewrite <- !app_assoc.
  - split; [done|]. by intros _.
Qed.

Lemma closing_messages_mean_success_witness :
  let failing := sample_host {| Tools := readme_tools |} 404 in
  exists events_ok events_failed,
    (no_closing_message "env" events_ok
     /\ trace (setup readme_host "env" stale_world).2
        = trace stale_world ++ events_ok ++ map EvPrintf (closing_messages "env"))
    /\ (no_closing_message "env" events_failed
        /\ trace (setup failing "env" stale_world).2
           = trace stale_world ++ events_failed).
Proof.
  intros failing.
  destruct (closing_messages_mean_success readme_host "env" stale_world)
    as (events_ok & Hq1 & Hok & _).
  destruct (closing_messages_mean_success failing "env" stale_world)
    as (events_failed & Hq2 & _ & Hfailed).
  exists events_ok, events_failed.
  refine (conj (conj Hq1 (Hok _)) (conj Hq2 (Hfailed _))).
  - vm_compute. reflexivity.
  - vm_compute. reflexivity.
Defined.
